(** * AI Screening backend (main.py): model and verified properties

    A shallow embedding of [backend/src/main.py]: the helpers
    [extract_pdf_text], [mock_score_candidate], [coerce_json_from_model],
    [truncate_for_model], [openai_score_cv] and the request handler
    [screen_candidates], together with the parts of the Python runtime they
    call (str methods, the two regular expressions, [json.loads], binary64
    floats with [round], [hashlib.sha1], the Mersenne Twister of [random],
    stable [list.sort]).

    Conventions.
    - A Python [str] is a list of Unicode code points ([pystr := list Z]).
    - A Python [float] is a value of [pyfloat]: a finite binary64 value given
      exactly, in units of 2^-1074, or one of the infinities, or NaN.  The
      sign of zero is not represented.
    - Exceptions are values of [exn]; code that may raise returns [result].
    - The handler runs in a state-and-exception monad over [World], which
      holds the state of the global random generator, the number of requests
      sent to the model service and a ghost log of scorer invocations.
    - [print] calls are omitted. *)

From Stdlib Require Import ZArith List Bool Ascii String Lia Sorted Permutation.
Import ListNotations.
Local Open Scope Z_scope.
Set Warnings "-register-all".

(* ================================================================== *)
(** * Python strings *)
(* ================================================================== *)

Definition pystr := list Z.

(** A literal: the code points of an ASCII Rocq string. *)
Definition str (s : string) : pystr :=
  map (fun a => Z.of_N (N_of_ascii a)) (list_ascii_of_string s).

(** The same, with every apostrophe read as a double quote (JSON literals). *)
Definition jstr (s : string) : pystr :=
  map (fun c => if c =? 39 then 34 else c) (str s).

Definition NL : Z := 10.
Definition LBRACE : Z := 123.
Definition RBRACE : Z := 125.

Definition len (s : pystr) : Z := Z.of_nat (List.length s).

Fixpoint str_eqb (a b : pystr) : bool :=
  match a, b with
  | [], [] => true
  | x :: a', y :: b' => (x =? y) && str_eqb a' b'
  | _, _ => false
  end.

(** [str.isspace] of one character, which is also the class [\s] of [re]
    for str patterns. *)
Definition is_space (c : Z) : bool :=
  ((9 <=? c) && (c <=? 13)) || ((28 <=? c) && (c <=? 32))
  || (c =? 133) || (c =? 160) || (c =? 5760)
  || ((8192 <=? c) && (c <=? 8202))
  || (c =? 8232) || (c =? 8233) || (c =? 8239) || (c =? 8287) || (c =? 12288).

Fixpoint drop_while (p : Z -> bool) (s : pystr) : pystr :=
  match s with
  | [] => []
  | c :: s' => if p c then drop_while p s' else s
  end.

Fixpoint take_while (p : Z -> bool) (s : pystr) : pystr :=
  match s with
  | [] => []
  | c :: s' => if p c then c :: take_while p s' else []
  end.

Definition lstrip (s : pystr) : pystr := drop_while is_space s.
Definition rstrip (s : pystr) : pystr := rev (drop_while is_space (rev s)).

(** [s.strip()] *)
Definition strip (s : pystr) : pystr := rstrip (lstrip s).

(** [s.startswith(p)] *)
Fixpoint startswith (s p : pystr) : bool :=
  match p, s with
  | [], _ => true
  | x :: p', y :: s' => (x =? y) && startswith s' p'
  | _ :: _, [] => false
  end.

(** [s.endswith(p)] *)
Definition endswith (s p : pystr) : bool := startswith (rev s) (rev p).

(** [s.find(c)] for a one-character needle: the first index, or -1. *)
Fixpoint find (s : pystr) (c : Z) : Z :=
  match s with
  | [] => -1
  | x :: s' =>
      if x =? c then 0
      else let i := find s' c in if i =? -1 then -1 else i + 1
  end.

(** [s.rfind(c)] for a one-character needle: the last index, or -1. *)
Fixpoint rfind (s : pystr) (c : Z) : Z :=
  match s with
  | [] => -1
  | x :: s' =>
      let i := rfind s' c in
      if i =? -1 then (if x =? c then 0 else -1) else i + 1
  end.

(** Slice bounds: a negative index counts from the end, and every index is
    clipped to [0, len]. *)
Definition slice_index (n i : Z) : Z :=
  if i <? 0 then Z.max 0 (n + i) else Z.min i n.

(** [s[start:stop]]; [None] is an omitted bound. *)
Definition slice (s : pystr) (start stop : option Z) : pystr :=
  let n := len s in
  let a := match start with Some i => slice_index n i | None => 0 end in
  let b := match stop with Some i => slice_index n i | None => n end in
  firstn (Z.to_nat (b - a)) (skipn (Z.to_nat a) s).

(** [sep.join(parts)] *)
Fixpoint join (sep : pystr) (parts : list pystr) : pystr :=
  match parts with
  | [] => []
  | [p] => p
  | p :: rest => p ++ sep ++ join sep rest
  end.

(** Decimal digits of a natural number, most significant first
    ([str(n)] for an int [n >= 0]). *)
Fixpoint digits_fuel (fuel : nat) (n : Z) (acc : pystr) : pystr :=
  match fuel with
  | O => acc
  | S f =>
      let acc' := (48 + n mod 10) :: acc in
      if n <? 10 then acc' else digits_fuel f (n / 10) acc'
  end.

Definition str_of_int (n : Z) : pystr :=
  if n <? 0 then 45 :: digits_fuel (S (Z.to_nat (Z.log2 (- n)))) (- n) []
  else digits_fuel (S (Z.to_nat (Z.log2 n))) n [].

(* ================================================================== *)
(** * truncate_for_model *)
(* ================================================================== *)

Definition MAX_CHARS_PER_CV : Z := 20000.

Definition ELISION : pystr := [NL; 46; 46; 46; NL].

Definition truncate_for_model (text : pystr) (max_chars : Z) : pystr :=
  if len text <=? max_chars then text
  else
    let half := max_chars / 2 in
    slice text None (Some half) ++ ELISION ++ slice text (Some (- half)) None.

(* ================================================================== *)
(** * Python floats (IEEE 754 binary64) *)
(* ================================================================== *)

(** Every finite binary64 value is an integer multiple of 2^-1074, the
    smallest subnormal.  [Fin n] is the value [n * 2^-1074]. *)
Inductive pyfloat : Type :=
| Fin (n : Z)
| PInf
| NInf
| NaN.

Definition UNIT : Z := 2 ^ 1074.

(** First magnitude, in units, that is out of range: 2^1024. *)
Definition HUGE : Z := 2 ^ 2098.

(** The float of a small integer ([|n| < 2^53], so the value is exact). *)
Definition FZ (n : Z) : pyfloat := Fin (n * UNIT).

(** Quotient [a / b] ([b > 0]) rounded to the nearest integer, ties to even. *)
Definition rne (a b : Z) : Z :=
  let q := a / b in
  let r := a mod b in
  match 2 * r ?= b with
  | Lt => q
  | Gt => q + 1
  | Eq => if Z.even q then q else q + 1
  end.

(** Spacing of the binary64 grid around a magnitude of [t] units is
    [2 ^ binade_shift t] units: 1 unit below 2^53 units (subnormals and the
    first binade), doubling with each further binade. *)
Definition binade_shift (t : Z) : Z := Z.max 0 (Z.log2 t - 52).

(** The grid point nearest to the rational [a / b] units ([b > 0]),
    ties to even, exponent range unbounded above. *)
Definition round_units (a b : Z) : Z :=
  let k := binade_shift (Z.abs a / b) in
  rne a (b * 2 ^ k) * 2 ^ k.

(** Correctly rounded conversion of the rational [a / b] units to a float
    (round to nearest, ties to even, overflow to infinity). *)
Definition rnd (a b : Z) : pyfloat :=
  let n := round_units a b in
  if HUGE <=? n then PInf
  else if n <=? - HUGE then NInf
  else Fin n.

(** [n] units is a binary64 value: on the grid of its binade and in range. *)
Definition is_double (n : Z) : bool :=
  (Z.abs n <? HUGE) && (n mod 2 ^ binade_shift (Z.abs n) =? 0).

Definition float_wf (x : pyfloat) : Prop :=
  match x with
  | Fin n => is_double n = true
  | _ => True
  end.

(** [x + y] *)
Definition fadd (x y : pyfloat) : pyfloat :=
  match x, y with
  | NaN, _ | _, NaN => NaN
  | PInf, NInf | NInf, PInf => NaN
  | PInf, _ | _, PInf => PInf
  | NInf, _ | _, NInf => NInf
  | Fin a, Fin b => rnd (a + b) 1
  end.

(** [x * y] *)
Definition fmul (x y : pyfloat) : pyfloat :=
  match x, y with
  | NaN, _ | _, NaN => NaN
  | Fin a, Fin b => rnd (a * b) UNIT
  | Fin a, PInf | PInf, Fin a =>
      if a =? 0 then NaN else if 0 <? a then PInf else NInf
  | Fin a, NInf | NInf, Fin a =>
      if a =? 0 then NaN else if 0 <? a then NInf else PInf
  | PInf, PInf | NInf, NInf => PInf
  | PInf, NInf | NInf, PInf => NInf
  end.

(** [x < y]; every comparison with NaN is false. *)
Definition flt (x y : pyfloat) : bool :=
  match x, y with
  | NaN, _ | _, NaN => false
  | _, NInf => false
  | NInf, _ => true
  | PInf, _ => false
  | _, PInf => true
  | Fin a, Fin b => a <? b
  end.

(** [x <= y] *)
Definition fle (x y : pyfloat) : bool :=
  match x, y with
  | NaN, _ | _, NaN => false
  | NInf, _ => true
  | _, PInf => true
  | _, NInf => false
  | PInf, _ => false
  | Fin a, Fin b => a <=? b
  end.

(** The builtin [min(a, b)]: [b] replaces [a] only when [b < a]. *)
Definition py_min (a b : pyfloat) : pyfloat := if flt b a then b else a.

(** The builtin [max(a, b)]: [b] replaces [a] only when [b > a]. *)
Definition py_max (a b : pyfloat) : pyfloat := if flt a b then b else a.

(** The decimal [m * 10^e] as a float, as [float("...")] computes it. *)
Definition float_of_decimal (m e : Z) : pyfloat :=
  if 0 <=? e then rnd (m * 10 ^ e * UNIT) 1
  else rnd (m * UNIT) (10 ^ (- e)).

(** The value [k / 100]. *)
Definition hundredths (k : Z) : pyfloat := float_of_decimal k (-2).

(* ================================================================== *)
(** * Exceptions *)
(* ================================================================== *)

Inductive exn : Type :=
| HTTPException (status_code : Z) (detail : pystr)
| JSONDecodeError
| ValueError
| TypeError
| AttributeError
| OverflowError
| UnicodeEncodeError
| ServiceError (message : pystr).

Inductive result (A : Type) : Type :=
| Ok (a : A)
| Raise (e : exn).
Arguments Ok {A} a.
Arguments Raise {A} e.

(* ================================================================== *)
(** * str.encode(), hashlib.sha1 *)
(* ================================================================== *)

Definition is_surrogate (c : Z) : bool := (55296 <=? c) && (c <=? 57343).

(** UTF-8 bytes of one code point (not a surrogate). *)
Definition utf8_char (c : Z) : list Z :=
  if c <? 128 then [c]
  else if c <? 2048 then [192 + c / 64; 128 + c mod 64]
  else if c <? 65536 then [224 + c / 4096; 128 + (c / 64) mod 64; 128 + c mod 64]
  else [240 + c / 262144; 128 + (c / 4096) mod 64; 128 + (c / 64) mod 64;
        128 + c mod 64].

(** [s.encode()]: UTF-8, strict; a lone surrogate raises. *)
Fixpoint encode (s : pystr) : result (list Z) :=
  match s with
  | [] => Ok []
  | c :: s' =>
      if is_surrogate c then Raise UnicodeEncodeError
      else match encode s' with
           | Ok bs => Ok (utf8_char c ++ bs)
           | Raise e => Raise e
           end
  end.

Module SHA1.

Definition wrap32 (x : Z) : Z := x mod 2 ^ 32.

Definition rotl (x n : Z) : Z :=
  Z.lor (wrap32 (Z.shiftl x n)) (Z.shiftr x (32 - n)).

(** [n] as [k] bytes, most significant first. *)
Fixpoint be_bytes (k : nat) (n : Z) : list Z :=
  match k with
  | O => []
  | S k' => (n / 256 ^ Z.of_nat k') mod 256 :: be_bytes k' n
  end.

Fixpoint be_int (bs : list Z) (acc : Z) : Z :=
  match bs with
  | [] => acc
  | b :: bs' => be_int bs' (acc * 256 + b)
  end.

(** Message padding: a 1 bit, zeros up to 56 mod 64 bytes, then the bit
    length as a 64-bit big-endian integer. *)
Definition pad (msg : list Z) : list Z :=
  let l := Z.of_nat (List.length msg) in
  let z := (55 - l) mod 64 in
  msg ++ [128] ++ repeat 0 (Z.to_nat z) ++ be_bytes 8 (8 * l).

Fixpoint words (k : nat) (bs : list Z) : list Z :=
  match k with
  | O => []
  | S k' => be_int (firstn 4 bs) 0 :: words k' (skipn 4 bs)
  end.

(** Message schedule: extend [w] (most recent word first) to 80 words. *)
Fixpoint schedule (k : nat) (w : list Z) : list Z :=
  match k with
  | O => w
  | S k' =>
      let x := Z.lxor (Z.lxor (nth 2 w 0) (nth 7 w 0))
                      (Z.lxor (nth 13 w 0) (nth 15 w 0)) in
      schedule k' (rotl x 1 :: w)
  end.

Definition state : Type := (Z * Z * Z * Z * Z)%type.

Definition round (t : Z) (st : state) (wt : Z) : state :=
  let '(a, b, c, d, e) := st in
  let f :=
    if t <? 20 then Z.lor (Z.land b c) (Z.land (Z.lxor b 4294967295) d)
    else if t <? 40 then Z.lxor (Z.lxor b c) d
    else if t <? 60 then Z.lor (Z.lor (Z.land b c) (Z.land b d)) (Z.land c d)
    else Z.lxor (Z.lxor b c) d in
  let k :=
    if t <? 20 then 1518500249
    else if t <? 40 then 1859775393
    else if t <? 60 then 2400959708
    else 3395469782 in
  (wrap32 (rotl a 5 + f + e + k + wt), a, rotl b 30, c, d).

Fixpoint rounds (t : Z) (ws : list Z) (st : state) : state :=
  match ws with
  | [] => st
  | wt :: ws' => rounds (t + 1) ws' (round t st wt)
  end.

Definition compress (st : state) (block : list Z) : state :=
  let w := rev (schedule 64 (rev (words 16 block))) in
  let '(a, b, c, d, e) := rounds 0 w st in
  let '(h0, h1, h2, h3, h4) := st in
  (wrap32 (h0 + a), wrap32 (h1 + b), wrap32 (h2 + c), wrap32 (h3 + d),
   wrap32 (h4 + e)).

Fixpoint blocks (k : nat) (bs : list Z) (st : state) : state :=
  match k with
  | O => st
  | S k' => blocks k' (skipn 64 bs) (compress st (firstn 64 bs))
  end.

Definition init : state :=
  (1732584193, 4023233417, 2562383102, 271733878, 3285377520).

(** The 20-byte digest. *)
Definition digest (msg : list Z) : list Z :=
  let p := pad msg in
  let '(h0, h1, h2, h3, h4) := blocks (List.length p / 64)%nat p init in
  be_bytes 4 h0 ++ be_bytes 4 h1 ++ be_bytes 4 h2 ++ be_bytes 4 h3
    ++ be_bytes 4 h4.

Definition hex_digit (d : Z) : Z := if d <? 10 then 48 + d else 87 + d.

(** [.hexdigest()]: 40 lowercase hexadecimal digits. *)
Definition hexdigest (msg : list Z) : pystr :=
  flat_map (fun b => [hex_digit (b / 16); hex_digit (b mod 16)]) (digest msg).

End SHA1.

(** [int(s, 16)] on a string of lowercase hexadecimal digits. *)
Definition int_of_hex (s : pystr) : Z :=
  fold_left (fun acc c => acc * 16 + (if c <? 58 then c - 48 else c - 87)) s 0.

(* ================================================================== *)
(** * random: the Mersenne Twister behind random.seed / random.uniform *)
(* ================================================================== *)

Module MT19937.

Definition N : Z := 624.
Definition M : Z := 397.
Definition MATRIX_A : Z := 2567483615.
Definition UPPER_MASK : Z := 2147483648.
Definition LOWER_MASK : Z := 2147483647.

Definition wrap32 (x : Z) : Z := x mod 2 ^ 32.

Record state : Type := { mt : list Z; index : Z }.

Definition get (l : list Z) (i : Z) : Z := nth (Z.to_nat i) l 0.

Fixpoint set_nat (l : list Z) (i : nat) (v : Z) : list Z :=
  match l, i with
  | [], _ => []
  | _ :: l', O => v :: l'
  | x :: l', S i' => x :: set_nat l' i' v
  end.

Definition set (l : list Z) (i v : Z) : list Z := set_nat l (Z.to_nat i) v.

(** [init_genrand]: mt[i] = 1812433253 * (mt[i-1] ^ (mt[i-1] >> 30)) + i *)
Fixpoint init_fill (k : nat) (i prev : Z) : list Z :=
  match k with
  | O => []
  | S k' =>
      let x := wrap32 (1812433253 * Z.lxor prev (Z.shiftr prev 30) + i) in
      x :: init_fill k' (i + 1) x
  end.

Definition init_genrand (s : Z) : state :=
  {| mt := s :: init_fill 623 1 s; index := N |}.

(** First loop of [init_by_array], [k] iterations from position [(i, j)]. *)
Fixpoint key_loop (k : nat) (key : list Z) (i j : Z) (v : list Z)
  : list Z * Z :=
  match k with
  | O => (v, i)
  | S k' =>
      let p := Z.lxor (get v (i - 1)) (Z.shiftr (get v (i - 1)) 30) in
      let x := wrap32 (Z.lxor (get v i) (wrap32 (p * 1664525)) + get key j + j) in
      let v := set v i x in
      let i := i + 1 in
      let j := j + 1 in
      let v := if N <=? i then set v 0 (get v (N - 1)) else v in
      let i := if N <=? i then 1 else i in
      let j := if Z.of_nat (List.length key) <=? j then 0 else j in
      key_loop k' key i j v
  end.

(** Second loop of [init_by_array]. *)
Fixpoint mix_loop (k : nat) (i : Z) (v : list Z) : list Z :=
  match k with
  | O => v
  | S k' =>
      let p := Z.lxor (get v (i - 1)) (Z.shiftr (get v (i - 1)) 30) in
      let x := wrap32 (Z.lxor (get v i) (wrap32 (p * 1566083941)) - i) in
      let v := set v i x in
      let i := i + 1 in
      let v := if N <=? i then set v 0 (get v (N - 1)) else v in
      let i := if N <=? i then 1 else i in
      mix_loop k' i v
  end.

Definition init_by_array (key : list Z) : state :=
  let s := init_genrand 19650218 in
  let k := Z.max N (Z.of_nat (List.length key)) in
  let '(v, i) := key_loop (Z.to_nat k) key 1 0 (mt s) in
  let v := mix_loop (Z.to_nat (N - 1)) i v in
  {| mt := set v 0 2147483648; index := index s |}.

(** The 32-bit words of a non-negative integer, least significant first;
    one zero word for 0. *)
Fixpoint key_words (k : nat) (n : Z) : list Z :=
  match k with
  | O => []
  | S k' => wrap32 n :: key_words k' (Z.shiftr n 32)
  end.

(** [random.seed(a)] for an int [a]: the key is [abs(a)]. *)
Definition seed (a : Z) : state :=
  let n := Z.abs a in
  let bits := if n =? 0 then 0 else Z.log2 n + 1 in
  let keyused := if bits =? 0 then 1 else (bits - 1) / 32 + 1 in
  init_by_array (key_words (Z.to_nat keyused) n).

(** Regeneration of the state vector, words [kk], [kk+1], ... in place. *)
Fixpoint twist (k : nat) (kk : Z) (v : list Z) : list Z :=
  match k with
  | O => v
  | S k' =>
      let y := Z.lor (Z.land (get v kk) UPPER_MASK)
                     (Z.land (get v ((kk + 1) mod N)) LOWER_MASK) in
      let src := if kk <? N - M then kk + M else kk + (M - N) in
      let x := Z.lxor (Z.lxor (get v src) (Z.shiftr y 1))
                      (if Z.odd y then MATRIX_A else 0) in
      twist k' (kk + 1) (set v kk x)
  end.

Definition genrand_uint32 (s : state) : Z * state :=
  let s := if N <=? index s
           then {| mt := twist (Z.to_nat N) 0 (mt s); index := 0 |}
           else s in
  let y := get (mt s) (index s) in
  let s := {| mt := mt s; index := index s + 1 |} in
  let y := Z.lxor y (Z.shiftr y 11) in
  let y := Z.lxor y (Z.land (wrap32 (Z.shiftl y 7)) 2636928640) in
  let y := Z.lxor y (Z.land (wrap32 (Z.shiftl y 15)) 4022730752) in
  let y := Z.lxor y (Z.shiftr y 18) in
  (wrap32 y, s).

(** [random.random()]: [(a * 2^26 + b) / 2^53] with [a], [b] the top 27 and
    26 bits of two outputs; the three float operations of the C code
    ([a*67108864.0+b)*(1.0/9007199254740992.0]) are all exact. *)
Definition random (s : state) : pyfloat * state :=
  let '(x, s) := genrand_uint32 s in
  let '(y, s) := genrand_uint32 s in
  let a := Z.shiftr x 5 in
  let b := Z.shiftr y 6 in
  (Fin ((a * 67108864 + b) * 2 ^ 1021), s).

(** [random.uniform(a, b)] for ints [a], [b] of small magnitude:
    [a + (b - a) * self.random()]. *)
Definition uniform (a b : Z) (s : state) : pyfloat * state :=
  let '(r, s) := random s in
  (fadd (FZ a) (fmul (FZ (b - a)) r), s).

End MT19937.

(* ================================================================== *)
(** * json.loads *)
(* ================================================================== *)

(** A decoded JSON document.  An object is the list of its items in
    insertion order, keys distinct (a Python dict). *)
Inductive json : Type :=
| JNull
| JBool (b : bool)
| JInt (n : Z)
| JFloat (x : pyfloat)
| JString (s : pystr)
| JArray (items : list json)
| JObject (items : list (pystr * json)).

(** [d[k] = v] on a dict: a present key keeps its place and takes the new
    value, a new key goes last. *)
Fixpoint dict_set (d : list (pystr * json)) (k : pystr) (v : json)
  : list (pystr * json) :=
  match d with
  | [] => [(k, v)]
  | (k', v') :: d' =>
      if str_eqb k' k then (k', v) :: d' else (k', v') :: dict_set d' k v
  end.

(** [dict(pairs)] *)
Definition dict_of_pairs (pairs : list (pystr * json)) : list (pystr * json) :=
  fold_left (fun d kv => dict_set d (fst kv) (snd kv)) pairs [].

Fixpoint dict_lookup (d : list (pystr * json)) (k : pystr) : option json :=
  match d with
  | [] => None
  | (k', v) :: d' => if str_eqb k' k then Some v else dict_lookup d' k
  end.

Definition is_digit (c : Z) : bool := (48 <=? c) && (c <=? 57).

(** Value of a run of ASCII digits, most significant first. *)
Definition digits_value (ds : pystr) : Z :=
  fold_left (fun acc c => acc * 10 + (c - 48)) ds 0.

Module Json.

(** The whitespace of the JSON grammar: space, tab, newline, return. *)
Definition is_ws (c : Z) : bool :=
  (c =? 32) || (c =? 9) || (c =? 10) || (c =? 13).

Definition skip_ws (s : pystr) : pystr := drop_while is_ws s.

Definition hex_value (c : Z) : option Z :=
  if is_digit c then Some (c - 48)
  else if (97 <=? c) && (c <=? 102) then Some (c - 87)
  else if (65 <=? c) && (c <=? 70) then Some (c - 55)
  else None.

(** Four hexadecimal digits of a [\uXXXX] escape. *)
Definition hex4 (s : pystr) : option (Z * pystr) :=
  match s with
  | a :: b :: c :: d :: rest =>
      match hex_value a, hex_value b, hex_value c, hex_value d with
      | Some x, Some y, Some z, Some w =>
          Some (((x * 16 + y) * 16 + z) * 16 + w, rest)
      | _, _, _, _ => None
      end
  | _ => None
  end.

(** The low half of a surrogate pair, when the input continues with one. *)
Definition low_surrogate (s : pystr) : option (Z * pystr) :=
  match s with
  | 92 :: 117 :: rest =>
      match hex4 rest with
      | Some (c2, rest') =>
          if (56320 <=? c2) && (c2 <=? 57343) then Some (c2, rest') else None
      | None => None
      end
  | _ => None
  end.

(** The body of a string literal, after its opening quote, up to and
    including the closing quote (strict mode: no raw control character). *)
Fixpoint scanstring (fuel : nat) (s : pystr) (acc : pystr)
  : option (pystr * pystr) :=
  match fuel with
  | O => None
  | S f =>
      match s with
      | [] => None
      | 34 :: rest => Some (rev acc, rest)
      | 92 :: [] => None
      | 92 :: e :: rest =>
          if e =? 117 then
            match hex4 rest with
            | None => None
            | Some (c, rest') =>
                if (55296 <=? c) && (c <=? 56319) then
                  match low_surrogate rest' with
                  | Some (c2, rest'') =>
                      scanstring f rest''
                        (65536 + ((c - 55296) * 1024 + (c2 - 56320)) :: acc)
                  | None => scanstring f rest' (c :: acc)
                  end
                else scanstring f rest' (c :: acc)
            end
          else if e =? 34 then scanstring f rest (34 :: acc)
          else if e =? 92 then scanstring f rest (92 :: acc)
          else if e =? 47 then scanstring f rest (47 :: acc)
          else if e =? 98 then scanstring f rest (8 :: acc)
          else if e =? 102 then scanstring f rest (12 :: acc)
          else if e =? 110 then scanstring f rest (10 :: acc)
          else if e =? 114 then scanstring f rest (13 :: acc)
          else if e =? 116 then scanstring f rest (9 :: acc)
          else None
      | c :: rest =>
          if c <? 32 then None else scanstring f rest (c :: acc)
      end
  end.

(** A number literal: an optional minus sign, an integer part (a single 0,
    or a non-zero digit and further digits), an optional fraction (a point
    and at least one digit) and an optional exponent (e or E, an optional
    sign, at least one digit).  With a fraction or an exponent it is a
    float, otherwise an int. *)
Definition match_number (s : pystr) : option (json * pystr) :=
  let neg := startswith s [45] in
  let s1 := if neg then skipn 1 s else s in
  let ds := if startswith s1 [48] then [48] else take_while is_digit s1 in
  let s2 := if startswith s1 [48] then skipn 1 s1 else drop_while is_digit s1 in
  match ds with
  | [] => None
  | _ =>
      let has_frac :=
        startswith s2 [46]
        && match skipn 1 s2 with c :: _ => is_digit c | [] => false end in
      let fs := if has_frac then take_while is_digit (skipn 1 s2) else [] in
      let s3 := if has_frac then drop_while is_digit (skipn 1 s2) else s2 in
      let t := skipn 1 s3 in
      let eneg := startswith t [45] in
      let t' := if eneg || startswith t [43] then skipn 1 t else t in
      let es := take_while is_digit t' in
      let has_exp :=
        (startswith s3 [101] || startswith s3 [69])
        && match es with [] => false | _ => true end in
      let s4 := if has_exp then drop_while is_digit t' else s3 in
      if has_frac || has_exp then
        let e := if has_exp
                 then (if eneg then - digits_value es else digits_value es)
                 else 0 in
        let m := digits_value (ds ++ fs) in
        Some (JFloat (float_of_decimal (if neg then - m else m) (e - len fs)),
              s4)
      else
        Some (JInt (if neg then - digits_value ds else digits_value ds), s4)
  end.

(** [scan_once]: one JSON value at the head of [s], and the rest. *)
Fixpoint scan_once (fuel : nat) (s : pystr) : option (json * pystr) :=
  match fuel with
  | O => None
  | S f =>
      if startswith s [34] then
        match scanstring (List.length s) (skipn 1 s) [] with
        | Some (v, rest) => Some (JString v, rest)
        | None => None
        end
      else if startswith s [123] then
        let rest := skip_ws (skipn 1 s) in
        if startswith rest [125] then Some (JObject [], skipn 1 rest)
        else match parse_pairs f rest [] with
             | Some (pairs, rest') => Some (JObject (dict_of_pairs pairs), rest')
             | None => None
             end
      else if startswith s [91] then
        let rest := skip_ws (skipn 1 s) in
        if startswith rest [93] then Some (JArray [], skipn 1 rest)
        else match parse_items f rest [] with
             | Some (items, rest') => Some (JArray items, rest')
             | None => None
             end
      else if startswith s (str "null") then Some (JNull, skipn 4 s)
      else if startswith s (str "true") then Some (JBool true, skipn 4 s)
      else if startswith s (str "false") then Some (JBool false, skipn 5 s)
      else if startswith s (str "NaN") then Some (JFloat NaN, skipn 3 s)
      else if startswith s (str "Infinity") then Some (JFloat PInf, skipn 8 s)
      else if startswith s (str "-Infinity") then Some (JFloat NInf, skipn 9 s)
      else match_number s
  end

(** The items of an object from its first key on, up to and including
    the closing brace. *)
with parse_pairs (fuel : nat) (s : pystr) (acc : list (pystr * json))
  : option (list (pystr * json) * pystr) :=
  match fuel with
  | O => None
  | S f =>
      if startswith s [34] then
        match scanstring (List.length s) (skipn 1 s) [] with
        | None => None
        | Some (key, rest1) =>
            let rest2 := skip_ws rest1 in
            if startswith rest2 [58] then
              match scan_once f (skip_ws (skipn 1 rest2)) with
              | None => None
              | Some (v, rest3) =>
                  let rest4 := skip_ws rest3 in
                  if startswith rest4 [125]
                  then Some (rev ((key, v) :: acc), skipn 1 rest4)
                  else if startswith rest4 [44]
                  then parse_pairs f (skip_ws (skipn 1 rest4)) ((key, v) :: acc)
                  else None
              end
            else None
        end
      else None
  end

(** The items of an array from its first value on, up to and including
    the closing bracket. *)
with parse_items (fuel : nat) (s : pystr) (acc : list json)
  : option (list json * pystr) :=
  match fuel with
  | O => None
  | S f =>
      match scan_once f s with
      | None => None
      | Some (v, rest) =>
          let rest' := skip_ws rest in
          if startswith rest' [93] then Some (rev (v :: acc), skipn 1 rest')
          else if startswith rest' [44]
          then parse_items f (skip_ws (skipn 1 rest')) (v :: acc)
          else None
      end
  end.

End Json.

(** [json.loads(s)] with the default decoder: leading whitespace, one value,
    trailing whitespace, nothing else.  Of the interpreter's limits (nesting
    depth, digits of an int literal) none is modelled. *)
Definition json_loads (s : pystr) : result json :=
  match Json.scan_once (2 * List.length s + 2) (Json.skip_ws s) with
  | Some (v, rest) =>
      match Json.skip_ws rest with
      | [] => Ok v
      | _ => Raise JSONDecodeError
      end
  | None => Raise JSONDecodeError
  end.

(* ================================================================== *)
(** * The backend *)
(* ================================================================== *)

(** [round(x, 2)]: infinities and NaN round to themselves; a finite [x] is
    rounded to the nearest multiple of 1/100 (ties to even, on the exact
    value of [x]) and that decimal is converted back to a float.  The
    conversion overflowing raises OverflowError. *)
Definition py_round2 (x : pyfloat) : result pyfloat :=
  match x with
  | Fin n =>
      match hundredths (rne (100 * n) UNIT) with
      | Fin r => Ok (Fin r)
      | _ => Raise OverflowError
      end
  | _ => Ok x
  end.

(** [float(n)] for an int: correctly rounded, OverflowError out of range. *)
Definition float_of_int (n : Z) : result pyfloat :=
  match rnd (n * UNIT) 1 with
  | Fin r => Ok (Fin r)
  | _ => Raise OverflowError
  end.

Definition is_ascii (c : Z) : bool := c <? 128.

Definition ascii_lower (c : Z) : Z :=
  if (65 <=? c) && (c <=? 90) then c + 32 else c.

(** The C locale's [isspace], used by the number parsers. *)
Definition is_c_space (c : Z) : bool := ((9 <=? c) && (c <=? 13)) || (c =? 32).

(** A float literal as [float()] accepts it once spaces and underscores are
    gone: a sign, then [inf], [infinity] or [nan] in any case, or digits with
    an optional point and an optional exponent; nothing may follow. *)
Definition float_literal (s : pystr) : option pyfloat :=
  let neg := startswith s [45] in
  let t := if neg || startswith s [43] then skipn 1 s else s in
  let ip := take_while is_digit t in
  let r1 := drop_while is_digit t in
  let point := startswith r1 [46] in
  let fp := if point then take_while is_digit (skipn 1 r1) else [] in
  let r2 := if point then drop_while is_digit (skipn 1 r1) else r1 in
  match ip ++ fp with
  | [] =>
      let w := map ascii_lower t in
      if str_eqb w (str "inf") || str_eqb w (str "infinity")
      then Some (if neg then NInf else PInf)
      else if str_eqb w (str "nan") then Some NaN
      else None
  | ds =>
      let m := if neg then - digits_value ds else digits_value ds in
      match r2 with
      | [] => Some (float_of_decimal m (- len fp))
      | _ =>
          let u := skipn 1 r2 in
          let eneg := startswith u [45] in
          let u' := if eneg || startswith u [43] then skipn 1 u else u in
          let es := take_while is_digit u' in
          if (startswith r2 [101] || startswith r2 [69])
             && match es with [] => false | _ => true end
             && match drop_while is_digit u' with [] => true | _ => false end
          then Some (float_of_decimal
                       m ((if eneg then - digits_value es else digits_value es)
                          - len fp))
          else None
      end
  end.

(** Underscores of a numeric literal: each one between two digits. *)
Fixpoint strip_underscores (prev : Z) (s : pystr) : option pystr :=
  match s with
  | [] => if prev =? 95 then None else Some []
  | c :: s' =>
      if c =? 95 then
        if is_digit prev then strip_underscores c s' else None
      else if (prev =? 95) && negb (is_digit c) then None
      else match strip_underscores c s' with
           | Some t => Some (c :: t)
           | None => None
           end
  end.

(** One uploaded file of the multipart form. *)
Record UploadFile : Type := {
  filename : pystr;
  content : list Z
}.

(** The response unit. *)
Record CandidateRecord : Type := {
  id : pystr;
  name : pystr;
  score : pyfloat;
  url : option pystr
}.

(** The dict returned by [openai_score_cv]. *)
Record ScoreResult : Type := {
  sr_score : pyfloat;
  sr_reason : pystr;
  sr_json_mode : bool
}.

(** One scorer invocation, for the ghost log. *)
Inductive scorer_call : Type :=
| MockCall (name qualities : pystr)
| OpenAICall (qualities cv_text name : pystr).

Record World : Type := {
  rng : MT19937.state;
  requests : nat;
  scorer_log : list scorer_call
}.

(** Computations of the handler: state passing over [World], with
    exceptions; the state reached when an exception is raised is kept. *)
Definition M (A : Type) : Type := World -> result A * World.

Definition ret {A} (a : A) : M A := fun w => (Ok a, w).
Definition raise {A} (e : exn) : M A := fun w => (Raise e, w).
Definition bind {A B} (m : M A) (k : A -> M B) : M B :=
  fun w => match m w with
           | (Ok a, w') => k a w'
           | (Raise e, w') => (Raise e, w')
           end.
Definition lift {A} (r : result A) : M A := fun w => (r, w).

Notation "x <- m ;; k" := (bind m (fun x => k))
  (at level 61, m at next level, right associativity).
Notation "m ;;; k" := (bind m (fun _ => k))
  (at level 61, right associativity).

Definition log_call (c : scorer_call) : M unit :=
  fun w => (Ok tt, {| rng := rng w; requests := requests w;
                      scorer_log := scorer_log w ++ [c] |}).

(** What the process is started with: the switch, the environment, and the
    world outside (the model service behind the SDK, the PDF libraries). *)
Record Config : Type := {
  USE_OPENAI : bool;
  OPENAI_API_KEY : option pystr;
  (** [client.chat.completions.create]: by request number, whether
      [response_format] is passed, and the system and user messages, the
      content of the first choice ([None] when the message has none), or the
      exception raised. *)
  chat_create : nat -> bool -> pystr -> pystr -> result (option pystr);
  (** [PdfReader(...).pages] with [extract_text()] of each page. *)
  pdf_pages : list Z -> result (list (result (option pystr)));
  (** [pdfminer.high_level.extract_text], when the import succeeded. *)
  pdfminer_extract_text : option (list Z -> result (option pystr))
}.

(** Truth value of a str or None. *)
Definition truthy (s : option pystr) : bool :=
  match s with
  | Some (_ :: _) => true
  | _ => false
  end.

Definition or_empty (s : option pystr) : pystr :=
  match s with
  | Some t => t
  | None => []
  end.

(** The module-level [client]: present when the switch is on and the key
    is set. *)
Definition client (cfg : Config) : bool :=
  USE_OPENAI cfg && truthy (OPENAI_API_KEY cfg).

Definition extract_pdf_text (cfg : Config) (content : list Z) : pystr :=
  let text :=
    match pdf_pages cfg content with
    | Ok pages =>
        let parts := flat_map (fun p => match p with
                                        | Ok t => [or_empty t]
                                        | Raise _ => []
                                        end) pages in
        strip (join [NL] parts)
    | Raise _ => []
    end in
  match text, pdfminer_extract_text cfg with
  | [], Some extract =>
      match extract content with
      | Ok t => strip (or_empty t)
      | Raise _ => text
      end
  | _, _ => text
  end.

(** [random.seed(a)]: replaces the state of the global generator. *)
Definition random_seed (a : Z) : M unit :=
  fun w => (Ok tt, {| rng := MT19937.seed a; requests := requests w;
                      scorer_log := scorer_log w |}).

(** [random.uniform(a, b)]: draws from the global generator. *)
Definition random_uniform (a b : Z) : M pyfloat :=
  fun w => let '(x, s) := MT19937.uniform a b (rng w) in
           (Ok x, {| rng := s; requests := requests w;
                     scorer_log := scorer_log w |}).

Definition mock_score_candidate (name qualities : pystr) : M pyfloat :=
  bs <- lift (encode (name ++ str ":" ++ qualities)) ;;
  let seed := int_of_hex (SHA1.hexdigest bs) in
  random_seed seed ;;;
  x <- random_uniform 10 100 ;;
  lift (py_round2 x).

(** [s.splitlines()] *)
Definition is_linebreak (c : Z) : bool :=
  ((10 <=? c) && (c <=? 13)) || ((28 <=? c) && (c <=? 30))
  || (c =? 133) || (c =? 8232) || (c =? 8233).

Fixpoint splitlines_from (s cur : pystr) : list pystr :=
  match s with
  | [] => match cur with [] => [] | _ => [rev cur] end
  | 13 :: 10 :: rest => rev cur :: splitlines_from rest []
  | c :: rest =>
      if is_linebreak c then rev cur :: splitlines_from rest []
      else splitlines_from rest (c :: cur)
  end.

Definition splitlines (s : pystr) : list pystr := splitlines_from s [].

(** [os.path.basename] (POSIX) *)
Definition basename (p : pystr) : pystr :=
  slice p (Some (rfind p 47 + 1)) None.

(** [os.path.splitext(p)[0]] (POSIX): cut at the last dot when it lies in
    the last path component and something other than dots precedes it
    there. *)
Definition splitext_root (p : pystr) : pystr :=
  let sep := rfind p 47 in
  let dot := rfind p 46 in
  if (sep <? dot)
     && negb (forallb (Z.eqb 46) (slice p (Some (sep + 1)) (Some dot)))
  then slice p None (Some dot)
  else p.

(** Stable insertion into a list in descending order of score: the new
    record goes before the first one that is not greater. *)
Fixpoint insert_desc (r : CandidateRecord) (l : list CandidateRecord)
  : list CandidateRecord :=
  match l with
  | [] => [r]
  | r' :: l' =>
      if flt (score r) (score r') then r' :: insert_desc r l'
      else r :: l
  end.

(** [results.sort(key=lambda r: r["score"], reverse=True)]: the stable
    sort, descending. *)
Definition sort_by_score_desc (l : list CandidateRecord) : list CandidateRecord :=
  fold_right insert_desc [] l.

(** The parts of the Python runtime that rest on the Unicode database or on
    [repr], kept as parameters; on ASCII text nothing depends on them. *)
Record PyRuntime : Type := {
  (** [str.isalnum] of a code point above 127 *)
  unicode_isalnum : Z -> bool;
  (** [str.lower] of a string that is not all ASCII *)
  unicode_lower : pystr -> pystr;
  (** decimal digit value of a code point above 127, if it is a digit *)
  unicode_decimal : Z -> option Z;
  (** [str(v)] of a decoded JSON value that is not a str *)
  repr_value : json -> pystr
}.

Section Backend.

Variable py : PyRuntime.

(** The class [\w] of [re], for a str pattern. *)
Definition is_word (c : Z) : bool :=
  if is_ascii c then
    is_digit c || ((65 <=? c) && (c <=? 90)) || ((97 <=? c) && (c <=? 122))
    || (c =? 95)
  else unicode_isalnum py c.

(** The class [[\w-]]. *)
Definition is_tag_char (c : Z) : bool := is_word c || (c =? 45).

(** [re.sub(r"^```[\w-]*\s*", "", s)]: the pattern can only match at the
    start; both stars are greedy and nothing follows them. *)
Definition sub_opening_fence (s : pystr) : pystr :=
  if startswith s (str "```")
  then drop_while is_space (drop_while is_tag_char (skipn 3 s))
  else s.

(** Does all of [t] match [\s*```$]?  The anchor holds at the end of the
    string and before a newline that ends it; the result is what is left
    after the match. *)
Definition match_closing_fence (t : pystr) : option pystr :=
  let u := drop_while is_space t in
  if str_eqb u (str "```") then Some []
  else if str_eqb u (str "```" ++ [NL]) then Some [NL]
  else None.

(** [re.sub(r"\s*```$", "", s)]: the leftmost match is removed. *)
Fixpoint sub_closing_fence (s : pystr) : pystr :=
  match match_closing_fence s with
  | Some rest => rest
  | None =>
      match s with
      | [] => []
      | c :: s' => c :: sub_closing_fence s'
      end
  end.

(** The text handed to [json.loads] by [coerce_json_from_model]. *)
Definition json_candidate (raw : pystr) : pystr :=
  let s := strip raw in
  let s := if startswith s (str "```")
           then sub_closing_fence (sub_opening_fence s)
           else s in
  let start := find s LBRACE in
  let end_ := rfind s RBRACE in
  if negb (start =? -1) && negb (end_ =? -1) && (start <? end_)
  then slice s (Some start) (Some (end_ + 1))
  else s.

Definition coerce_json_from_model (raw : pystr) : result json :=
  json_loads (json_candidate raw).

(** Decimal digits and spaces of any script made ASCII, as the number
    parsers do first; another non-ASCII character makes the parse fail. *)
Fixpoint decimal_and_space_to_ascii (s : pystr) : option pystr :=
  match s with
  | [] => Some []
  | c :: s' =>
      let c' := if is_ascii c then Some c
                else if is_space c then Some 32
                else match unicode_decimal py c with
                     | Some d => Some (48 + d)
                     | None => None
                     end in
      match c', decimal_and_space_to_ascii s' with
      | Some x, Some t => Some (x :: t)
      | _, _ => None
      end
  end.

(** [float(s)] for a str *)
Definition float_of_str (s : pystr) : result pyfloat :=
  match decimal_and_space_to_ascii s with
  | None => Raise ValueError
  | Some a =>
      let t := rev (drop_while is_c_space (rev (drop_while is_c_space a))) in
      match strip_underscores 0 t with
      | None => Raise ValueError
      | Some u =>
          match float_literal u with
          | Some x => Ok x
          | None => Raise ValueError
          end
      end
  end.

(** [float(v)] for a decoded JSON value *)
Definition py_float (v : json) : result pyfloat :=
  match v with
  | JFloat x => Ok x
  | JInt n => float_of_int n
  | JBool b => Ok (FZ (if b then 1 else 0))
  | JString s => float_of_str s
  | JNull | JArray _ | JObject _ => Raise TypeError
  end.

(** [str(v)] for a decoded JSON value *)
Definition py_str (v : json) : pystr :=
  match v with
  | JString s => s
  | _ => repr_value py v
  end.

(** [data.get(key, default)]; only a dict has the method. *)
Definition data_get (data : json) (key : pystr) (default : json)
  : result json :=
  match data with
  | JObject d =>
      match dict_lookup d key with
      | Some v => Ok v
      | None => Ok default
      end
  | _ => Raise AttributeError
  end.

Definition SYSTEM_PROMPT : pystr :=
  str "You are a careful recruiting screener. "
  ++ str "Given a list of desired qualities and a single CV's text, "
  ++ str "judge the fit and respond ONLY with a compact JSON object "
  ++ jstr "like {'score': 'reason': 'why the score'}. "
  ++ str "Do not include code fences or any extra text.".

Definition user_prompt (qualities_text candidate_name cv_text : pystr)
  : pystr :=
  [NL] ++ str "Qualities (one per line):" ++ [NL]
  ++ qualities_text ++ [NL]
  ++ [NL] ++ str "Candidate: " ++ candidate_name ++ [NL]
  ++ str "CV (truncated if long):" ++ [NL]
  ++ truncate_for_model cv_text MAX_CHARS_PER_CV ++ [NL].

(** One request to the model service and the stripped content of its
    first choice. *)
Definition chat (cfg : Config) (json_mode : bool) (system user : pystr)
  : M pystr :=
  fun w =>
    let w' := {| rng := rng w; requests := S (requests w);
                 scorer_log := scorer_log w |} in
    match chat_create cfg (requests w) json_mode system user with
    | Ok c => (Ok (strip (or_empty c)), w')
    | Raise e => (Raise e, w')
    end.

(** The body of the second [try] of [openai_score_cv]. *)
Definition parse_reply (raw : pystr) : result (pyfloat * pystr) :=
  match coerce_json_from_model raw with
  | Raise e => Raise e
  | Ok data =>
      match data_get data (str "score") (JInt 50) with
      | Raise e => Raise e
      | Ok sv =>
          match py_float sv with
          | Raise e => Raise e
          | Ok score =>
              match data_get data (str "reason") (JString []) with
              | Raise e => Raise e
              | Ok rv => Ok (score, strip (py_str rv))
              end
          end
      end
  end.

Definition PARSE_ERROR_REASON : pystr := str "Parse error; defaulted to 50.".

Definition openai_score_cv (cfg : Config)
           (qualities_text cv_text candidate_name : pystr) : M ScoreResult :=
  if negb (client cfg) then
    raise (HTTPException 500 (str "OpenAI client not initialized."))
  else if negb (truthy (OPENAI_API_KEY cfg)) then
    raise (HTTPException 500 (str "OPENAI_API_KEY not set on server."))
  else
    let system := SYSTEM_PROMPT in
    let user := user_prompt qualities_text candidate_name cv_text in
    reply <- (fun w =>
                match chat cfg true system user w with
                | (Ok raw, w') => (Ok (raw, true), w')
                | (Raise TypeError, w') =>
                    match chat cfg false system user w' with
                    | (Ok raw, w'') => (Ok (raw, false), w'')
                    | (Raise e, w'') => (Raise e, w'')
                    end
                | (Raise e, w') => (Raise e, w')
                end) ;;
    let '(raw, use_json_mode) := reply in
    let '(score, reason) :=
      match parse_reply raw with
      | Ok p => p
      | Raise _ => (FZ 50, PARSE_ERROR_REASON)
      end in
    r <- lift (py_round2 score) ;;
    ret {| sr_score := py_max (FZ 0) (py_min (FZ 100) r);
           sr_reason := reason;
           sr_json_mode := use_json_mode |}.

(** [s.lower()] *)
Definition lower (s : pystr) : pystr :=
  if forallb is_ascii s then map ascii_lower s else unicode_lower py s.

(** The bulleted qualities handed to the scorers. *)
Definition normalize_qualities (qualities : pystr) : pystr :=
  let qualities_list :=
    map strip (filter (fun q => match strip q with [] => false | _ => true end)
                      (splitlines qualities)) in
  match qualities_list with
  | [] => strip qualities
  | _ => join [NL] (map (fun q => str "- " ++ q) qualities_list)
  end.

(** The identifier of a candidate. *)
Definition candidate_id (name text : pystr) : result pystr :=
  match encode (name ++ str ":" ++ str_of_int (len text)) with
  | Ok bs => Ok (slice (SHA1.hexdigest bs) None (Some 10))
  | Raise e => Raise e
  end.

(** The scoring of one candidate in the loop of [screen_candidates]: the
    [if USE_OPENAI: ... else: ...] block. *)
Definition score_step (cfg : Config) (qualities_text name text : pystr)
  : M pyfloat :=
  if USE_OPENAI cfg then
    log_call (OpenAICall qualities_text text name) ;;;
    result <- openai_score_cv cfg qualities_text text name ;;
    ret (sr_score result)
  else
    log_call (MockCall name qualities_text) ;;;
    mock_score_candidate name qualities_text.

(** The [for f in files] loop of [screen_candidates]. *)
Fixpoint screen_loop (cfg : Config) (qualities_text : pystr)
         (files : list UploadFile) (results : list CandidateRecord)
  : M (list CandidateRecord) :=
  match files with
  | [] => ret results
  | f :: rest =>
      if negb (endswith (lower (filename f)) (str ".pdf")) then
        raise (HTTPException 400 (str "Only PDFs allowed: " ++ filename f))
      else
        let name := splitext_root (basename (filename f)) in
        let text := extract_pdf_text cfg (content f) in
        score <- score_step cfg qualities_text name text ;;
        i <- lift (candidate_id name text) ;;
        screen_loop cfg qualities_text rest
          (results ++ [{| id := i; name := name; score := score;
                          url := None |}])
  end.

Definition screen_candidates (cfg : Config) (files : list UploadFile)
           (qualities : pystr) : M (list CandidateRecord) :=
  match files with
  | [] => raise (HTTPException 400 (str "No files uploaded."))
  | _ =>
      match strip qualities with
      | [] => raise (HTTPException 400 (str "Qualities are required."))
      | _ =>
          let qualities_text := normalize_qualities qualities in
          results <- screen_loop cfg qualities_text files [] ;;
          ret (sort_by_score_desc results)
      end
  end.

End Backend.

(* ================================================================== *)
(** * The span the specification speaks of, and data for the examples *)
(* ================================================================== *)

(** The rest of a brace-balanced span: [s] follows an open brace nested
    [depth] levels deep, [acc] is the span so far, reversed. *)
Fixpoint balanced_rest (s : pystr) (depth : nat) (acc : pystr) : option pystr :=
  match s with
  | [] => None
  | c :: s' =>
      if c =? LBRACE then balanced_rest s' (S depth) (c :: acc)
      else if c =? RBRACE then
        match depth with
        | O => Some (rev (c :: acc))
        | S d => balanced_rest s' d (c :: acc)
        end
      else balanced_rest s' depth (c :: acc)
  end.

(** The specification's "first balanced {...} span" of a text: from the
    first open brace to the close brace that balances it. *)
Definition spec_first_balanced_span (s : pystr) : option pystr :=
  match drop_while (fun c => negb (c =? LBRACE)) s with
  | [] => None
  | c :: rest => balanced_rest rest 0 [c]
  end.

(** A runtime for the examples, whose texts are ASCII and whose JSON
    values are of type str wherever [str()] is applied. *)
Definition ascii_runtime : PyRuntime :=
  {| unicode_isalnum := fun _ => false;
     unicode_lower := fun s => s;
     unicode_decimal := fun _ => None;
     repr_value := fun _ => [] |}.

(** A process with the model service switched on: the service answers its
    n-th request with the n-th of [replies]; a "PDF" is one page whose text
    is its bytes. *)
Definition demo_config (replies : list pystr) : Config :=
  {| USE_OPENAI := true;
     OPENAI_API_KEY := Some (str "sk-demo");
     chat_create := fun n _ _ _ => Ok (nth_error replies n);
     pdf_pages := fun bs => Ok [Ok (Some bs)];
     pdfminer_extract_text := None |}.

(** The same process with the mock scorer. *)
Definition mock_config : Config :=
  {| USE_OPENAI := false;
     OPENAI_API_KEY := None;
     chat_create := fun _ _ _ _ => Raise (ServiceError []);
     pdf_pages := fun bs => Ok [Ok (Some bs)];
     pdfminer_extract_text := None |}.

Definition demo_world : World :=
  {| rng := MT19937.init_genrand 5489; requests := 0; scorer_log := [] |}.

(** An uploaded file of the examples, by name and text. *)
Definition upload (file_name text : string) : UploadFile :=
  {| filename := str file_name; content := str text |}.

Definition REPLY_40 : pystr := jstr "{'score': 40, 'reason': 'weak'}".
Definition REPLY_90 : pystr := jstr "{'score': 90, 'reason': 'strong'}".

(** The reply of the specification's fence example. *)
Definition FENCED_REPLY : pystr :=
  str "```json" ++ [NL] ++ jstr "{'score': 77, 'reason': 'strong match'}"
  ++ [NL] ++ str "```".

(** A reply with braces in the prose after the object. *)
Definition PROSE_REPLY : pystr :=
  jstr "Verdict: {'score': 80} (on a scale {0..100})".

(** A reply with braces in the prose before the object. *)
Definition BRACES_FIRST_REPLY : pystr :=
  jstr "In {strict} mode: {'score': 80}".

(* ================================================================== *)
(** * Predicates of the statements *)
(* ================================================================== *)

(** [s] holds the span [l :: body ++ [r]] with no [l] before it and no [r]
    after it. *)
Definition framed (l r : Z) (body s : pystr) : Prop :=
  exists a b, s = a ++ l :: body ++ r :: b /\ ~ In l a /\ ~ In r b.

(** A dict item whose value, if a float, is a binary64 value. *)
Definition item_float_wf (kv : pystr * json) : Prop :=
  forall x, snd kv = JFloat x -> float_wf x.

(** The model service answered the request of [openai_score_cv] made in
    world [w] with the reply [raw]: in structured-output mode ([mode] is
    true), or, the SDK having refused [response_format] with a TypeError,
    in plain mode. *)
Inductive model_replied (cfg : Config) (w : World) (system user : pystr)
  : pystr -> bool -> Prop :=
| replied_json (c : option pystr) :
    chat_create cfg (requests w) true system user = Ok c ->
    model_replied cfg w system user (strip (or_empty c)) true
| replied_plain (c : option pystr) :
    chat_create cfg (requests w) true system user = Raise TypeError ->
    chat_create cfg (S (requests w)) false system user = Ok c ->
    model_replied cfg w system user (strip (or_empty c)) false.

(** A float lies in [lo, hi] (so it is not NaN). *)
Definition in_range (lo hi : Z) (x : pyfloat) : Prop :=
  fle (FZ lo) x = true /\ fle x (FZ hi) = true.

(** A float is the binary64 value of a decimal with two fractional digits,
    as [round(x, 2)] yields it. *)
Definition two_decimals (x : pyfloat) : Prop := exists k, x = hundredths k.

(** The candidate name the handler derives from an uploaded file. *)
Definition candidate_name_of (f : UploadFile) : pystr :=
  splitext_root (basename (filename f)).

(** The identifier the handler derives for an uploaded file: the first ten
    hexadecimal digits of the SHA-1 of "name:length of the text". *)
Definition file_id (cfg : Config) (f : UploadFile) : result pystr :=
  candidate_id (candidate_name_of f) (extract_pdf_text cfg (content f)).

(** The scorer invocation the handler makes for an uploaded file. *)
Definition scorer_call_of (cfg : Config) (qualities_text : pystr)
           (f : UploadFile) : scorer_call :=
  if USE_OPENAI cfg
  then OpenAICall qualities_text (extract_pdf_text cfg (content f))
                  (candidate_name_of f)
  else MockCall (candidate_name_of f) qualities_text.

(** [a] ranks at least as high as [b]. *)
Definition score_ge (a b : CandidateRecord) : Prop :=
  fle (score b) (score a) = true.

(** A file name the handler accepts. *)
Definition is_pdf_name (py : PyRuntime) (f : UploadFile) : bool :=
  endswith (lower py (filename f)) (str ".pdf").

(** Text free of lone surrogates, which [str.encode] accepts. *)
Definition no_surrogate (s : pystr) : bool :=
  forallb (fun c => negb (is_surrogate c)) s.

(** A lowercase hexadecimal digit. *)
Definition is_hex_digit (c : Z) : bool :=
  ((48 <=? c) && (c <=? 57)) || ((97 <=? c) && (c <=? 102)).

(** Text that neither starts nor ends with whitespace. *)
Definition trimmed (s : pystr) : Prop :=
  drop_while is_space s = s /\ drop_while is_space (rev s) = rev s.

(** Equality of floats as values of the model. *)
Definition float_eqb (x y : pyfloat) : bool :=
  match x, y with
  | Fin a, Fin b => a =? b
  | PInf, PInf | NInf, NInf | NaN, NaN => true
  | _, _ => false
  end.

(** The dict [openai_score_cv] falls back to. *)
Definition neutral_result (mode : bool) : ScoreResult :=
  {| sr_score := FZ 50; sr_reason := PARSE_ERROR_REASON; sr_json_mode := mode |}.

(** An integer score brought into [0, 100]. *)
Definition clamp_int (n : Z) : Z := Z.max 0 (Z.min 100 n).

(** The process with another pdfminer (or none). *)
Definition with_pdfminer (cfg : Config)
           (miner : option (list Z -> result (option pystr))) : Config :=
  {| USE_OPENAI := USE_OPENAI cfg;
     OPENAI_API_KEY := OPENAI_API_KEY cfg;
     chat_create := chat_create cfg;
     pdf_pages := pdf_pages cfg;
     pdfminer_extract_text := miner |}.

(** Case analysis along the branches of a parser. *)
Ltac case_parse :=
  repeat match goal with
         | |- (if ?c then _ else _) = _ -> _ => destruct c
         | |- match ?e with _ => _ end = _ -> _ => destruct e as [[? ?]|] eqn:?
         | |- None = Some _ -> _ => discriminate
         end.

(* ================================================================== *)
(** * Facts about strings and slices *)
(* ================================================================== *)

Lemma len_app (a b : pystr) : len (a ++ b) = len a + len b.
Proof. unfold len. rewrite length_app. lia. Qed.

Lemma len_nonneg (s : pystr) : 0 <= len s.
Proof. unfold len. lia. Qed.

Lemma len_firstn (n : nat) (s : pystr) :
  Z.of_nat n <= len s -> len (firstn n s) = Z.of_nat n.
Proof. unfold len. intros H. rewrite length_firstn. lia. Qed.

Lemma len_skipn (n : nat) (s : pystr) :
  len (skipn n s) = Z.max 0 (len s - Z.of_nat n).
Proof. unfold len. rewrite length_skipn. lia. Qed.

(** [s[:i]] for an index inside the string is its first [i] characters. *)
Lemma slice_prefix (s : pystr) (i : Z) :
  0 <= i <= len s -> slice s None (Some i) = firstn (Z.to_nat i) s.
Proof.
  intros H. unfold slice, slice_index.
  destruct (Z.ltb_spec i 0); [lia|].
  rewrite Z.min_l by lia. rewrite Z.sub_0_r. reflexivity.
Qed.

(** [s[-i:]] for [0 < i <= len s] is its last [i] characters. *)
Lemma slice_suffix (s : pystr) (i : Z) :
  0 < i <= len s ->
  slice s (Some (- i)) None = skipn (List.length s - Z.to_nat i) s.
Proof.
  intros H. unfold slice, slice_index.
  destruct (Z.ltb_spec (- i) 0); [|lia].
  rewrite Z.max_r by lia.
  assert (E : Z.to_nat (len s + - i) = (List.length s - Z.to_nat i)%nat)
    by (unfold len in *; lia).
  rewrite E. apply firstn_all2. rewrite length_skipn. unfold len in *. lia.
Qed.

(** [s[a:b]] cuts the middle out of [x ++ m ++ y]. *)
Lemma slice_middle (x m y : pystr) :
  slice (x ++ m ++ y) (Some (len x)) (Some (len x + len m)) = m.
Proof.
  unfold slice, slice_index. rewrite !len_app.
  pose proof (len_nonneg x). pose proof (len_nonneg m). pose proof (len_nonneg y).
  destruct (Z.ltb_spec (len x) 0); [lia|].
  destruct (Z.ltb_spec (len x + len m) 0); [lia|].
  rewrite !Z.min_l by lia.
  replace (Z.to_nat (len x)) with (List.length x) by (unfold len; lia).
  replace (Z.to_nat (len x + len m - len x)) with (List.length m)
    by (unfold len; lia).
  rewrite skipn_app, Nat.sub_diag, skipn_all. simpl.
  rewrite firstn_app, Nat.sub_diag, firstn_all. simpl. apply app_nil_r.
Qed.

Lemma find_app_first (a r : pystr) (c : Z) :
  ~ In c a -> find (a ++ c :: r) c = len a.
Proof.
  induction a as [|x a IH]; intros H; simpl.
  - rewrite Z.eqb_refl. reflexivity.
  - destruct (Z.eqb_spec x c) as [->|_]; [exfalso; apply H; now left|].
    rewrite IH by (intros ?; apply H; now right).
    pose proof (len_nonneg a).
    destruct (Z.eqb_spec (len a) (-1)); [lia|]. unfold len in *. cbn [List.length]. lia.
Qed.

Lemma rfind_absent (b : pystr) (c : Z) : ~ In c b -> rfind b c = -1.
Proof.
  induction b as [|x b IH]; intros H; simpl; [reflexivity|].
  rewrite IH by (intros ?; apply H; now right). simpl.
  destruct (Z.eqb_spec x c) as [->|_]; [exfalso; apply H; now left|reflexivity].
Qed.

Lemma rfind_app_last (a b : pystr) (c : Z) :
  ~ In c b -> rfind (a ++ c :: b) c = len a.
Proof.
  intros H. induction a as [|x a IH]; simpl.
  - rewrite (rfind_absent b c H). simpl. rewrite Z.eqb_refl. reflexivity.
  - rewrite IH. pose proof (len_nonneg a).
    destruct (Z.eqb_spec (len a) (-1)); [lia|]. unfold len in *. cbn [List.length]. lia.
Qed.

Lemma drop_while_In (p : Z -> bool) (s : pystr) (c : Z) :
  In c s -> p c = true \/ In c (drop_while p s).
Proof.
  induction s as [|x s IH]; simpl; [tauto|].
  intros [->|H].
  - destruct (p c) eqn:E; [now left|right; now left].
  - destruct (p x) eqn:E; [auto|right; now right].
Qed.

Lemma drop_while_incl (p : Z -> bool) (s : pystr) (c : Z) :
  In c (drop_while p s) -> In c s.
Proof.
  induction s as [|x s IH]; simpl; [tauto|].
  destruct (p x); [intros H; right; auto|simpl; tauto].
Qed.

(* ================================================================== *)
(** * truncate_for_model *)
(* ================================================================== *)

Lemma truncate_short (text : pystr) (max_chars : Z) :
  len text <= max_chars -> truncate_for_model text max_chars = text.
Proof.
  intros H. unfold truncate_for_model.
  destruct (Z.leb_spec (len text) max_chars); [reflexivity|lia].
Qed.

Lemma truncate_long (text : pystr) (max_chars : Z) :
  2 <= max_chars < len text ->
  truncate_for_model text max_chars
  = firstn (Z.to_nat (max_chars / 2)) text ++ ELISION
      ++ skipn (List.length text - Z.to_nat (max_chars / 2)) text.
Proof.
  intros H. unfold truncate_for_model.
  destruct (Z.leb_spec (len text) max_chars); [lia|].
  assert (Hh : 1 <= max_chars / 2 <= max_chars).
  { split; [apply Z.div_le_lower_bound; lia|].
    apply Z.div_le_upper_bound; lia. }
  rewrite slice_prefix by lia. rewrite slice_suffix by lia. reflexivity.
Qed.

(** C8 as amended: within the budget the text is returned unchanged; beyond
    a budget of at least 2 the result is the first [max_chars // 2]
    characters, the elision marker and the last [max_chars // 2] characters,
    of length [2 * (max_chars // 2) + 5], which is above the budget and at
    most [max_chars + 5]. *)
Theorem truncate_for_model_spec (text : pystr) (max_chars : Z) :
  (len text <= max_chars -> truncate_for_model text max_chars = text)
  /\ (2 <= max_chars < len text ->
      let half := max_chars / 2 in
      let out := truncate_for_model text max_chars in
      out = firstn (Z.to_nat half) text ++ ELISION
              ++ skipn (List.length text - Z.to_nat half) text
      /\ len out = 2 * half + 5
      /\ max_chars < len out <= max_chars + 5).
Proof.
  split; [apply truncate_short|].
  intros H. cbv zeta.
  assert (Hh : 1 <= max_chars / 2 /\ 2 * (max_chars / 2) <= max_chars
               /\ max_chars <= 2 * (max_chars / 2) + 1).
  { pose proof (Z.div_mod max_chars 2 ltac:(lia)).
    pose proof (Z.mod_pos_bound max_chars 2 ltac:(lia)). lia. }
  assert (L : len (truncate_for_model text max_chars) = 2 * (max_chars / 2) + 5).
  { rewrite truncate_long by exact H. rewrite !len_app.
    rewrite len_firstn by lia. rewrite len_skipn.
    unfold len in *. simpl List.length. lia. }
  split; [apply truncate_long; exact H|]. split; [exact L|]. lia.
Qed.

(** C8, an instance: a 5-character text under a budget of 4. *)
Lemma truncate_for_model_spec_witness :
  let out := truncate_for_model (str "abcde") 4 in
  out = firstn 2 (str "abcde") ++ ELISION ++ skipn 3 (str "abcde")
  /\ len out = 2 * (4 / 2) + 5
  /\ 4 < len out <= 4 + 5.
Proof.
  apply (proj2 (truncate_for_model_spec (str "abcde") 4)).
  vm_compute. split; [discriminate 1|reflexivity].
Defined.

(** C8 as stated fails: a text of 5 characters under a budget of 4 comes
    back with 9 characters. *)
Lemma truncate_for_model_exceeds_budget :
  truncate_for_model (str "abcde") 4 = str "ab" ++ ELISION ++ str "de"
  /\ len (truncate_for_model (str "abcde") 4) = 9
  /\ (len (truncate_for_model (str "abcde") 4) <=? 4) = false.
Proof. vm_compute. auto. Qed.

(* ================================================================== *)
(** * coerce_json_from_model *)
(* ================================================================== *)

Lemma framed_rev (l r : Z) (body s : pystr) :
  framed l r body s -> framed r l (rev body) (rev s).
Proof.
  intros (a & b & -> & Ha & Hb). exists (rev b), (rev a).
  repeat split.
  - rewrite rev_app_distr. simpl. rewrite rev_app_distr. simpl.
    rewrite <- !app_assoc. reflexivity.
  - now rewrite <- in_rev.
  - now rewrite <- in_rev.
Qed.

Lemma framed_drop_while (p : Z -> bool) (l r : Z) (body s : pystr) :
  p l = false -> framed l r body s -> framed l r body (drop_while p s).
Proof.
  intros Hp (a & b & -> & Ha & Hb). induction a as [|x a IH]; simpl.
  - rewrite Hp. exists [], b. auto.
  - destruct (p x).
    + apply IH. intros ?; apply Ha; now right.
    + exists (x :: a), b. auto.
Qed.

Lemma framed_tail (l r c : Z) (body t : pystr) :
  c <> l -> framed l r body (c :: t) -> framed l r body t.
Proof.
  intros Hc (a & b & E & Ha & Hb). destruct a as [|x a]; simpl in E.
  - congruence.
  - injection E as -> ->. exists a, b. repeat split; auto.
    intros ?; apply Ha; now right.
Qed.

Lemma framed_cons (l r c : Z) (body t : pystr) :
  c <> l -> framed l r body t -> framed l r body (c :: t).
Proof.
  intros Hc (a & b & -> & Ha & Hb). exists (c :: a), b. repeat split; auto.
  intros [E|E]; [congruence|auto].
Qed.

Lemma framed_strip (body s : pystr) :
  framed LBRACE RBRACE body s -> framed LBRACE RBRACE body (strip s).
Proof.
  intros H. unfold strip, rstrip, lstrip.
  rewrite <- (rev_involutive body). apply framed_rev.
  apply framed_drop_while; [reflexivity|]. apply framed_rev.
  apply framed_drop_while; [reflexivity|exact H].
Qed.

Lemma str_eqb_eq (a b : pystr) : str_eqb a b = true -> a = b.
Proof.
  revert b. induction a as [|x a IH]; destruct b as [|y b]; simpl;
    try discriminate; [reflexivity|].
  intros H. apply andb_prop in H as [H1 H2].
  apply Z.eqb_eq in H1. f_equal; auto.
Qed.

Lemma startswith_app (s p : pystr) :
  startswith s p = true -> s = p ++ skipn (List.length p) s.
Proof.
  revert s. induction p as [|x p IH]; intros s H; [reflexivity|].
  destruct s as [|y s]; [discriminate|]. simpl in H.
  apply andb_prop in H as [H1 H2]. apply Z.eqb_eq in H1. subst y.
  simpl. f_equal. auto.
Qed.

Section CoerceFacts.

Variable py : PyRuntime.

Lemma framed_sub_opening_fence (body s : pystr) :
  framed LBRACE RBRACE body s ->
  framed LBRACE RBRACE body (sub_opening_fence py s).
Proof.
  intros H. unfold sub_opening_fence.
  destruct (startswith s (str "```")) eqn:E; [|exact H].
  apply startswith_app in E. change (List.length (str "```")) with 3%nat in E.
  apply framed_drop_while; [reflexivity|].
  apply framed_drop_while; [reflexivity|].
  rewrite E in H. change (str "```") with [96; 96; 96] in H. simpl in H.
  apply framed_tail with (c := 96); [discriminate|].
  apply framed_tail with (c := 96); [discriminate|].
  apply framed_tail with (c := 96); [discriminate|exact H].
Qed.

(** A text that matches the closing fence holds only whitespace and
    backticks. *)
Lemma match_closing_fence_chars (t rest : pystr) (c : Z) :
  match_closing_fence t = Some rest -> In c t -> is_space c = true \/ c = 96.
Proof.
  unfold match_closing_fence. intros E H.
  destruct (drop_while_In is_space t c H) as [Hs|Hin]; [now left|].
  destruct (str_eqb (drop_while is_space t) (str "```")) eqn:E1.
  - apply str_eqb_eq in E1. rewrite E1 in Hin. simpl in Hin. intuition.
  - destruct (str_eqb (drop_while is_space t) (str "```" ++ [NL])) eqn:E2;
      [|discriminate].
    apply str_eqb_eq in E2. rewrite E2 in Hin. simpl in Hin.
    destruct Hin as [<-|[<-|[<-|[<-|[]]]]]; auto.
Qed.

Lemma match_closing_fence_rest (t rest : pystr) (c : Z) :
  match_closing_fence t = Some rest -> In c rest -> In c t.
Proof.
  unfold match_closing_fence. intros E H.
  destruct (str_eqb (drop_while is_space t) (str "```")) eqn:E1.
  - injection E as <-. destruct H.
  - destruct (str_eqb (drop_while is_space t) (str "```" ++ [NL])) eqn:E2;
      [|discriminate].
    injection E as <-. apply str_eqb_eq in E2.
    apply (drop_while_incl is_space). rewrite E2.
    destruct H as [<-|[]]. simpl. auto.
Qed.

Lemma sub_closing_fence_incl (s : pystr) (c : Z) :
  In c (sub_closing_fence s) -> In c s.
Proof.
  induction s as [|x s IH]; [vm_compute; tauto|].
  change (sub_closing_fence (x :: s))
    with (match match_closing_fence (x :: s) with
          | Some rest => rest
          | None => x :: sub_closing_fence s
          end).
  destruct (match_closing_fence (x :: s)) eqn:E.
  - apply (match_closing_fence_rest _ _ _ E).
  - simpl. intros [->|H]; auto.
Qed.

(** The closing fence is removed behind the last close brace. *)
Lemma sub_closing_fence_after (x b : pystr) :
  ~ In RBRACE b ->
  exists b', sub_closing_fence (x ++ RBRACE :: b) = x ++ RBRACE :: b'
             /\ ~ In RBRACE b'.
Proof.
  intros Hb.
  assert (Hno : forall y, match_closing_fence (y ++ RBRACE :: b) = None).
  { intros y. destruct (match_closing_fence (y ++ RBRACE :: b)) eqn:E; auto.
    destruct (match_closing_fence_chars _ _ RBRACE E) as [H|H];
      [apply in_elt|discriminate H|discriminate H]. }
  induction x as [|c x IH].
  - exists (sub_closing_fence b). split.
    + simpl app.
      change (sub_closing_fence (RBRACE :: b))
        with (match match_closing_fence (RBRACE :: b) with
              | Some rest => rest
              | None => RBRACE :: sub_closing_fence b
              end).
      pose proof (Hno []) as H0. change ([] ++ RBRACE :: b) with (RBRACE :: b) in H0.
      now rewrite H0.
    + intros H. apply Hb. now apply sub_closing_fence_incl.
  - destruct IH as (b' & E & Hb'). exists b'. split; [|exact Hb'].
    change (sub_closing_fence ((c :: x) ++ RBRACE :: b))
      with (match match_closing_fence ((c :: x) ++ RBRACE :: b) with
            | Some rest => rest
            | None => c :: sub_closing_fence (x ++ RBRACE :: b)
            end).
    rewrite (Hno (c :: x)), E. reflexivity.
Qed.

Lemma framed_sub_closing_fence (body s : pystr) :
  framed LBRACE RBRACE body s ->
  framed LBRACE RBRACE body (sub_closing_fence s).
Proof.
  intros (a & b & -> & Ha & Hb).
  destruct (sub_closing_fence_after (a ++ LBRACE :: body) b Hb) as (b' & E & Hb').
  exists a, b'. repeat split; auto.
  rewrite <- app_assoc in E. simpl in E. rewrite E.
  rewrite <- app_assoc. reflexivity.
Qed.

(** When the object's text stands in the reply with no open brace before it
    and no close brace after it, it is what the parser is given. *)
Lemma json_candidate_framed (body raw : pystr) :
  framed LBRACE RBRACE body raw ->
  json_candidate py raw = LBRACE :: body ++ [RBRACE].
Proof.
  intros H. apply framed_strip in H. unfold json_candidate.
  set (s := if startswith (strip raw) (str "```")
            then sub_closing_fence (sub_opening_fence py (strip raw))
            else strip raw).
  assert (Hs : framed LBRACE RBRACE body s).
  { subst s. destruct (startswith (strip raw) (str "```")); [|exact H].
    apply framed_sub_closing_fence, framed_sub_opening_fence, H. }
  clearbody s. destruct Hs as (a & b & -> & Ha & Hb).
  rewrite find_app_first by exact Ha.
  replace (a ++ LBRACE :: body ++ RBRACE :: b)
    with ((a ++ LBRACE :: body) ++ RBRACE :: b)
    by (rewrite <- app_assoc; reflexivity).
  rewrite rfind_app_last by exact Hb.
  rewrite len_app. pose proof (len_nonneg a). pose proof (len_nonneg body).
  assert (L : len (LBRACE :: body) = 1 + len body)
    by (unfold len; cbn [List.length]; lia).
  rewrite L.
  destruct (Z.eqb_spec (len a) (-1)); [lia|].
  destruct (Z.eqb_spec (len a + (1 + len body)) (-1)); [lia|].
  destruct (Z.ltb_spec (len a) (len a + (1 + len body))); [|lia].
  simpl negb. simpl andb. cbv iota.
  replace ((a ++ LBRACE :: body) ++ RBRACE :: b)
    with (a ++ (LBRACE :: body ++ [RBRACE]) ++ b)
    by (simpl; rewrite <- !app_assoc; simpl; reflexivity).
  replace (len a + (1 + len body) + 1)
    with (len a + len (LBRACE :: body ++ [RBRACE]))
    by (unfold len; cbn [List.length]; rewrite length_app; cbn [List.length];
        lia).
  apply slice_middle.
Qed.

Lemma coerce_framed (pre body post : pystr) :
  ~ In LBRACE pre -> ~ In RBRACE post ->
  coerce_json_from_model py (pre ++ LBRACE :: body ++ RBRACE :: post)
  = json_loads (LBRACE :: body ++ [RBRACE]).
Proof.
  intros Ha Hb. unfold coerce_json_from_model.
  rewrite (json_candidate_framed body); [reflexivity|].
  exists pre, post. auto.
Qed.

End CoerceFacts.

(* ================================================================== *)
(** * Facts about rounding *)
(* ================================================================== *)

Lemma div_le_cross (a b a' b' : Z) :
  0 < b -> 0 < b' -> a * b' <= a' * b -> a / b <= a' / b'.
Proof.
  intros Hb Hb' H. apply Z.div_le_lower_bound; [exact Hb'|].
  pose proof (Z.div_mod a b ltac:(lia)).
  pose proof (Z.mod_pos_bound a b Hb).
  assert (b * (b' * (a / b)) <= b * a'); [nia|].
  apply Z.mul_le_mono_pos_l in H2; assumption.
Qed.

Lemma rne_cases (a c : Z) :
  0 < c ->
  (rne a c = a / c /\ 2 * (a mod c) <= c
   /\ (2 * (a mod c) = c -> Z.even (a / c) = true))
  \/ (rne a c = a / c + 1 /\ c <= 2 * (a mod c)
      /\ (2 * (a mod c) = c -> Z.even (a / c) = false)).
Proof.
  intros Hc. unfold rne.
  destruct (Z.compare_spec (2 * (a mod c)) c) as [E|L|G].
  - destruct (Z.even (a / c)) eqn:Ev.
    + left. repeat split; auto; lia.
    + right. repeat split; auto; lia.
  - left. repeat split; lia.
  - right. repeat split; lia.
Qed.

Lemma rne_exact (m c : Z) : 0 < c -> rne (m * c) c = m.
Proof.
  intros Hc. unfold rne. rewrite Z.mod_mul by lia. rewrite Z.div_mul by lia.
  destruct (Z.compare_spec (2 * 0) c); lia.
Qed.

Lemma rne_mono (a c a' c' : Z) :
  0 < c -> 0 < c' -> a * c' <= a' * c -> rne a c <= rne a' c'.
Proof.
  intros Hc Hc' H.
  pose proof (div_le_cross a c a' c' Hc Hc' H) as Hq.
  pose proof (Z.div_mod a c ltac:(lia)) as Ea.
  pose proof (Z.mod_pos_bound a c Hc) as Ra.
  pose proof (Z.div_mod a' c' ltac:(lia)) as Ea'.
  pose proof (Z.mod_pos_bound a' c' Hc') as Ra'.
  destruct (rne_cases a c Hc) as [(-> & L1 & P1)|(-> & L1 & P1)];
    destruct (rne_cases a' c' Hc') as [(-> & L2 & P2)|(-> & L2 & P2)];
    try lia.
  destruct (Z.eq_dec (a / c) (a' / c')) as [E|N]; [|lia].
  exfalso.
  set (q := a / c) in *. set (r := a mod c) in *.
  set (r' := a' mod c') in *. rewrite <- E in *. clearbody q r r'.
  assert (Hr : r * c' <= r' * c) by nia.
  assert (H1 : c * c' <= 2 * r * c') by nia.
  assert (H2 : 2 * r' * c <= c' * c) by nia.
  assert (E1 : 2 * r = c) by nia.
  assert (E2 : 2 * r' = c') by nia.
  rewrite P1 in P2 by exact E1. discriminate (P2 E2).
Qed.

Lemma rne_nonneg (a c : Z) : 0 <= a -> 0 < c -> 0 <= rne a c.
Proof.
  intros Ha Hc. rewrite <- (rne_exact 0 c Hc) at 1.
  apply rne_mono; lia.
Qed.

Lemma rne_opp (a c : Z) : 0 < c -> rne (- a) c = - rne a c.
Proof.
  intros Hc. unfold rne.
  destruct (Z.eq_dec (a mod c) 0) as [E|N].
  - rewrite Z.mod_opp_l_z, Z.div_opp_l_z, E by lia.
    destruct (Z.compare_spec (2 * 0) c); lia.
  - rewrite Z.mod_opp_l_nz, Z.div_opp_l_nz by lia.
    pose proof (Z.mod_pos_bound a c Hc).
    replace (- (a / c) - 1) with (- (a / c + 1)) by lia.
    rewrite Z.even_opp, Z.even_add.
    destruct (Z.compare_spec (2 * (a mod c)) c);
      destruct (Z.compare_spec (2 * (c - a mod c)) c); try lia.
    destruct (Z.even (a / c)); simpl; lia.
Qed.

Lemma binade_shift_nonneg (t : Z) : 0 <= binade_shift t.
Proof. unfold binade_shift. lia. Qed.

Lemma binade_shift_mono (t t' : Z) :
  t <= t' -> binade_shift t <= binade_shift t'.
Proof.
  intros H. unfold binade_shift. pose proof (Z.log2_le_mono t t' H). lia.
Qed.

(** Below the next binade: [t < 2 ^ (53 + binade_shift t)]. *)
Lemma binade_shift_upper (t : Z) : t < 2 ^ (53 + binade_shift t).
Proof.
  unfold binade_shift. destruct (Z.le_gt_cases t 0) as [H|H].
  - pose proof (Z.pow_pos_nonneg 2 (53 + Z.max 0 (Z.log2 t - 52))). lia.
  - pose proof (Z.log2_spec t H) as [_ U]. pose proof (Z.log2_nonneg t).
    eapply Z.lt_le_trans; [exact U|].
    apply Z.pow_le_mono_r; lia.
Qed.

(** In a binade above the first: [2 ^ (52 + binade_shift t) <= t]. *)
Lemma binade_shift_lower (t : Z) :
  0 < binade_shift t -> 2 ^ (52 + binade_shift t) <= t.
Proof.
  unfold binade_shift. intros H.
  assert (Hl : 52 < Z.log2 t) by lia.
  assert (Ht : 0 < t).
  { destruct (Z.le_gt_cases t 0) as [N|P]; [|exact P].
    rewrite Z.log2_nonpos in Hl by exact N. lia. }
  pose proof (Z.log2_spec t Ht) as [L _].
  replace (52 + Z.max 0 (Z.log2 t - 52)) with (Z.log2 t) by lia. exact L.
Qed.

Lemma div_lt_bound (a b x : Z) : 0 < b -> a / b < x -> a < b * x.
Proof.
  intros Hb H. destruct (Z.lt_ge_cases a (b * x)) as [L|G]; [exact L|].
  pose proof (Z.div_le_lower_bound a b x Hb G). lia.
Qed.

(** The rounded quotient of a magnitude stays within its binade:
    at most 2^53 grid steps. *)
Lemma rne_binade_upper (a b : Z) :
  0 <= a -> 0 < b ->
  rne a (b * 2 ^ binade_shift (a / b)) <= 2 ^ 53.
Proof.
  intros Ha Hb. set (k := binade_shift (a / b)).
  pose proof (binade_shift_nonneg (a / b)) as Hk. fold k in Hk.
  pose proof (binade_shift_upper (a / b)) as U. fold k in U.
  apply div_lt_bound in U; [|exact Hb].
  assert (P : 0 < 2 ^ k) by (apply Z.pow_pos_nonneg; lia).
  rewrite Z.pow_add_r in U by lia.
  rewrite <- (rne_exact (2 ^ 53) (b * 2 ^ k)) by nia.
  apply rne_mono; [nia|nia|].
  apply Z.mul_le_mono_nonneg_r; [nia|].
  set (p := 2 ^ k) in *. set (c := 2 ^ 53) in *. clearbody p c. nia.
Qed.

(** Above the first binade it is at least 2^52 grid steps. *)
Lemma rne_binade_lower (a b : Z) :
  0 <= a -> 0 < b -> 0 < binade_shift (a / b) ->
  2 ^ 52 <= rne a (b * 2 ^ binade_shift (a / b)).
Proof.
  intros Ha Hb Hk. set (k := binade_shift (a / b)) in *.
  pose proof (binade_shift_lower (a / b) Hk) as L. fold k in L.
  assert (P : 0 < 2 ^ k) by (apply Z.pow_pos_nonneg; lia).
  rewrite Z.pow_add_r in L by lia.
  pose proof (Z.div_mod a b ltac:(lia)).
  pose proof (Z.mod_pos_bound a b Hb).
  assert (Q : 2 ^ 52 * (b * 2 ^ k) <= a).
  { set (t := a / b) in *. set (p := 2 ^ k) in *. set (c := 2 ^ 52) in *.
    clearbody t p c. nia. }
  rewrite <- (rne_exact (2 ^ 52) (b * 2 ^ k)) at 1 by nia.
  apply rne_mono; [nia|nia|].
  apply Z.mul_le_mono_nonneg_r; [nia|exact Q].
Qed.

Lemma round_units_nonneg (a b : Z) :
  0 <= a -> 0 < b -> 0 <= round_units a b.
Proof.
  intros Ha Hb. unfold round_units.
  assert (P : 0 < 2 ^ binade_shift (Z.abs a / b))
    by (apply Z.pow_pos_nonneg; [lia|apply binade_shift_nonneg]).
  pose proof (rne_nonneg a (b * 2 ^ binade_shift (Z.abs a / b)) Ha ltac:(nia)).
  nia.
Qed.

Lemma round_units_opp (a b : Z) :
  0 < b -> round_units (- a) b = - round_units a b.
Proof.
  intros Hb. unfold round_units. rewrite Z.abs_opp.
  assert (P : 0 < 2 ^ binade_shift (Z.abs a / b))
    by (apply Z.pow_pos_nonneg; [lia|apply binade_shift_nonneg]).
  rewrite rne_opp by nia. ring.
Qed.

Lemma round_units_mono_nonneg (a b a' b' : Z) :
  0 <= a -> 0 < b -> 0 < b' -> a * b' <= a' * b ->
  round_units a b <= round_units a' b'.
Proof.
  intros Ha Hb Hb' H.
  assert (Ha' : 0 <= a') by nia.
  unfold round_units. rewrite !Z.abs_eq by assumption.
  pose proof (div_le_cross a b a' b' Hb Hb' H) as Ht.
  pose proof (binade_shift_mono _ _ Ht) as Hk.
  set (k := binade_shift (a / b)) in *.
  set (k' := binade_shift (a' / b')) in *.
  pose proof (binade_shift_nonneg (a / b)) as K0. fold k in K0.
  assert (P : 0 < 2 ^ k) by (apply Z.pow_pos_nonneg; lia).
  assert (P' : 0 < 2 ^ k') by (apply Z.pow_pos_nonneg; lia).
  destruct (Z.eq_dec k k') as [E|N].
  - rewrite <- E. apply Z.mul_le_mono_nonneg_r; [lia|].
    apply rne_mono; nia.
  - assert (Hlt : k + 1 <= k') by lia.
    pose proof (rne_binade_upper a b Ha Hb) as U. fold k in U.
    pose proof (rne_binade_lower a' b' Ha' Hb' ltac:(fold k'; lia)) as L.
    fold k' in L.
    assert (Q : 2 ^ 53 * 2 ^ k <= 2 ^ 52 * 2 ^ k').
    { replace k' with ((k' - (k + 1)) + (k + 1)) by lia.
      rewrite (Z.pow_add_r 2 (k' - (k + 1)) (k + 1)) by lia.
      rewrite (Z.pow_add_r 2 k 1) by lia.
      assert (0 < 2 ^ (k' - (k + 1))) by (apply Z.pow_pos_nonneg; lia).
      change (2 ^ 53) with (2 ^ 52 * 2 ^ 1). nia. }
    nia.
Qed.

Lemma round_units_mono (a b a' b' : Z) :
  0 < b -> 0 < b' -> a * b' <= a' * b ->
  round_units a b <= round_units a' b'.
Proof.
  intros Hb Hb' H. destruct (Z.le_gt_cases 0 a) as [Ha|Ha].
  - apply round_units_mono_nonneg; assumption.
  - destruct (Z.le_gt_cases 0 a') as [Ha'|Ha'].
    + pose proof (round_units_nonneg a' b' Ha' Hb').
      pose proof (round_units_nonneg (- a) b ltac:(lia) Hb).
      rewrite round_units_opp in H1 by exact Hb. lia.
    + pose proof (round_units_mono_nonneg (- a') b' (- a) b
                    ltac:(lia) Hb' Hb ltac:(lia)) as M.
      rewrite !round_units_opp in M by assumption. lia.
Qed.

(** Rounding depends on the value of the fraction only. *)
Lemma round_units_scale (a b c : Z) :
  0 < b -> 0 < c -> round_units (a * c) (b * c) = round_units a b.
Proof.
  intros Hb Hc. apply Z.le_antisymm; apply round_units_mono; nia.
Qed.

Lemma pow2_mod_le (x j k : Z) :
  0 <= j <= k -> (x * 2 ^ k) mod 2 ^ j = 0.
Proof.
  intros H. replace k with ((k - j) + j) by lia.
  rewrite Z.pow_add_r by lia. rewrite Z.mul_assoc.
  apply Z.mod_mul. apply Z.pow_nonzero; lia.
Qed.

(** What [round_units] returns lies on the grid of its own binade. *)
Lemma round_units_grid (a b : Z) :
  0 < b ->
  round_units a b mod 2 ^ binade_shift (Z.abs (round_units a b)) = 0.
Proof.
  intros Hb.
  assert (G : forall a, 0 <= a ->
              round_units a b mod 2 ^ binade_shift (round_units a b) = 0).
  { clear a. intros a Ha. unfold round_units. rewrite Z.abs_eq by exact Ha.
    set (k := binade_shift (a / b)).
    pose proof (binade_shift_nonneg (a / b)) as K0. fold k in K0.
    assert (P : 0 < 2 ^ k) by (apply Z.pow_pos_nonneg; lia).
    pose proof (rne_binade_upper a b Ha Hb) as U. fold k in U.
    pose proof (rne_nonneg a (b * 2 ^ k) Ha ltac:(nia)) as R0.
    set (R := rne a (b * 2 ^ k)) in *. clearbody R.
    set (j := binade_shift (R * 2 ^ k)).
    pose proof (binade_shift_nonneg (R * 2 ^ k)) as J0. fold j in J0.
    destruct (Z.le_gt_cases j k) as [Hj|Hj]; [apply pow2_mod_le; lia|].
    pose proof (binade_shift_lower (R * 2 ^ k) ltac:(fold j; lia)) as L.
    fold j in L.
    assert (Q : 2 ^ 53 * 2 ^ k <= 2 ^ (52 + j)).
    { rewrite <- Z.pow_add_r by lia. apply Z.pow_le_mono_r; lia. }
    assert (E : R = 2 ^ 53) by nia.
    assert (Ej : j = k + 1).
    { destruct (Z.le_gt_cases j (k + 1)); [lia|]. exfalso.
      rewrite E in L. rewrite <- Z.pow_add_r in L by lia.
      assert (2 ^ (53 + k) < 2 ^ (52 + j)) by (apply Z.pow_lt_mono_r; lia).
      lia. }
    rewrite E, Ej. rewrite <- Z.pow_add_r by lia.
    replace (53 + k) with ((52) + (k + 1)) by lia.
    rewrite Z.pow_add_r by lia. apply Z.mod_mul. apply Z.pow_nonzero; lia. }
  destruct (Z.le_gt_cases 0 a) as [Ha|Ha].
  - rewrite Z.abs_eq by (apply round_units_nonneg; assumption). apply G, Ha.
  - replace a with (- - a) by lia. rewrite round_units_opp by exact Hb.
    rewrite Z.abs_opp.
    pose proof (round_units_nonneg (- a) b ltac:(lia) Hb).
    rewrite Z.abs_eq by assumption.
    apply Z.mod_opp_l_z; [apply Z.pow_nonzero; [lia|apply binade_shift_nonneg]|].
    apply G. lia.
Qed.

Lemma rnd_wf (a b : Z) : 0 < b -> float_wf (rnd a b).
Proof.
  intros Hb. unfold rnd.
  destruct (Z.leb_spec HUGE (round_units a b)); [exact I|].
  destruct (Z.leb_spec (round_units a b) (- HUGE)); [exact I|].
  simpl. unfold is_double. apply andb_true_intro. split.
  - apply Z.ltb_lt. lia.
  - apply Z.eqb_eq. apply round_units_grid, Hb.
Qed.

(** A value on the grid rounds to itself. *)
Lemma round_units_exact (n : Z) :
  n mod 2 ^ binade_shift (Z.abs n) = 0 -> round_units n 1 = n.
Proof.
  intros H. unfold round_units. rewrite Z.div_1_r, Z.mul_1_l.
  assert (P : 0 < 2 ^ binade_shift (Z.abs n))
    by (apply Z.pow_pos_nonneg; [lia|apply binade_shift_nonneg]).
  pose proof (Z.div_mod n (2 ^ binade_shift (Z.abs n)) ltac:(lia)) as E.
  rewrite H in E.
  set (c := 2 ^ binade_shift (Z.abs n)) in *. clearbody c.
  replace (rne n c) with (rne ((n / c) * c) c) by (f_equal; lia).
  rewrite rne_exact by exact P. lia.
Qed.

Lemma float_of_decimal_wf (m e : Z) : float_wf (float_of_decimal m e).
Proof.
  unfold float_of_decimal. destruct (0 <=? e) eqn:E.
  - apply rnd_wf. lia.
  - apply rnd_wf. apply Z.pow_pos_nonneg; lia.
Qed.

Lemma hundredths_eq (k : Z) : hundredths k = rnd (k * UNIT) 100.
Proof. reflexivity. Qed.

Lemma is_double_opp (n : Z) : is_double (- n) = is_double n.
Proof.
  unfold is_double. rewrite Z.abs_opp. apply f_equal.
  assert (P : 2 ^ binade_shift (Z.abs n) <> 0)
    by (apply Z.pow_nonzero; [lia|apply binade_shift_nonneg]).
  destruct (Z.eqb_spec (n mod 2 ^ binade_shift (Z.abs n)) 0) as [E|N].
  - rewrite (Z.mod_opp_l_z n _ P E). reflexivity.
  - destruct (Z.eqb_spec (- n mod 2 ^ binade_shift (Z.abs n)) 0) as [E'|N'];
      [|reflexivity].
    exfalso. apply N. rewrite <- (Z.opp_involutive n) at 1.
    apply Z.mod_opp_l_z; assumption.
Qed.

(** [round(x, 2)] of a non-negative binary64 value stays in range: from 2^52
    on the values are whole numbers and round to themselves, below that the
    result is below 2^53. *)
Lemma round2_units_nonneg (n : Z) :
  0 <= n -> is_double n = true ->
  0 <= round_units (rne (100 * n) UNIT * UNIT) 100 < HUGE.
Proof.
  intros Hn Hd. unfold is_double in Hd. apply andb_prop in Hd as [Hh Hg].
  apply Z.ltb_lt in Hh. apply Z.eqb_eq in Hg.
  rewrite Z.abs_eq in Hh, Hg by exact Hn.
  assert (PU : 0 < UNIT) by (apply Z.pow_pos_nonneg; lia).
  pose proof (rne_nonneg (100 * n) UNIT ltac:(lia) PU) as K0.
  split; [apply round_units_nonneg; [nia|lia]|].
  destruct (Z.lt_ge_cases n (2 ^ 1126)) as [Small|Big].
  - assert (K1 : rne (100 * n) UNIT * UNIT <= 100 * n + UNIT).
    { pose proof (Z.div_mod (100 * n) UNIT ltac:(lia)).
      pose proof (Z.mod_pos_bound (100 * n) UNIT PU).
      destruct (rne_cases (100 * n) UNIT PU) as [(-> & _)|(-> & _)]; nia. }
    assert (M : round_units (rne (100 * n) UNIT * UNIT) 100
                <= round_units (2 ^ 1127) 1).
    { apply round_units_mono; [lia|lia|].
      change (2 ^ 1127) with (2 ^ 1126 * 2) in *.
      assert (UNIT <= 2 ^ 1126) by (apply Z.pow_le_mono_r; lia).
      set (p := 2 ^ 1126) in *. clearbody p. lia. }
    assert (E : round_units (2 ^ 1127) 1 = 2 ^ 1127) by (vm_compute; reflexivity).
    assert (2 ^ 1127 < HUGE) by (apply Z.pow_lt_mono_r; lia).
    lia.
  - set (j := binade_shift n) in *.
    assert (Hj : 1074 <= j).
    { subst j. unfold binade_shift.
      pose proof (Z.log2_le_mono _ _ Big) as L.
      rewrite Z.log2_pow2 in L by lia. lia. }
    assert (Dv : exists n', n = n' * UNIT).
    { exists ((n / 2 ^ j) * 2 ^ (j - 1074)).
      pose proof (Z.div_mod n (2 ^ j) ltac:(apply Z.pow_nonzero; lia)) as E.
      rewrite Hg in E. unfold UNIT. rewrite <- Z.mul_assoc.
      rewrite <- Z.pow_add_r by lia.
      replace (j - 1074 + 1074) with j by lia. lia. }
    destruct Dv as (n' & En).
    replace (100 * n) with ((100 * n') * UNIT) by lia.
    rewrite rne_exact by exact PU.
    replace (100 * n' * UNIT) with (n * 100) by lia.
    replace 100 with (1 * 100) at 2 by lia.
    rewrite round_units_scale by lia.
    rewrite round_units_exact; [lia|].
    rewrite Z.abs_eq by exact Hn. exact Hg.
Qed.

Lemma round2_units_range (n : Z) :
  is_double n = true ->
  - HUGE < round_units (rne (100 * n) UNIT * UNIT) 100 < HUGE.
Proof.
  intros Hd. assert (PU : 0 < UNIT) by (apply Z.pow_pos_nonneg; lia).
  destruct (Z.le_gt_cases 0 n) as [Hn|Hn].
  - pose proof (round2_units_nonneg n Hn Hd). lia.
  - rewrite <- is_double_opp in Hd.
    pose proof (round2_units_nonneg (- n) ltac:(lia) Hd) as R.
    replace (100 * - n) with (- (100 * n)) in R by lia.
    rewrite rne_opp in R by exact PU.
    rewrite Z.mul_opp_l in R. rewrite round_units_opp in R by lia. lia.
Qed.

(** [round(x, 2)] does not raise on a binary64 value, and returns one. *)
Lemma py_round2_total (x : pyfloat) :
  float_wf x ->
  exists r, py_round2 x = Ok r /\ float_wf r
            /\ match x with
               | Fin n => r = hundredths (rne (100 * n) UNIT)
               | _ => r = x
               end.
Proof.
  intros Hx. destruct x as [n| | |]; try (eexists; repeat split; exact I).
  simpl in Hx. pose proof (round2_units_range n Hx) as R.
  unfold py_round2. pose proof (float_of_decimal_wf (rne (100 * n) UNIT) (-2)) as W.
  fold (hundredths (rne (100 * n) UNIT)) in W.
  rewrite hundredths_eq in *. unfold rnd in *.
  destruct (Z.leb_spec HUGE (round_units (rne (100 * n) UNIT * UNIT) 100)); [lia|].
  destruct (Z.leb_spec (round_units (rne (100 * n) UNIT * UNIT) 100) (- HUGE));
    [lia|].
  eexists. repeat split. exact W.
Qed.

(* ================================================================== *)
(** * The floats that reach [round] are binary64 values *)
(* ================================================================== *)

Lemma match_number_float (s : pystr) (x : pyfloat) (r : pystr) :
  Json.match_number s = Some (JFloat x, r) -> float_wf x.
Proof.
  unfold Json.match_number. cbv zeta.
  match goal with
  | |- match ?e with _ => _ end = _ -> _ => destruct e
  end; [discriminate|].
  match goal with
  | |- (if ?c then _ else _) = _ -> _ => destruct c
  end; [|discriminate].
  intros H. injection H as <- _. apply float_of_decimal_wf.
Qed.

Lemma scan_once_float (fuel : nat) (s : pystr) (x : pyfloat) (r : pystr) :
  Json.scan_once fuel s = Some (JFloat x, r) -> float_wf x.
Proof.
  destruct fuel as [|f]; [discriminate|]. cbn [Json.scan_once]. cbv zeta.
  case_parse;
    try discriminate;
    try (intros H; injection H as <- _; exact I).
  apply match_number_float.
Qed.

Lemma parse_pairs_floats (fuel : nat) :
  forall s acc ps r,
    Json.parse_pairs fuel s acc = Some (ps, r) ->
    Forall item_float_wf acc -> Forall item_float_wf ps.
Proof.
  induction fuel as [|f IH]; intros s acc ps r; [discriminate|].
  cbn [Json.parse_pairs]. cbv zeta.
  destruct (startswith s [34]); [|discriminate].
  destruct (Json.scanstring (List.length s) (skipn 1 s) []) as [[key rest1]|];
    [|discriminate].
  destruct (startswith (Json.skip_ws rest1) [58]); [|discriminate].
  destruct (Json.scan_once f (Json.skip_ws (skipn 1 (Json.skip_ws rest1))))
    as [[v rest3]|] eqn:Ev; [|discriminate].
  assert (Hv : item_float_wf (key, v)).
  { intros x Ex. simpl in Ex. subst v. eapply scan_once_float, Ev. }
  destruct (startswith (Json.skip_ws rest3) [125]).
  - intros H Hacc. injection H as <- _.
    change (rev acc ++ [(key, v)]) with (rev ((key, v) :: acc)).
    apply Forall_rev. constructor; assumption.
  - destruct (startswith (Json.skip_ws rest3) [44]); [|discriminate].
    intros H Hacc. eapply IH; [exact H|]. constructor; assumption.
Qed.

Lemma dict_set_floats (d : list (pystr * json)) (k : pystr) (v : json) :
  Forall item_float_wf d -> item_float_wf (k, v) ->
  Forall item_float_wf (dict_set d k v).
Proof.
  intros Hd Hv. induction d as [|[k' v'] d IH]; simpl.
  - constructor; [exact Hv|constructor].
  - inversion Hd as [|? ? H1 H2]; subst. destruct (str_eqb k' k).
    + constructor; [|exact H2]. intros x Ex. apply (Hv x Ex).
    + constructor; [exact H1|apply IH, H2].
Qed.

Lemma dict_of_pairs_floats (pairs : list (pystr * json)) :
  Forall item_float_wf pairs -> Forall item_float_wf (dict_of_pairs pairs).
Proof.
  unfold dict_of_pairs.
  assert (G : forall d, Forall item_float_wf d -> Forall item_float_wf pairs ->
                        Forall item_float_wf
                          (fold_left (fun d kv => dict_set d (fst kv) (snd kv))
                                     pairs d)).
  { induction pairs as [|[k v] pairs IH]; intros d Hd Hp; simpl; [exact Hd|].
    inversion Hp; subst. apply IH; [|assumption].
    apply dict_set_floats; assumption. }
  intros H. apply G; [constructor|exact H].
Qed.

Lemma dict_lookup_float (d : list (pystr * json)) (k : pystr) (x : pyfloat) :
  Forall item_float_wf d -> dict_lookup d k = Some (JFloat x) -> float_wf x.
Proof.
  induction d as [|[k' v'] d IH]; simpl; [discriminate|].
  intros Hd. inversion Hd as [|? ? H1 H2]; subst.
  destruct (str_eqb k' k); [|apply IH, H2].
  intros E. injection E as ->. apply (H1 x eq_refl).
Qed.

Lemma scan_once_object (fuel : nat) (s r : pystr) (d : list (pystr * json)) :
  Json.scan_once fuel s = Some (JObject d, r) -> Forall item_float_wf d.
Proof.
  destruct fuel as [|f]; [discriminate|]. cbn [Json.scan_once]. cbv zeta.
  case_parse;
    try discriminate;
    try (intros H; injection H as <- _; constructor).
  - intros H. injection H as <- _. apply dict_of_pairs_floats.
    eapply parse_pairs_floats; [eassumption|constructor].
  - unfold Json.match_number. cbv zeta.
    match goal with
    | |- match ?e with _ => _ end = _ -> _ => destruct e
    end; [discriminate|].
    match goal with
    | |- (if ?c then _ else _) = _ -> _ => destruct c
    end; discriminate.
Qed.

Lemma json_loads_object (s : pystr) (d : list (pystr * json)) :
  json_loads s = Ok (JObject d) -> Forall item_float_wf d.
Proof.
  unfold json_loads.
  destruct (Json.scan_once (2 * List.length s + 2) (Json.skip_ws s))
    as [[v rest]|] eqn:E; [|discriminate].
  destruct (Json.skip_ws rest); [|discriminate].
  intros H. injection H as ->. eapply scan_once_object, E.
Qed.

Lemma FZ_wf_small (n : Z) : 0 <= n <= 100 -> float_wf (FZ n).
Proof.
  intros H. assert (C : forall k, (k <= 100)%nat -> float_wf (FZ (Z.of_nat k))).
  { intros k Hk. do 101 (destruct k as [|k]; [vm_compute; reflexivity|]). lia. }
  replace n with (Z.of_nat (Z.to_nat n)) by lia. apply C. lia.
Qed.

Lemma float_literal_wf (s : pystr) (x : pyfloat) :
  float_literal s = Some x -> float_wf x.
Proof.
  unfold float_literal. cbv zeta.
  match goal with
  | |- match ?e with _ => _ end = _ -> _ => destruct e
  end.
  - match goal with
    | |- (if ?c then _ else _) = _ -> _ => destruct c
    end.
    + intros H. injection H as <-. match goal with |- float_wf (if ?c then _ else _) => destruct c end; exact I.
    + match goal with
      | |- (if ?c then _ else _) = _ -> _ => destruct c
      end; [|discriminate]. intros H. injection H as <-. exact I.
  - match goal with
    | |- match ?e with _ => _ end = _ -> _ => destruct e
    end.
    + intros H. injection H as <-. apply float_of_decimal_wf.
    + match goal with
      | |- (if ?c then _ else _) = _ -> _ => destruct c
      end; [|discriminate]. intros H. injection H as <-.
      apply float_of_decimal_wf.
Qed.

(* ================================================================== *)
(** * The mock scorer *)
(* ================================================================== *)

Lemma UNIT_pos : 0 < UNIT.
Proof. apply Z.pow_pos_nonneg; lia. Qed.

Lemma UNIT_lt_HUGE : 100 * UNIT < HUGE.
Proof.
  unfold UNIT, HUGE. replace 2098 with (1024 + 1074) by lia.
  rewrite Z.pow_add_r by lia.
  assert (100 < 2 ^ 1024) by (change 100 with (100 ^ 1);
    eapply Z.lt_le_trans; [|apply (Z.pow_le_mono_r 2 7 1024); lia]; reflexivity).
  pose proof UNIT_pos. unfold UNIT in *. nia.
Qed.

(** A fraction between two grid values rounds to a float between them. *)
Lemma rnd_between (a b lo hi : Z) :
  0 < b -> lo * b <= a <= hi * b ->
  round_units lo 1 = lo -> round_units hi 1 = hi ->
  - HUGE < lo -> hi < HUGE ->
  exists r, rnd a b = Fin r /\ lo <= r <= hi /\ is_double r = true.
Proof.
  intros Hb [L U] Elo Ehi Hlo Hhi.
  assert (R1 : lo <= round_units a b)
    by (rewrite <- Elo; apply round_units_mono; lia).
  assert (R2 : round_units a b <= hi)
    by (rewrite <- Ehi; apply round_units_mono; lia).
  pose proof (rnd_wf a b Hb) as W. unfold rnd in *.
  destruct (Z.leb_spec HUGE (round_units a b)); [lia|].
  destruct (Z.leb_spec (round_units a b) (- HUGE)); [lia|].
  exists (round_units a b). auto.
Qed.

Lemma genrand_uint32_range (s : MT19937.state) :
  0 <= fst (MT19937.genrand_uint32 s) < 2 ^ 32.
Proof.
  unfold MT19937.genrand_uint32. cbv zeta. cbn [fst].
  apply Z.mod_pos_bound. reflexivity.
Qed.

(** [random.random()] is [k / 2^53] for a 53-bit [k]. *)
Lemma random_value (s : MT19937.state) :
  exists k, fst (MT19937.random s) = Fin (k * 2 ^ 1021) /\ 0 <= k < 2 ^ 53.
Proof.
  unfold MT19937.random.
  pose proof (genrand_uint32_range s) as Hx.
  destruct (MT19937.genrand_uint32 s) as [x s1].
  pose proof (genrand_uint32_range s1) as Hy.
  destruct (MT19937.genrand_uint32 s1) as [y s2].
  cbn [fst] in *. eexists. split; [reflexivity|].
  rewrite !Z.shiftr_div_pow2 by lia.
  assert (0 <= x / 2 ^ 5 < 2 ^ 27).
  { split; [apply Z.div_pos; lia|]. apply Z.div_lt_upper_bound; [lia|].
    change (2 ^ 5 * 2 ^ 27) with (2 ^ 32). lia. }
  assert (0 <= y / 2 ^ 6 < 2 ^ 26).
  { split; [apply Z.div_pos; lia|]. apply Z.div_lt_upper_bound; [lia|].
    change (2 ^ 6 * 2 ^ 26) with (2 ^ 32). lia. }
  change (2 ^ 53) with (2 ^ 27 * 67108864).
  change (2 ^ 26) with 67108864 in *. lia.
Qed.

(** [random.uniform(10, 100)] is a float in [10, 100]. *)
Lemma uniform_range (s : MT19937.state) :
  exists z, fst (MT19937.uniform 10 100 s) = Fin z
            /\ 10 * UNIT <= z <= 100 * UNIT /\ is_double z = true.
Proof.
  unfold MT19937.uniform.
  destruct (random_value s) as (k & Ek & Hk).
  destruct (MT19937.random s) as [r s1]. cbn [fst] in *. subst r.
  pose proof UNIT_pos as PU. pose proof UNIT_lt_HUGE as HU.
  assert (E1021 : 2 ^ 53 * 2 ^ 1021 = UNIT)
    by (unfold UNIT; rewrite <- Z.pow_add_r by lia; reflexivity).
  assert (P1021 : 0 < 2 ^ 1021) by (apply Z.pow_pos_nonneg; lia).
  unfold fmul, FZ.
  destruct (rnd_between ((100 - 10) * UNIT * (k * 2 ^ 1021)) UNIT 0 (90 * UNIT))
    as (y & Ey & Hy & _);
    [exact PU| |vm_compute; reflexivity|vm_compute; reflexivity|lia|lia|].
  { set (p := 2 ^ 1021) in *. set (c := 2 ^ 53) in *. set (u := UNIT) in *.
    clearbody p c u. nia. }
  rewrite Ey. unfold fadd.
  destruct (rnd_between (10 * UNIT + y) 1 (10 * UNIT) (100 * UNIT))
    as (z & Ez & Hz & Wz);
    [lia|lia|vm_compute; reflexivity|vm_compute; reflexivity|lia|lia|].
  exists z. auto.
Qed.

(** [round(x, 2)] of a float in [10, 100] is a multiple of 1/100 in
    [10, 100]. *)
Lemma py_round2_range (z : Z) :
  10 * UNIT <= z <= 100 * UNIT ->
  exists r k, py_round2 (Fin z) = Ok (Fin r) /\ Fin r = hundredths k
              /\ 10 * UNIT <= r <= 100 * UNIT.
Proof.
  intros Hz. pose proof UNIT_pos as PU. pose proof UNIT_lt_HUGE as HU.
  set (k := rne (100 * z) UNIT).
  assert (Hk : 1000 <= k <= 10000).
  { subst k. split.
    - rewrite <- (rne_exact 1000 UNIT PU). apply rne_mono; nia.
    - rewrite <- (rne_exact 10000 UNIT PU). apply rne_mono; nia. }
  destruct (rnd_between (k * UNIT) 100 (10 * UNIT) (100 * UNIT))
    as (r & Er & Hr & _);
    [lia|nia|vm_compute; reflexivity|vm_compute; reflexivity|lia|lia|].
  exists r, k. unfold py_round2. fold k. rewrite hundredths_eq, Er. auto.
Qed.

Lemma encode_no_surrogate (s : pystr) :
  forallb (fun c => negb (is_surrogate c)) s = true ->
  exists bs, encode s = Ok bs.
Proof.
  induction s as [|c s IH]; simpl; [eexists; reflexivity|].
  intros H. apply andb_prop in H as [Hc Hs].
  destruct (is_surrogate c); [discriminate|].
  destruct (IH Hs) as (bs & ->). eexists; reflexivity.
Qed.

(** What [mock_score_candidate] returns on text that UTF-8 can encode. *)
Lemma mock_score_candidate_value (name qualities : pystr) (w : World) :
  forallb (fun c => negb (is_surrogate c)) (name ++ str ":" ++ qualities) = true ->
  exists r k w',
    mock_score_candidate name qualities w = (Ok (Fin r), w')
    /\ Fin r = hundredths k /\ 10 * UNIT <= r <= 100 * UNIT
    /\ requests w' = requests w /\ scorer_log w' = scorer_log w.
Proof.
  intros H. destruct (encode_no_surrogate _ H) as (bs & Eb).
  unfold mock_score_candidate, bind, lift, random_seed, random_uniform.
  rewrite Eb. cbn [rng requests scorer_log].
  destruct (uniform_range (MT19937.seed (int_of_hex (SHA1.hexdigest bs))))
    as (z & Ez & Hz & _).
  destruct (MT19937.uniform 10 100 _) as [x s1]. cbn [fst] in Ez. subst x.
  destruct (py_round2_range z Hz) as (r & k & Er & Ek & Hr).
  rewrite Er. exists r, k. eexists. repeat split; try eassumption; lia.
Qed.

(** C4: two calls of [mock_score_candidate] with the same name and
    qualities return the same score (or raise the same exception), whatever
    the state of the global generator and of the rest of the world at each
    call: [random.seed] replaces the generator's state. *)
Theorem mock_score_candidate_deterministic
        (name qualities : pystr) (w1 w2 : World) :
  fst (mock_score_candidate name qualities w1)
  = fst (mock_score_candidate name qualities w2).
Proof.
  unfold mock_score_candidate, bind, lift, random_seed, random_uniform.
  destruct (encode (name ++ str ":" ++ qualities)) as [bs|e]; [|reflexivity].
  cbn [rng requests scorer_log].
  destruct (MT19937.uniform 10 100 _) as [x s1].
  destruct (py_round2 x); reflexivity.
Qed.

(** C10: on text that UTF-8 can encode, [mock_score_candidate] returns a
    score, and that score lies in [10, 100] and is a float rounded to two
    decimals. *)
Theorem mock_score_candidate_range (name qualities : pystr) (w : World) :
  forallb (fun c => negb (is_surrogate c)) (name ++ str ":" ++ qualities) = true ->
  exists score w',
    mock_score_candidate name qualities w = (Ok score, w')
    /\ in_range 10 100 score /\ two_decimals score.
Proof.
  intros H.
  destruct (mock_score_candidate_value name qualities w H)
    as (r & k & w' & E & Ek & Hr & _).
  exists (Fin r), w'. split; [exact E|]. split.
  - unfold in_range, fle, FZ. split; apply Z.leb_le; lia.
  - exists k. exact Ek.
Qed.

(* ================================================================== *)
(** * The external-model scorer *)
(* ================================================================== *)

(** Clamping puts every float, NaN and the infinities included, into
    [0, 100], and leaves it alone or replaces it by a bound. *)
Lemma clamp_range (r : pyfloat) :
  in_range 0 100 (py_max (FZ 0) (py_min (FZ 100) r))
  /\ (py_max (FZ 0) (py_min (FZ 100) r) = r
      \/ py_max (FZ 0) (py_min (FZ 100) r) = FZ 0
      \/ py_max (FZ 0) (py_min (FZ 100) r) = FZ 100).
Proof.
  pose proof UNIT_pos as PU. unfold in_range, py_max, py_min, FZ.
  destruct r as [n| | |]; cbn [flt fle].
  - destruct (Z.ltb_spec n (100 * UNIT)); cbn [flt fle].
    + destruct (Z.ltb_spec (0 * UNIT) n); cbn [fle].
      * repeat split; try (apply Z.leb_le; lia). auto.
      * repeat split; try (apply Z.leb_le; lia). auto.
    + destruct (Z.ltb_spec (0 * UNIT) (100 * UNIT)); [|lia]. cbn [fle].
      repeat split; try (apply Z.leb_le; lia). auto.
  - destruct (Z.ltb_spec (0 * UNIT) (100 * UNIT)); [|lia]. cbn [fle].
    repeat split; try (apply Z.leb_le; lia). auto.
  - repeat split; try (apply Z.leb_le; lia). auto.
  - destruct (Z.ltb_spec (0 * UNIT) (100 * UNIT)); [|lia]. cbn [fle].
    repeat split; try (apply Z.leb_le; lia). auto.
Qed.

Lemma two_decimals_bounds : two_decimals (FZ 0) /\ two_decimals (FZ 100).
Proof. split; [exists 0|exists 10000]; vm_compute; reflexivity. Qed.

Section ScoreFacts.

Variable py : PyRuntime.

Lemma float_of_str_wf (s : pystr) (x : pyfloat) :
  float_of_str py s = Ok x -> float_wf x.
Proof.
  unfold float_of_str.
  destruct (decimal_and_space_to_ascii py s) as [a|]; [|discriminate].
  destruct (strip_underscores 0 _) as [u|]; [|discriminate].
  destruct (float_literal u) as [y|] eqn:E; [|discriminate].
  intros H. injection H as <-. eapply float_literal_wf, E.
Qed.

Lemma py_float_wf (v : json) (x : pyfloat) :
  (forall y, v = JFloat y -> float_wf y) ->
  py_float py v = Ok x -> float_wf x.
Proof.
  intros Hv. destruct v as [|b|n|y|s|l|d]; simpl; try discriminate.
  - intros H. injection H as <-. destruct b; apply FZ_wf_small; lia.
  - unfold float_of_int. pose proof (rnd_wf (n * UNIT) 1 ltac:(lia)) as W.
    destruct (rnd (n * UNIT) 1); try discriminate.
    intros H. injection H as <-. exact W.
  - intros H. injection H as <-. apply Hv. reflexivity.
  - apply float_of_str_wf.
Qed.

Lemma parse_reply_wf (raw reason : pystr) (x : pyfloat) :
  parse_reply py raw = Ok (x, reason) -> float_wf x.
Proof.
  unfold parse_reply, coerce_json_from_model.
  destruct (json_loads (json_candidate py raw)) as [data|] eqn:E; [|discriminate].
  destruct (data_get data (str "score") (JInt 50)) as [sv|] eqn:Eg; [|discriminate].
  destruct (py_float py sv) as [sc|] eqn:Ef; [|discriminate].
  destruct (data_get data (str "reason") (JString [])); [|discriminate].
  intros H. injection H as <- _. eapply py_float_wf; [|exact Ef].
  intros y ->. unfold data_get in Eg.
  destruct data as [| | | | | |d]; try discriminate.
  apply json_loads_object in E.
  destruct (dict_lookup d (str "score")) eqn:El.
  - injection Eg as ->. eapply dict_lookup_float; eassumption.
  - discriminate.
Qed.

(** The score and rationale [openai_score_cv] takes from a reply: what the
    reply parses to, or the neutral default. *)
Lemma reply_score_wf (raw : pystr) :
  float_wf (fst (match parse_reply py raw with
                 | Ok p => p
                 | Raise _ => (FZ 50, PARSE_ERROR_REASON)
                 end)).
Proof.
  destruct (parse_reply py raw) as [[x reason]|] eqn:E.
  - eapply parse_reply_wf, E.
  - apply FZ_wf_small. lia.
Qed.

(** Once the service has replied, [openai_score_cv] returns: neither the
    parse nor [round] nor the clamp raises. *)
Lemma openai_score_cv_replied
      (cfg : Config) (qualities_text cv_text candidate_name : pystr)
      (w : World) (raw : pystr) (mode : bool) :
  client cfg = true ->
  model_replied cfg w SYSTEM_PROMPT
                (user_prompt qualities_text candidate_name cv_text) raw mode ->
  exists r w',
    py_round2 (fst (match parse_reply py raw with
                    | Ok p => p
                    | Raise _ => (FZ 50, PARSE_ERROR_REASON)
                    end)) = Ok r
    /\ openai_score_cv py cfg qualities_text cv_text candidate_name w
       = (Ok {| sr_score := py_max (FZ 0) (py_min (FZ 100) r);
                sr_reason := snd (match parse_reply py raw with
                                  | Ok p => p
                                  | Raise _ => (FZ 50, PARSE_ERROR_REASON)
                                  end);
                sr_json_mode := mode |}, w')
    /\ rng w' = rng w /\ scorer_log w' = scorer_log w.
Proof.
  intros Hc Hr.
  destruct (py_round2_total _ (reply_score_wf raw)) as (r & Er & _ & _).
  exists r.
  assert (Hk : truthy (OPENAI_API_KEY cfg) = true).
  { unfold client in Hc. apply andb_prop in Hc. tauto. }
  unfold openai_score_cv. rewrite Hc, Hk. cbn [negb].
  unfold bind, chat, lift, ret.
  destruct Hr as [c E|c E1 E2].
  - rewrite E.
    destruct (parse_reply py (strip (or_empty c))) as [[sc rs]|];
      cbn [fst snd] in *; rewrite Er; eexists; repeat split.
  - rewrite E1. cbn [requests]. rewrite E2.
    destruct (parse_reply py (strip (or_empty c))) as [[sc rs]|];
      cbn [fst snd] in *; rewrite Er; eexists; repeat split.
Qed.

(** Whenever [openai_score_cv] returns, its score is clamped and rounded. *)
Lemma openai_score_cv_ok
      (cfg : Config) (qualities_text cv_text candidate_name : pystr)
      (w w' : World) (res : ScoreResult) :
  openai_score_cv py cfg qualities_text cv_text candidate_name w = (Ok res, w') ->
  in_range 0 100 (sr_score res)
  /\ scorer_log w' = scorer_log w.
Proof.
  unfold openai_score_cv.
  destruct (negb (client cfg)); [discriminate|].
  destruct (negb (truthy (OPENAI_API_KEY cfg))); [discriminate|].
  assert (F : forall (raw : pystr) (md : bool) (w1 : World),
             scorer_log w1 = scorer_log w ->
             (let '(score, reason) :=
                match parse_reply py raw with
                | Ok p => p
                | Raise _ => (FZ 50, PARSE_ERROR_REASON)
                end in
              bind (lift (py_round2 score))
                   (fun r => ret {| sr_score := py_max (FZ 0) (py_min (FZ 100) r);
                                    sr_reason := reason;
                                    sr_json_mode := md |})) w1 = (Ok res, w') ->
             in_range 0 100 (sr_score res) /\ scorer_log w' = scorer_log w).
  { intros raw md w1 Hl.
    destruct (match parse_reply py raw with
              | Ok p => p
              | Raise _ => (FZ 50, PARSE_ERROR_REASON)
              end) as [sc rs].
    unfold bind, lift, ret. destruct (py_round2 sc) as [r|]; [|discriminate].
    intros H. injection H as <- <-. cbn [sr_score].
    split; [apply clamp_range|exact Hl]. }
  unfold bind at 1. unfold chat.
  destruct (chat_create cfg (requests w) true _ _) as [c|e].
  - apply F. reflexivity.
  - destruct e; try discriminate. cbn [requests].
    destruct (chat_create cfg (S (requests w)) false _ _); [|discriminate].
    apply F. reflexivity.
Qed.

End ScoreFacts.

Lemma in_range_finite (lo hi : Z) (x : pyfloat) :
  in_range lo hi x -> exists n, x = Fin n /\ lo * UNIT <= n <= hi * UNIT.
Proof.
  unfold in_range, FZ. intros [H1 H2].
  destruct x as [n| | |]; simpl in *; try discriminate.
  exists n. apply Z.leb_le in H1, H2. auto.
Qed.

Lemma py_round2_two_decimals (x r : pyfloat) (lo hi : Z) :
  py_round2 x = Ok r -> in_range lo hi r -> two_decimals r.
Proof.
  intros E H. destruct (in_range_finite _ _ _ H) as (n & -> & _).
  destruct x as [m| | |]; unfold py_round2 in E; try discriminate.
  exists (rne (100 * m) UNIT).
  destruct (hundredths (rne (100 * m) UNIT)); try discriminate.
  injection E as <-. reflexivity.
Qed.

(** C1: whatever reply the model service returns, [openai_score_cv]
    returns a dict, and the score in it lies in [0, 100] and is a float
    rounded to two decimals. *)
Theorem openai_score_cv_clamped
        (py : PyRuntime) (cfg : Config)
        (qualities_text cv_text candidate_name : pystr)
        (w : World) (raw : pystr) (mode : bool) :
  client cfg = true ->
  model_replied cfg w SYSTEM_PROMPT
                (user_prompt qualities_text candidate_name cv_text) raw mode ->
  exists res w',
    openai_score_cv py cfg qualities_text cv_text candidate_name w = (Ok res, w')
    /\ in_range 0 100 (sr_score res) /\ two_decimals (sr_score res).
Proof.
  intros Hc Hr.
  destruct (openai_score_cv_replied py cfg _ _ _ w raw mode Hc Hr)
    as (r & w' & Er & E & _).
  eexists. exists w'. split; [exact E|]. cbn [sr_score].
  destruct (clamp_range r) as [Hin [E1 | [E1 | E1]]]; rewrite E1 in *.
  - split; [exact Hin|]. eapply py_round2_two_decimals; eassumption.
  - split; [exact Hin|apply two_decimals_bounds].
  - split; [exact Hin|apply two_decimals_bounds].
Qed.

(** C2: when JSON recovery fails on the reply, [openai_score_cv] does not
    raise: it returns the neutral score 50.0 with the rationale
    "Parse error; defaulted to 50.". *)
Theorem openai_score_cv_parse_fallback
        (py : PyRuntime) (cfg : Config)
        (qualities_text cv_text candidate_name : pystr)
        (w : World) (raw : pystr) (mode : bool) (e : exn) :
  client cfg = true ->
  model_replied cfg w SYSTEM_PROMPT
                (user_prompt qualities_text candidate_name cv_text) raw mode ->
  coerce_json_from_model py raw = Raise e ->
  exists w',
    openai_score_cv py cfg qualities_text cv_text candidate_name w
    = (Ok {| sr_score := FZ 50;
             sr_reason := PARSE_ERROR_REASON;
             sr_json_mode := mode |}, w').
Proof.
  intros Hc Hr He.
  destruct (openai_score_cv_replied py cfg _ _ _ w raw mode Hc Hr)
    as (r & w' & Er & E & _).
  exists w'. rewrite E. unfold parse_reply in *. rewrite He in *.
  cbn [fst snd] in *.
  assert (R : py_round2 (FZ 50) = Ok (FZ 50)) by (vm_compute; reflexivity).
  rewrite R in Er. injection Er as <-.
  assert (C : py_max (FZ 0) (py_min (FZ 100) (FZ 50)) = FZ 50)
    by (vm_compute; reflexivity).
  rewrite C. reflexivity.
Qed.

(* ================================================================== *)
(** * Sorting the response *)
(* ================================================================== *)

Lemma insert_desc_perm (r : CandidateRecord) (l : list CandidateRecord) :
  Permutation (insert_desc r l) (r :: l).
Proof.
  induction l as [|x l IH]; simpl; [reflexivity|].
  destruct (flt (score r) (score x)); [|reflexivity].
  rewrite IH. apply perm_swap.
Qed.

Lemma sort_by_score_desc_perm (l : list CandidateRecord) :
  Permutation (sort_by_score_desc l) l.
Proof.
  induction l as [|x l IH]; simpl; [reflexivity|].
  rewrite insert_desc_perm. now constructor.
Qed.

Lemma insert_desc_sorted (r : CandidateRecord) (l : list CandidateRecord) :
  in_range 0 100 (score r) ->
  Forall (fun x => in_range 0 100 (score x)) l ->
  StronglySorted score_ge l -> StronglySorted score_ge (insert_desc r l).
Proof.
  intros Hr Hl Hs. destruct (in_range_finite _ _ _ Hr) as (n & En & _).
  induction l as [|x l IH]; simpl.
  - constructor; constructor.
  - inversion Hl as [|? ? Hx Hl']; subst.
    inversion Hs as [|? ? Hs' Hall]; subst.
    destruct (in_range_finite _ _ _ Hx) as (m & Em & _).
    destruct (flt (score r) (score x)) eqn:E.
    + constructor; [apply IH; assumption|].
      eapply Permutation_Forall; [symmetry; apply insert_desc_perm|].
      constructor; [|exact Hall].
      unfold score_ge. rewrite En, Em in *. simpl in *.
      apply Z.ltb_lt in E. apply Z.leb_le. lia.
    + constructor; [exact Hs|].
      assert (Hrx : score_ge r x).
      { unfold score_ge. rewrite En, Em in *. simpl in *.
        apply Z.ltb_ge in E. apply Z.leb_le. lia. }
      constructor; [exact Hrx|].
      rewrite Forall_forall in *. intros y Hy.
      specialize (Hall y Hy). specialize (Hl' y Hy).
      destruct (in_range_finite _ _ _ Hl') as (k & Ek & _).
      unfold score_ge in *. rewrite En, Em, Ek in *. simpl in *.
      apply Z.leb_le in Hall, Hrx. apply Z.leb_le. lia.
Qed.

Lemma sort_by_score_desc_sorted (l : list CandidateRecord) :
  Forall (fun x => in_range 0 100 (score x)) l ->
  StronglySorted score_ge (sort_by_score_desc l).
Proof.
  induction l as [|x l IH]; intros H; simpl; [constructor|].
  inversion H; subst. apply insert_desc_sorted; auto.
  eapply Permutation_Forall; [symmetry; apply sort_by_score_desc_perm|].
  assumption.
Qed.

(* ================================================================== *)
(** * The request handler *)
(* ================================================================== *)

Lemma mock_score_candidate_log (name qualities : pystr) (w : World) :
  scorer_log (snd (mock_score_candidate name qualities w)) = scorer_log w.
Proof.
  unfold mock_score_candidate, bind, lift, random_seed, random_uniform.
  destruct (encode (name ++ str ":" ++ qualities)); [|reflexivity].
  cbn [rng requests scorer_log].
  destruct (MT19937.uniform 10 100 _) as [x s1].
  destruct (py_round2 x); reflexivity.
Qed.

Lemma mock_score_candidate_ok (name qualities : pystr) (w w' : World)
      (x : pyfloat) :
  mock_score_candidate name qualities w = (Ok x, w') -> in_range 0 100 x.
Proof.
  intros E.
  assert (H : forallb (fun c => negb (is_surrogate c))
                      (name ++ str ":" ++ qualities) = true).
  { unfold mock_score_candidate, bind, lift in E.
    destruct (encode (name ++ str ":" ++ qualities)) as [bs|] eqn:Eb;
      [|discriminate].
    clear E. revert bs Eb.
    induction (name ++ str ":" ++ qualities) as [|c s IH]; intros bs Eb;
      [reflexivity|].
    simpl in *. destruct (is_surrogate c); [discriminate|].
    destruct (encode s) as [bs'|]; [|discriminate]. simpl. eapply IH; eauto. }
  destruct (mock_score_candidate_value name qualities w H)
    as (r & k & w1 & E1 & _ & Hr & _).
  rewrite E in E1. injection E1 as -> _.
  pose proof UNIT_pos. unfold in_range, fle, FZ. split; apply Z.leb_le; lia.
Qed.

Section HandlerFacts.

Variable py : PyRuntime.
Variable cfg : Config.
Variable qualities_text : pystr.

Lemma openai_score_cv_log (cv_text candidate_name : pystr) (w : World) :
  scorer_log
    (snd (openai_score_cv py cfg qualities_text cv_text candidate_name w))
  = scorer_log w.
Proof.
  unfold openai_score_cv.
  destruct (negb (client cfg)); [reflexivity|].
  destruct (negb (truthy (OPENAI_API_KEY cfg))); [reflexivity|].
  assert (F : forall (raw : pystr) (md : bool) (w1 : World),
             scorer_log w1 = scorer_log w ->
             scorer_log
               (snd ((let '(score, reason) :=
                        match parse_reply py raw with
                        | Ok p => p
                        | Raise _ => (FZ 50, PARSE_ERROR_REASON)
                        end in
                      bind (lift (py_round2 score))
                           (fun r => ret {| sr_score :=
                                              py_max (FZ 0) (py_min (FZ 100) r);
                                            sr_reason := reason;
                                            sr_json_mode := md |})) w1))
             = scorer_log w).
  { intros raw md w1 Hl.
    destruct (match parse_reply py raw with
              | Ok p => p
              | Raise _ => (FZ 50, PARSE_ERROR_REASON)
              end) as [sc rs].
    unfold bind, lift, ret. destruct (py_round2 sc); exact Hl. }
  unfold bind at 1. unfold chat.
  destruct (chat_create cfg (requests w) true _ _) as [c|e].
  - apply F. reflexivity.
  - destruct e; try reflexivity. cbn [requests].
    destruct (chat_create cfg (S (requests w)) false _ _); [|reflexivity].
    apply F. reflexivity.
Qed.

Lemma score_step_log (f : UploadFile) (w : World) :
  scorer_log
    (snd (score_step py cfg qualities_text (candidate_name_of f)
                     (extract_pdf_text cfg (content f)) w))
  = scorer_log w ++ [scorer_call_of cfg qualities_text f].
Proof.
  unfold score_step, scorer_call_of. destruct (USE_OPENAI cfg).
  - unfold bind at 1. unfold log_call at 1. unfold bind.
    match goal with
    | |- context [openai_score_cv ?a ?b ?c ?d ?e ?w1] =>
        pose proof (openai_score_cv_log d e w1) as L;
        destruct (openai_score_cv a b c d e w1) as [[res|ex] w2]
    end; cbn [snd scorer_log] in *; exact L.
  - unfold bind at 1. unfold log_call at 1.
    match goal with
    | |- context [mock_score_candidate ?a ?b ?w1] =>
        rewrite (mock_score_candidate_log a b w1)
    end. reflexivity.
Qed.

Lemma score_step_ok (name text : pystr) (w w' : World) (x : pyfloat) :
  score_step py cfg qualities_text name text w = (Ok x, w') ->
  in_range 0 100 x.
Proof.
  unfold score_step. destruct (USE_OPENAI cfg).
  - unfold bind at 1. unfold log_call at 1. unfold bind, ret.
    match goal with
    | |- context [openai_score_cv ?a ?b ?c ?d ?e ?w1] =>
        destruct (openai_score_cv a b c d e w1) as [[res|ex] w2] eqn:E
    end; [|discriminate].
    intros H. injection H as <- _. eapply openai_score_cv_ok, E.
  - unfold bind at 1. unfold log_call at 1. apply mock_score_candidate_ok.
Qed.

Lemma screen_loop_cons (f : UploadFile) (rest : list UploadFile)
      (acc : list CandidateRecord) (w : World) :
  screen_loop py cfg qualities_text (f :: rest) acc w
  = if is_pdf_name py f then
      match score_step py cfg qualities_text (candidate_name_of f)
                       (extract_pdf_text cfg (content f)) w with
      | (Ok x, w1) =>
          match file_id cfg f with
          | Ok i =>
              screen_loop py cfg qualities_text rest
                (acc ++ [{| id := i; name := candidate_name_of f;
                            score := x; url := None |}]) w1
          | Raise e => (Raise e, w1)
          end
      | (Raise e, w1) => (Raise e, w1)
      end
    else (Raise (HTTPException 400 (str "Only PDFs allowed: " ++ filename f)), w).
Proof.
  cbn [screen_loop]. unfold is_pdf_name.
  destruct (endswith (lower py (filename f)) (str ".pdf")); [|reflexivity].
  cbn [negb]. unfold bind at 1. fold (candidate_name_of f).
  destruct (score_step py cfg qualities_text (candidate_name_of f)
                       (extract_pdf_text cfg (content f)) w) as [[x|e] w1];
    [|reflexivity].
  unfold bind, lift. fold (file_id cfg f).
  destruct (file_id cfg f); reflexivity.
Qed.

End HandlerFacts.

Section LoopFacts.

Variable py : PyRuntime.
Variable cfg : Config.
Variable qualities_text : pystr.

(** The loop over [pre ++ rest] is the loop over [pre] followed, unless
    that raised, by the loop over [rest]. *)
Lemma screen_loop_app (pre rest : list UploadFile) :
  forall (acc : list CandidateRecord) (w : World),
    screen_loop py cfg qualities_text (pre ++ rest) acc w
    = match screen_loop py cfg qualities_text pre acc w with
      | (Ok rs, w1) => screen_loop py cfg qualities_text rest rs w1
      | (Raise e, w1) => (Raise e, w1)
      end.
Proof.
  induction pre as [|f pre IH]; intros acc w; [reflexivity|].
  rewrite <- app_comm_cons. rewrite !screen_loop_cons.
  destruct (is_pdf_name py f); [|reflexivity].
  destruct (score_step py cfg qualities_text _ _ w) as [[x|e] w1];
    [|reflexivity].
  destruct (file_id cfg f); [apply IH|reflexivity].
Qed.

(** The loop invokes a scorer for each file of a prefix of the batch, in
    order, and for nothing else. *)
Lemma screen_loop_log (files : list UploadFile) :
  forall (acc : list CandidateRecord) (w : World),
  exists k, (k <= List.length files)%nat
    /\ scorer_log (snd (screen_loop py cfg qualities_text files acc w))
       = scorer_log w ++ map (scorer_call_of cfg qualities_text) (firstn k files).
Proof.
  induction files as [|f files IH]; intros acc w.
  - exists 0%nat. split; [reflexivity|]. simpl. now rewrite app_nil_r.
  - rewrite screen_loop_cons. destruct (is_pdf_name py f).
    + pose proof (score_step_log py cfg qualities_text f w) as L.
      destruct (score_step py cfg qualities_text _ _ w) as [[x|e] w1];
        cbn [snd] in L.
      * destruct (file_id cfg f) as [i|e].
        -- destruct (IH (acc ++ [{| id := i; name := candidate_name_of f;
                                    score := x; url := None |}]) w1)
             as (k & Hk & E).
           exists (S k). split; [simpl; lia|]. rewrite E, L.
           rewrite <- app_assoc. reflexivity.
        -- exists 1%nat. split; [simpl; lia|]. exact L.
      * exists 1%nat. split; [simpl; lia|]. exact L.
    + exists 0%nat. split; [simpl; lia|]. simpl. now rewrite app_nil_r.
Qed.

(** What a loop that completes has appended to the results. *)
Lemma screen_loop_ok (files : list UploadFile) :
  forall (acc rs : list CandidateRecord) (w w' : World),
    screen_loop py cfg qualities_text files acc w = (Ok rs, w') ->
    (Forall (fun r => in_range 0 100 (score r)) acc ->
     Forall (fun r => in_range 0 100 (score r)) rs)
    /\ map (fun r => Ok (id r)) rs
       = map (fun r => Ok (id r)) acc ++ map (file_id cfg) files.
Proof.
  induction files as [|f files IH]; intros acc rs w w'.
  - intros H. injection H as <- _. split; [auto|]. simpl. now rewrite app_nil_r.
  - rewrite screen_loop_cons. destruct (is_pdf_name py f); [|discriminate].
    destruct (score_step py cfg qualities_text _ _ w) as [[x|e] w1] eqn:Es;
      [|discriminate].
    destruct (file_id cfg f) as [i|e] eqn:Ei; [|discriminate].
    intros H. destruct (IH _ _ _ _ H) as [H1 H2]. split.
    + intros Hacc. apply H1. apply Forall_app. split; [exact Hacc|].
      constructor; [|constructor]. cbn [score].
      eapply score_step_ok, Es.
    + rewrite H2, map_app. cbn [map id]. rewrite <- app_assoc, Ei. reflexivity.
Qed.

End LoopFacts.

Lemma NoDup_map_Ok (l : list pystr) :
  NoDup (map (@Ok pystr) l) <-> NoDup l.
Proof.
  split.
  - apply NoDup_map_inv.
  - intros H. apply Finite.Injective_map_NoDup; [|exact H].
    intros a b E. now injection E.
Qed.

(** C5: the response of a batch that completes is in descending order of
    score: every record ranks at least as high as all records after it. *)
Theorem screen_candidates_sorted
        (py : PyRuntime) (cfg : Config) (files : list UploadFile)
        (qualities : pystr) (w : World) (rs : list CandidateRecord) :
  fst (screen_candidates py cfg files qualities w) = Ok rs ->
  StronglySorted score_ge rs.
Proof.
  unfold screen_candidates. destruct files as [|f files]; [discriminate|].
  destruct (strip qualities); [discriminate|].
  unfold bind, ret.
  destruct (screen_loop py cfg _ (f :: files) [] w) as [[res|e] w1] eqn:E;
    [|discriminate].
  cbn [fst]. intros H. injection H as <-.
  apply sort_by_score_desc_sorted.
  apply (screen_loop_ok py cfg _ _ _ _ _ _ E). constructor.
Qed.

(** C9 as amended: the identifiers of a response are, up to the order of
    the ranking, the identifiers of the uploaded files, each the first ten
    hexadecimal digits of the SHA-1 of "name:length of the text".  They are
    pairwise distinct exactly when these are, and two files with the same
    candidate name and the same length of extracted text have the same
    identifier. *)
Theorem screen_candidates_ids
        (py : PyRuntime) (cfg : Config) (files : list UploadFile)
        (qualities : pystr) (w : World) (rs : list CandidateRecord) :
  fst (screen_candidates py cfg files qualities w) = Ok rs ->
  Permutation (map (fun r => Ok (id r)) rs) (map (file_id cfg) files)
  /\ (NoDup (map id rs) <-> NoDup (map (file_id cfg) files))
  /\ (forall f1 f2,
         candidate_name_of f1 = candidate_name_of f2 ->
         len (extract_pdf_text cfg (content f1))
         = len (extract_pdf_text cfg (content f2)) ->
         file_id cfg f1 = file_id cfg f2).
Proof.
  intros H.
  assert (P : Permutation (map (fun r => Ok (id r)) rs) (map (file_id cfg) files)).
  { unfold screen_candidates in H. destruct files as [|f files]; [discriminate|].
    destruct (strip qualities); [discriminate|].
    unfold bind, ret in H.
    destruct (screen_loop py cfg _ (f :: files) [] w) as [[res|e] w1] eqn:E;
      [|discriminate].
    cbn [fst] in H. injection H as <-.
    destruct (screen_loop_ok py cfg _ _ _ _ _ _ E) as [_ M].
    change (map (fun r => Ok (id r)) [] ++ map (file_id cfg) (f :: files))
      with (map (file_id cfg) (f :: files)) in M.
    rewrite <- M. apply Permutation_map, sort_by_score_desc_perm. }
  split; [exact P|]. split.
  - rewrite <- NoDup_map_Ok. rewrite map_map. split; intros N.
    + eapply Permutation_NoDup; [exact P|exact N].
    + eapply Permutation_NoDup; [symmetry; exact P|exact N].
  - intros f1 f2 En El. unfold file_id, candidate_id. rewrite En, El. reflexivity.
Qed.

(** C3 as amended: when a file of the batch has a name that does not end in
    ".pdf", the request fails and no results are returned; scorers have been
    invoked only for files that precede it, in order (for none when it is
    the first file); and if the files before it were all processed, the
    failure is the 400 "Only PDFs allowed" and nothing after them was
    touched. *)
Theorem screen_candidates_non_pdf
        (py : PyRuntime) (cfg : Config) (pre : list UploadFile)
        (f : UploadFile) (post : list UploadFile)
        (qualities : pystr) (w : World) :
  is_pdf_name py f = false ->
  strip qualities <> [] ->
  let qualities_text := normalize_qualities qualities in
  exists e w',
    screen_candidates py cfg (pre ++ f :: post) qualities w = (Raise e, w')
    /\ (exists k, (k <= List.length pre)%nat
          /\ scorer_log w'
             = scorer_log w
                 ++ map (scorer_call_of cfg qualities_text) (firstn k pre))
    /\ (forall rs w1,
           screen_loop py cfg qualities_text pre [] w = (Ok rs, w1) ->
           e = HTTPException 400 (str "Only PDFs allowed: " ++ filename f)
           /\ w' = w1).
Proof.
  intros Hf Hq qualities_text. unfold screen_candidates.
  destruct (pre ++ f :: post) as [|f0 fs] eqn:Efs;
    [destruct pre; discriminate|].
  destruct (strip qualities) as [|c q]; [congruence|].
  rewrite <- Efs. clear Efs. fold qualities_text.
  unfold bind. rewrite screen_loop_app.
  destruct (screen_loop_log py cfg qualities_text pre [] w) as (k & Hk & L).
  destruct (screen_loop py cfg qualities_text pre [] w) as [[rs|e] w1].
  - rewrite screen_loop_cons, Hf. eexists. exists w1.
    split; [reflexivity|]. split; [exists k; auto|].
    intros rs' w1' H. injection H as _ <-. auto.
  - exists e, w1. split; [reflexivity|]. split; [exists k; auto|].
    intros rs' w1' H. discriminate H.
Qed.

(* ================================================================== *)
(** * JSON recovery: fences and prose *)
(* ================================================================== *)

(** C6: a JSON object wrapped in Markdown code fences, with or without a
    language tag, is recovered: the reply parses to what the object's text
    parses to. *)
Theorem coerce_json_from_model_fenced
        (py : PyRuntime) (tag body : pystr) (v : json) :
  forallb (is_tag_char py) tag = true ->
  json_loads (LBRACE :: body ++ [RBRACE]) = Ok v ->
  coerce_json_from_model
    py (str "```" ++ tag ++ [NL] ++ LBRACE :: body ++ RBRACE :: NL :: str "```")
  = Ok v.
Proof.
  intros Ht Hv. rewrite <- Hv.
  replace (str "```" ++ tag ++ [NL] ++ LBRACE :: body ++ RBRACE :: NL :: str "```")
    with ((str "```" ++ tag ++ [NL]) ++ LBRACE :: body ++ RBRACE :: NL :: str "```")
    by (rewrite <- !app_assoc; reflexivity).
  apply coerce_framed.
  - intros H. apply in_app_or in H as [H|H]; [vm_compute in H; intuition lia|].
    apply in_app_or in H as [H|H].
    + rewrite forallb_forall in Ht. specialize (Ht _ H). discriminate Ht.
    + vm_compute in H. intuition lia.
  - intros H. vm_compute in H. intuition lia.
Qed.

(** C6, the example of the specification. *)
Lemma coerce_json_from_model_fenced_witness :
  coerce_json_from_model ascii_runtime FENCED_REPLY
  = Ok (JObject [(str "score", JInt 77);
                 (str "reason", JString (str "strong match"))]).
Proof.
  exact (coerce_json_from_model_fenced
           ascii_runtime (str "json")
           (jstr "'score': 77, 'reason': 'strong match'")
           (JObject [(str "score", JInt 77);
                     (str "reason", JString (str "strong match"))])
           eq_refl eq_refl).
Defined.

(** C7 as amended: when prose surrounds a JSON object, with no open brace
    before the object and no close brace after it, the text handed to the
    parser is exactly the object, and the reply parses to it. *)
Theorem coerce_json_from_model_prose
        (py : PyRuntime) (pre body post : pystr) (v : json) :
  ~ In LBRACE pre -> ~ In RBRACE post ->
  json_loads (LBRACE :: body ++ [RBRACE]) = Ok v ->
  json_candidate py (pre ++ LBRACE :: body ++ RBRACE :: post)
  = LBRACE :: body ++ [RBRACE]
  /\ coerce_json_from_model py (pre ++ LBRACE :: body ++ RBRACE :: post) = Ok v.
Proof.
  intros Ha Hb Hv. split.
  - apply json_candidate_framed. exists pre, post. auto.
  - rewrite coerce_framed by assumption. exact Hv.
Qed.

(** C7, an instance: prose without braces around an object. *)
Lemma coerce_json_from_model_prose_witness :
  json_candidate ascii_runtime
    (str "Sure, here it is: " ++ LBRACE :: jstr "'score': 80"
       ++ RBRACE :: str " Hope this helps.")
  = LBRACE :: jstr "'score': 80" ++ [RBRACE]
  /\ coerce_json_from_model ascii_runtime
       (str "Sure, here it is: " ++ LBRACE :: jstr "'score': 80"
          ++ RBRACE :: str " Hope this helps.")
     = Ok (JObject [(str "score", JInt 80)]).
Proof.
  apply (coerce_json_from_model_prose
           ascii_runtime (str "Sure, here it is: ") (jstr "'score': 80")
           (str " Hope this helps.") (JObject [(str "score", JInt 80)])).
  - vm_compute. intuition lia.
  - vm_compute. intuition lia.
  - vm_compute. reflexivity.
Defined.

(** C7 as stated fails.  The slice runs from the first open brace to the
    last close brace, whatever lies between.  With braces in the prose
    before the only JSON object of a reply, the slice starts in the prose
    and parsing raises; with braces in the prose after it, the first
    balanced span is the object, but the slice runs on into the prose and
    parsing raises as well. *)
Lemma coerce_json_from_model_braces_in_prose :
  json_loads (jstr "{'score': 80}") = Ok (JObject [(str "score", JInt 80)])
  /\ json_candidate ascii_runtime BRACES_FIRST_REPLY
     = jstr "{strict} mode: {'score': 80}"
  /\ coerce_json_from_model ascii_runtime BRACES_FIRST_REPLY
     = Raise JSONDecodeError
  /\ spec_first_balanced_span PROSE_REPLY = Some (jstr "{'score': 80}")
  /\ json_candidate ascii_runtime PROSE_REPLY
     = jstr "{'score': 80} (on a scale {0..100}"
  /\ coerce_json_from_model ascii_runtime PROSE_REPLY = Raise JSONDecodeError.
Proof. vm_compute. repeat split; reflexivity. Qed.

(* ================================================================== *)
(** * Instances *)
(* ================================================================== *)

(** C1, an instance: a reply whose score is out of range. *)
Lemma openai_score_cv_clamped_witness :
  exists res w',
    openai_score_cv ascii_runtime (demo_config [jstr "{'score': 250}"])
                    (str "- python") (str "cv") (str "a") demo_world
    = (Ok res, w')
    /\ in_range 0 100 (sr_score res) /\ two_decimals (sr_score res).
Proof.
  apply (openai_score_cv_clamped
           ascii_runtime (demo_config [jstr "{'score': 250}"])
           (str "- python") (str "cv") (str "a") demo_world
           (strip (or_empty (Some (jstr "{'score': 250}")))) true).
  - reflexivity.
  - apply (replied_json _ _ _ _ (Some (jstr "{'score': 250}"))). reflexivity.
Defined.

(** C2, the example of the specification: a reply that is not JSON. *)
Lemma openai_score_cv_parse_fallback_witness :
  exists w',
    openai_score_cv ascii_runtime
                    (demo_config [str "I think this candidate is great"])
                    (str "- python") (str "cv") (str "a") demo_world
    = (Ok {| sr_score := FZ 50;
             sr_reason := PARSE_ERROR_REASON;
             sr_json_mode := true |}, w').
Proof.
  apply (openai_score_cv_parse_fallback
           ascii_runtime (demo_config [str "I think this candidate is great"])
           (str "- python") (str "cv") (str "a") demo_world
           (strip (or_empty (Some (str "I think this candidate is great"))))
           true JSONDecodeError).
  - reflexivity.
  - apply (replied_json _ _ _ _ (Some (str "I think this candidate is great"))).
    reflexivity.
  - vm_compute. reflexivity.
Defined.

(** C10, an instance. *)
Lemma mock_score_candidate_range_witness :
  exists score w',
    mock_score_candidate (str "alice") (str "- python") demo_world
    = (Ok score, w')
    /\ in_range 10 100 score /\ two_decimals score.
Proof.
  apply (mock_score_candidate_range (str "alice") (str "- python") demo_world).
  vm_compute. reflexivity.
Defined.

(** C3 as stated fails: the second file of this batch is not a PDF; the
    request is answered with the 400, but the first candidate has been
    scored, by a request to the model service. *)
Lemma screen_candidates_scores_before_rejecting :
  let run := screen_candidates ascii_runtime (demo_config [REPLY_90])
                               [upload "a.pdf" "cv"; upload "notes.txt" "x"]
                               (str "python") demo_world in
  fst run = Raise (HTTPException 400 (str "Only PDFs allowed: notes.txt"))
  /\ scorer_log (snd run) = [OpenAICall (str "- python") (str "cv") (str "a")]
  /\ requests (snd run) = 1%nat.
Proof. vm_compute. auto. Qed.

(** C3, an instance of the amended claim. *)
Lemma screen_candidates_non_pdf_witness :
  exists e w',
    screen_candidates ascii_runtime (demo_config [REPLY_90])
                      ([upload "a.pdf" "cv"] ++ upload "notes.txt" "x" :: [])
                      (str "python") demo_world
    = (Raise e, w')
    /\ (exists k, (k <= List.length [upload "a.pdf" "cv"])%nat
          /\ scorer_log w'
             = scorer_log demo_world
                 ++ map (scorer_call_of (demo_config [REPLY_90])
                                        (normalize_qualities (str "python")))
                        (firstn k [upload "a.pdf" "cv"]))
    /\ (forall rs w1,
           screen_loop ascii_runtime (demo_config [REPLY_90])
                       (normalize_qualities (str "python"))
                       [upload "a.pdf" "cv"] [] demo_world = (Ok rs, w1) ->
           e = HTTPException 400
                 (str "Only PDFs allowed: " ++ filename (upload "notes.txt" "x"))
           /\ w' = w1).
Proof.
  apply (screen_candidates_non_pdf
           ascii_runtime (demo_config [REPLY_90]) [upload "a.pdf" "cv"]
           (upload "notes.txt" "x") [] (str "python") demo_world).
  - reflexivity.
  - vm_compute. discriminate.
Defined.

(** C5, the example of the specification: of two candidates scored 40 and
    90, the one scored 90 comes first. *)
Lemma screen_candidates_sorted_witness :
  fst (screen_candidates ascii_runtime (demo_config [REPLY_40; REPLY_90])
                         [upload "low.pdf" "cv one"; upload "high.pdf" "cv two!"]
                         (str "python") demo_world)
  = Ok [{| id := str "b0dd7c706f"; name := str "high"; score := FZ 90;
           url := None |};
        {| id := str "965d200912"; name := str "low"; score := FZ 40;
           url := None |}]
  /\ StronglySorted score_ge
       [{| id := str "b0dd7c706f"; name := str "high"; score := FZ 90;
           url := None |};
        {| id := str "965d200912"; name := str "low"; score := FZ 40;
           url := None |}].
Proof.
  split; [vm_compute; reflexivity|].
  apply (screen_candidates_sorted
           ascii_runtime (demo_config [REPLY_40; REPLY_90])
           [upload "low.pdf" "cv one"; upload "high.pdf" "cv two!"]
           (str "python") demo_world).
  vm_compute. reflexivity.
Defined.

(** C9 as stated fails: two uploads with the same base name and texts of
    the same length get the same identifier. *)
Lemma screen_candidates_duplicate_ids :
  exists r1 r2,
    fst (screen_candidates ascii_runtime (demo_config [REPLY_40; REPLY_90])
                           [upload "a/cv.pdf" "same"; upload "b/cv.PDF" "text"]
                           (str "python") demo_world)
    = Ok [r1; r2]
    /\ id r1 = id r2 /\ score r1 <> score r2.
Proof.
  eexists. eexists. split; [vm_compute; reflexivity|].
  split; [reflexivity|]. vm_compute. discriminate.
Qed.

(** C9, an instance of the amended claim. *)
Lemma screen_candidates_ids_witness :
  Permutation
    (map (fun r => Ok (id r))
         [{| id := str "b0dd7c706f"; name := str "high"; score := FZ 90;
             url := None |};
          {| id := str "965d200912"; name := str "low"; score := FZ 40;
             url := None |}])
    (map (file_id (demo_config [REPLY_40; REPLY_90]))
         [upload "low.pdf" "cv one"; upload "high.pdf" "cv two!"]).
Proof.
  apply (screen_candidates_ids
           ascii_runtime (demo_config [REPLY_40; REPLY_90])
           [upload "low.pdf" "cv one"; upload "high.pdf" "cv two!"]
           (str "python") demo_world).
  vm_compute. reflexivity.
Defined.

(* ================================================================== *)
(** * Further properties: strings *)
(* ================================================================== *)

Lemma drop_while_all (p : Z -> bool) (s : pystr) :
  forallb p s = true -> drop_while p s = [].
Proof.
  induction s as [|c s IH]; simpl; [reflexivity|].
  intros H. apply andb_prop in H as [Hc Hs]. rewrite Hc. auto.
Qed.

Lemma drop_while_nil_all (p : Z -> bool) (s : pystr) :
  drop_while p s = [] -> forallb p s = true.
Proof.
  induction s as [|c s IH]; simpl; [reflexivity|].
  destruct (p c); [auto|discriminate].
Qed.

Lemma drop_while_idem (p : Z -> bool) (s : pystr) :
  drop_while p (drop_while p s) = drop_while p s.
Proof.
  induction s as [|c s IH]; simpl; [reflexivity|].
  destruct (p c) eqn:E; [exact IH|]. simpl. now rewrite E.
Qed.

(** What [drop_while] leaves is a suffix. *)
Lemma drop_while_suffix (p : Z -> bool) (s : pystr) :
  exists a, s = a ++ drop_while p s /\ forallb p a = true.
Proof.
  induction s as [|c s IH]; simpl; [exists []; auto|].
  destruct (p c) eqn:E.
  - destruct IH as (a & Ea & Ha). exists (c :: a). simpl.
    rewrite E, Ha. split; [now f_equal|reflexivity].
  - exists []. auto.
Qed.

Lemma drop_while_head (p : Z -> bool) (c : Z) (s : pystr) :
  p c = false -> drop_while p (c :: s) = c :: s.
Proof. intros H. simpl. now rewrite H. Qed.

(** A text whose last character stays keeps it under [drop_while]. *)
Lemma drop_while_snoc (p : Z -> bool) (s : pystr) (c : Z) :
  p c = false -> exists x, drop_while p (s ++ [c]) = x ++ [c].
Proof.
  intros H. induction s as [|d s IH]; simpl.
  - rewrite H. exists []. reflexivity.
  - destruct (p d); [exact IH|]. exists (d :: s). reflexivity.
Qed.

Lemma strip_all_space (s : pystr) : forallb is_space s = true -> strip s = [].
Proof.
  intros H. unfold strip, rstrip, lstrip. now rewrite (drop_while_all _ _ H).
Qed.

Lemma strip_nil_all_space (s : pystr) : strip s = [] -> forallb is_space s = true.
Proof.
  unfold strip, rstrip, lstrip. intros H.
  assert (E : drop_while is_space (rev (drop_while is_space s)) = []).
  { rewrite <- (rev_involutive (drop_while is_space (rev _))). now rewrite H. }
  apply drop_while_nil_all in E. rewrite forallb_forall in E.
  destruct (drop_while_suffix is_space s) as (a & Ea & Ha).
  rewrite Ea, forallb_app, Ha. simpl. apply forallb_forall.
  intros c Hc. apply E. now rewrite <- in_rev.
Qed.

(** What [strip] returns neither starts nor ends with whitespace. *)
Lemma strip_trimmed (s : pystr) : trimmed (strip s).
Proof.
  unfold trimmed, strip, rstrip, lstrip. rewrite rev_involutive.
  split; [|apply drop_while_idem].
  set (t := drop_while is_space s).
  assert (Ht : drop_while is_space t = t) by apply drop_while_idem.
  clearbody t. destruct t as [|c t]; [reflexivity|].
  assert (Hc : is_space c = false).
  { simpl in Ht. destruct (is_space c) eqn:E; [|reflexivity].
    exfalso. destruct (drop_while_suffix is_space t) as (a & Ea & _).
    rewrite Ht in Ea. apply (f_equal (@List.length Z)) in Ea.
    rewrite length_app in Ea. simpl in Ea. lia. }
  simpl rev. destruct (drop_while_snoc is_space (rev t) c Hc) as (x & ->).
  rewrite rev_app_distr. simpl. now rewrite Hc.
Qed.

Lemma trimmed_strip (s : pystr) : trimmed s -> strip s = s.
Proof.
  intros [H1 H2]. unfold strip, rstrip, lstrip.
  rewrite H1, H2. apply rev_involutive.
Qed.

(** [s[i:]] for an index inside the string. *)
Lemma slice_from (s : pystr) (i : Z) :
  0 <= i <= len s -> slice s (Some i) None = skipn (Z.to_nat i) s.
Proof.
  intros H. unfold slice, slice_index.
  destruct (Z.ltb_spec i 0); [lia|]. rewrite Z.min_l by lia.
  apply firstn_all2. rewrite length_skipn. unfold len in *. lia.
Qed.

(* ================================================================== *)
(** * Further properties: truncate_for_model and the prompt *)
(* ================================================================== *)

Lemma truncate_len_bound (text : pystr) (max_chars : Z) :
  2 <= max_chars -> len (truncate_for_model text max_chars) <= max_chars + 5.
Proof.
  intros H. destruct (Z.le_gt_cases (len text) max_chars) as [L|G].
  - rewrite truncate_short by exact L. lia.
  - rewrite truncate_long by lia. rewrite !len_app.
    pose proof (Z.div_mod max_chars 2 ltac:(lia)).
    pose proof (Z.mod_pos_bound max_chars 2 ltac:(lia)).
    rewrite len_firstn by lia. rewrite len_skipn.
    unfold len in *. simpl List.length. lia.
Qed.

(** X1: with the budget the code uses, the CV part of the prompt has at most
    20005 characters whatever the length of the document, and the user
    message is at most 20071 characters longer than the qualities and the
    candidate name together. *)
Theorem user_prompt_bounded (qualities_text candidate_name cv_text : pystr) :
  len (truncate_for_model cv_text MAX_CHARS_PER_CV) <= 20005
  /\ len (user_prompt qualities_text candidate_name cv_text)
     = 66 + len qualities_text + len candidate_name
       + len (truncate_for_model cv_text MAX_CHARS_PER_CV)
  /\ len (user_prompt qualities_text candidate_name cv_text)
     <= len qualities_text + len candidate_name + 20071.
Proof.
  pose proof (truncate_len_bound cv_text MAX_CHARS_PER_CV ltac:(unfold MAX_CHARS_PER_CV; lia)) as B.
  change (MAX_CHARS_PER_CV + 5) with 20005 in B.
  assert (E : len (user_prompt qualities_text candidate_name cv_text)
              = 66 + len qualities_text + len candidate_name
                + len (truncate_for_model cv_text MAX_CHARS_PER_CV)).
  { unfold user_prompt. rewrite !len_app.
    change (len [NL]) with 1.
    change (len (str "Qualities (one per line):")) with 25.
    change (len (str "Candidate: ")) with 11.
    change (len (str "CV (truncated if long):")) with 23. lia. }
  split; [exact B|]. split; [exact E|]. lia.
Qed.

(** X2: under a budget of 0 or 1 nothing is cut: both halves have length 0,
    the empty head is [text[:0]] but the tail [text[-0:]] is the whole text,
    so a text over the budget comes back whole behind the marker. *)
Theorem truncate_for_model_tiny_budget (text : pystr) (max_chars : Z) :
  0 <= max_chars <= 1 -> max_chars < len text ->
  truncate_for_model text max_chars = ELISION ++ text.
Proof.
  intros Hm Hl. unfold truncate_for_model.
  destruct (Z.leb_spec (len text) max_chars); [lia|].
  assert (E : max_chars / 2 = 0) by (apply Z.div_small; lia).
  rewrite E. rewrite slice_prefix by lia. change (- 0) with 0.
  rewrite slice_from by lia. reflexivity.
Qed.

(** X2, an instance. *)
Lemma truncate_for_model_tiny_budget_witness :
  truncate_for_model (str "abc") 1 = ELISION ++ str "abc".
Proof.
  apply (truncate_for_model_tiny_budget (str "abc") 1); vm_compute;
    [split; discriminate|reflexivity].
Defined.

(* ================================================================== *)
(** * Further properties: the external-model scorer *)
(* ================================================================== *)

Lemma neutral_rounds : py_round2 (FZ 50) = Ok (FZ 50)
                       /\ py_max (FZ 0) (py_min (FZ 100) (FZ 50)) = FZ 50.
Proof. split; vm_compute; reflexivity. Qed.

Section ScorerFacts.

Variable py : PyRuntime.
Variable cfg : Config.
Variables qualities_text cv_text candidate_name : pystr.

Let user := user_prompt qualities_text candidate_name cv_text.
Let run := openai_score_cv py cfg qualities_text cv_text candidate_name.

(** Without a client nothing happens but the 500. *)
Lemma openai_score_cv_no_client (w : World) :
  client cfg = false ->
  run w = (Raise (HTTPException 500 (str "OpenAI client not initialized.")), w).
Proof.
  intros H. unfold run, openai_score_cv. rewrite H. reflexivity.
Qed.

(** The outcome when the first request raises something other than a
    TypeError, and when the second request raises. *)
Lemma openai_score_cv_service_error (w : World) (e : exn) :
  client cfg = true ->
  (chat_create cfg (requests w) true SYSTEM_PROMPT user = Raise e
   /\ e <> TypeError)
  \/ (chat_create cfg (requests w) true SYSTEM_PROMPT user = Raise TypeError
      /\ chat_create cfg (S (requests w)) false SYSTEM_PROMPT user = Raise e) ->
  fst (run w) = Raise e
  /\ rng (snd (run w)) = rng w /\ scorer_log (snd (run w)) = scorer_log w
  /\ (requests w < requests (snd (run w)) <= requests w + 2)%nat.
Proof.
  intros Hc H.
  assert (Hk : truthy (OPENAI_API_KEY cfg) = true).
  { unfold client in Hc. apply andb_prop in Hc. tauto. }
  assert (R : exists k, (1 <= k <= 2)%nat
                /\ run w = (Raise e, {| rng := rng w;
                                         requests := requests w + k;
                                         scorer_log := scorer_log w |})).
  { unfold run, openai_score_cv. rewrite Hc, Hk. cbn [negb].
    unfold bind at 1. unfold chat. fold user.
    destruct H as [[E N]|[E1 E2]].
    - rewrite E. exists 1%nat. rewrite Nat.add_1_r.
      split; [lia|]. destruct e; try congruence; reflexivity.
    - rewrite E1. cbn [requests]. rewrite E2. exists 2%nat.
      replace (requests w + 2)%nat with (S (S (requests w))) by lia.
      split; [lia|reflexivity]. }
  destruct R as (k & Hk2 & ->). cbn [fst snd rng requests scorer_log].
  repeat split; lia.
Qed.

(** The outcome when the service has replied and the reply is usable. *)
Lemma openai_score_cv_parsed (w : World) (raw reason : pystr) (mode : bool)
      (x : pyfloat) :
  client cfg = true ->
  model_replied cfg w SYSTEM_PROMPT user raw mode ->
  parse_reply py raw = Ok (x, reason) ->
  exists r w',
    py_round2 x = Ok r
    /\ run w = (Ok {| sr_score := py_max (FZ 0) (py_min (FZ 100) r);
                      sr_reason := reason;
                      sr_json_mode := mode |}, w').
Proof.
  intros Hc Hr Hp.
  destruct (openai_score_cv_replied py cfg _ _ _ w raw mode Hc Hr)
    as (r & w' & Er & E & _).
  rewrite Hp in Er, E. cbn [fst snd] in *. exists r, w'. auto.
Qed.

(** The outcome when the service has replied and the reply is not usable. *)
Lemma openai_score_cv_neutral (w : World) (raw : pystr) (mode : bool) (e : exn) :
  client cfg = true ->
  model_replied cfg w SYSTEM_PROMPT user raw mode ->
  parse_reply py raw = Raise e ->
  exists w', run w = (Ok (neutral_result mode), w').
Proof.
  intros Hc Hr Hp.
  destruct (openai_score_cv_replied py cfg _ _ _ w raw mode Hc Hr)
    as (r & w' & Er & E & _).
  rewrite Hp in Er, E. cbn [fst snd] in *.
  destruct neutral_rounds as [R C]. rewrite R in Er. injection Er as <-.
  rewrite C in E. exists w'. exact E.
Qed.

(** The world after a reply: one or two requests more, nothing else. *)
Lemma openai_score_cv_replied_world (w : World) (raw : pystr) (mode : bool) :
  client cfg = true ->
  model_replied cfg w SYSTEM_PROMPT user raw mode ->
  rng (snd (run w)) = rng w /\ scorer_log (snd (run w)) = scorer_log w
  /\ requests (snd (run w)) = (requests w + (if mode then 1 else 2))%nat.
Proof.
  intros Hc Hr.
  destruct (py_round2_total _ (reply_score_wf py raw)) as (r & Er & _ & _).
  assert (Hk : truthy (OPENAI_API_KEY cfg) = true).
  { unfold client in Hc. apply andb_prop in Hc. tauto. }
  unfold run, openai_score_cv. rewrite Hc, Hk. cbn [negb].
  unfold bind, chat, lift, ret. fold user.
  destruct Hr as [c E|c E1 E2].
  - rewrite E.
    destruct (parse_reply py (strip (or_empty c))) as [[sc rs]|];
      cbn [fst snd] in *; rewrite Er; cbn [snd rng requests scorer_log];
      repeat split; try reflexivity; lia.
  - rewrite E1. cbn [requests]. rewrite E2.
    destruct (parse_reply py (strip (or_empty c))) as [[sc rs]|];
      cbn [fst snd] in *; rewrite Er; cbn [snd rng requests scorer_log];
      repeat split; try reflexivity; lia.
Qed.

(** The ways a call can go: no client, a reply, or an exception of the
    service. *)
Lemma openai_score_cv_cases (w : World) :
  client cfg = false
  \/ (client cfg = true
      /\ exists raw mode, model_replied cfg w SYSTEM_PROMPT user raw mode)
  \/ (client cfg = true
      /\ exists e,
          (chat_create cfg (requests w) true SYSTEM_PROMPT user = Raise e
           /\ e <> TypeError)
          \/ (chat_create cfg (requests w) true SYSTEM_PROMPT user
              = Raise TypeError
              /\ chat_create cfg (S (requests w)) false SYSTEM_PROMPT user
                 = Raise e)).
Proof.
  destruct (client cfg) eqn:Hc; [right|now left].
  destruct (chat_create cfg (requests w) true SYSTEM_PROMPT user) as [c|e] eqn:E.
  - left. split; [reflexivity|]. exists (strip (or_empty c)), true.
    apply replied_json. exact E.
  - assert (D : e = TypeError \/ e <> TypeError)
      by (destruct e; (now left) || (right; discriminate)).
    destruct D as [->|N].
    + destruct (chat_create cfg (S (requests w)) false SYSTEM_PROMPT user)
        as [c|e2] eqn:E2.
      * left. split; [reflexivity|]. exists (strip (or_empty c)), false.
        apply replied_plain; assumption.
      * right. split; [reflexivity|]. exists e2. right. auto.
    + right. split; [reflexivity|]. exists e. left. auto.
Qed.

End ScorerFacts.

(** X3: [openai_score_cv] raises only for want of a client, and then sends
    no request and changes nothing, or because the model service raised:
    the exception of the first request unless that is a TypeError, else the
    exception of the second request.  No exception of the parsing, of
    [float] or of [round] leaves the function. *)
Theorem openai_score_cv_raises
        (py : PyRuntime) (cfg : Config)
        (qualities_text cv_text candidate_name : pystr)
        (w w' : World) (e : exn) :
  openai_score_cv py cfg qualities_text cv_text candidate_name w = (Raise e, w') ->
  (client cfg = false
   /\ e = HTTPException 500 (str "OpenAI client not initialized.") /\ w' = w)
  \/ (client cfg = true
      /\ chat_create cfg (requests w) true SYSTEM_PROMPT
                     (user_prompt qualities_text candidate_name cv_text)
         = Raise e
      /\ e <> TypeError)
  \/ (client cfg = true
      /\ chat_create cfg (requests w) true SYSTEM_PROMPT
                     (user_prompt qualities_text candidate_name cv_text)
         = Raise TypeError
      /\ chat_create cfg (S (requests w)) false SYSTEM_PROMPT
                     (user_prompt qualities_text candidate_name cv_text)
         = Raise e).
Proof.
  intros H.
  destruct (openai_score_cv_cases cfg qualities_text cv_text candidate_name w)
    as [Hc|[[Hc (raw & mode & Hr)]|[Hc (e' & He)]]].
  - left. rewrite openai_score_cv_no_client in H by exact Hc.
    injection H as <- <-. auto.
  - exfalso.
    destruct (openai_score_cv_replied py cfg _ _ _ w raw mode Hc Hr)
      as (r & w1 & _ & E & _).
    rewrite E in H. discriminate H.
  - right.
    destruct (openai_score_cv_service_error py cfg _ _ _ w e' Hc He) as [E _].
    rewrite H in E. cbn [fst] in E. injection E as ->.
    destruct He as [[E1 N]|[E1 E2]]; [left|right]; auto.
Qed.

(** X3, an instance: a process without API key. *)
Lemma openai_score_cv_raises_witness :
  (client mock_config = false
   /\ HTTPException 500 (str "OpenAI client not initialized.")
      = HTTPException 500 (str "OpenAI client not initialized.")
   /\ demo_world = demo_world)
  \/ (client mock_config = true
      /\ chat_create mock_config (requests demo_world) true SYSTEM_PROMPT
                     (user_prompt (str "- python") (str "a") (str "cv"))
         = Raise (HTTPException 500 (str "OpenAI client not initialized."))
      /\ HTTPException 500 (str "OpenAI client not initialized.") <> TypeError)
  \/ (client mock_config = true
      /\ chat_create mock_config (requests demo_world) true SYSTEM_PROMPT
                     (user_prompt (str "- python") (str "a") (str "cv"))
         = Raise TypeError
      /\ chat_create mock_config (S (requests demo_world)) false SYSTEM_PROMPT
                     (user_prompt (str "- python") (str "a") (str "cv"))
         = Raise (HTTPException 500 (str "OpenAI client not initialized."))).
Proof.
  apply (openai_score_cv_raises ascii_runtime mock_config (str "- python")
           (str "cv") (str "a") demo_world demo_world).
  reflexivity.
Defined.

(** X4: a call of [openai_score_cv] sends at most two requests to the model
    service (none without a client, two only when the first raised a
    TypeError), and never touches the random generator. *)
Theorem openai_score_cv_footprint
        (py : PyRuntime) (cfg : Config)
        (qualities_text cv_text candidate_name : pystr) (w : World) :
  let w' := snd (openai_score_cv py cfg qualities_text cv_text candidate_name w) in
  rng w' = rng w
  /\ (requests w <= requests w' <= requests w + 2)%nat
  /\ (client cfg = false -> w' = w)
  /\ ((requests w' = requests w + 2)%nat ->
      chat_create cfg (requests w) true SYSTEM_PROMPT
                  (user_prompt qualities_text candidate_name cv_text)
      = Raise TypeError).
Proof.
  cbv zeta.
  destruct (openai_score_cv_cases cfg qualities_text cv_text candidate_name w)
    as [Hc|[[Hc (raw & mode & Hr)]|[Hc (e' & He)]]].
  - rewrite openai_score_cv_no_client by exact Hc. cbn [snd].
    split; [reflexivity|]. split; [lia|]. split; [reflexivity|]. intros; lia.
  - destruct (openai_score_cv_replied_world py cfg _ _ _ w raw mode Hc Hr)
      as (R & _ & Q).
    rewrite R, Q. split; [reflexivity|]. split; [destruct mode; lia|].
    split; [congruence|].
    intros H. destruct Hr as [c E|c E1 E2]; [lia|exact E1].
  - destruct (openai_score_cv_service_error py cfg _ _ _ w e' Hc He)
      as (F & R & _ & Q).
    split; [exact R|]. split; [lia|]. split; [congruence|].
    intros H. destruct He as [[E N]|[E1 E2]]; [|exact E1].
    exfalso. revert H. unfold openai_score_cv.
    assert (Hk : truthy (OPENAI_API_KEY cfg) = true).
    { unfold client in Hc. apply andb_prop in Hc. tauto. }
    rewrite Hc, Hk. cbn [negb]. unfold bind at 1. unfold chat. rewrite E.
    destruct e'; try congruence; cbn [snd requests]; lia.
Qed.

(** The float of an integer below 2^53 in magnitude is exact. *)
Lemma FZ_exact (n : Z) :
  Z.abs n < 2 ^ 53 ->
  round_units (n * UNIT) 1 = n * UNIT /\ Z.abs (n * UNIT) < HUGE.
Proof.
  intros H. pose proof UNIT_pos as PU. split.
  - apply round_units_exact.
    destruct (Z.eq_dec n 0) as [->|N]; [reflexivity|].
    rewrite Z.abs_mul, (Z.abs_eq UNIT) by lia. unfold UNIT.
    assert (L : binade_shift (Z.abs n * 2 ^ 1074) <= 1074).
    { unfold binade_shift. rewrite Z.log2_mul_pow2 by lia.
      assert (Z.log2 (Z.abs n) < 53) by (apply Z.log2_lt_pow2; lia). lia. }
    apply pow2_mod_le. split; [apply binade_shift_nonneg|exact L].
  - rewrite Z.abs_mul, (Z.abs_eq UNIT) by lia. unfold UNIT, HUGE in *.
    replace 2098 with (1024 + 1074) by lia. rewrite Z.pow_add_r by lia.
    assert (2 ^ 53 < 2 ^ 1024) by (apply Z.pow_lt_mono_r; lia).
    assert (0 <= Z.abs n) by lia. nia.
Qed.

Lemma float_of_int_exact (n : Z) :
  Z.abs n < 2 ^ 53 -> float_of_int n = Ok (FZ n).
Proof.
  intros H. destruct (FZ_exact n H) as [E B].
  unfold float_of_int, rnd, FZ. rewrite E.
  destruct (Z.leb_spec HUGE (n * UNIT)); [lia|].
  destruct (Z.leb_spec (n * UNIT) (- HUGE)); [lia|reflexivity].
Qed.

(** [round(x, 2)] of a whole number below 2^53 is that number. *)
Lemma py_round2_exact (n : Z) :
  Z.abs n < 2 ^ 53 -> py_round2 (FZ n) = Ok (FZ n).
Proof.
  intros H. destruct (FZ_exact n H) as [E B]. pose proof UNIT_pos as PU.
  unfold py_round2, FZ. rewrite hundredths_eq.
  replace (100 * (n * UNIT)) with ((100 * n) * UNIT) by lia.
  rewrite rne_exact by exact PU. unfold rnd.
  pose proof (round_units_scale (n * UNIT) 1 100 ltac:(lia) ltac:(lia)) as S.
  rewrite Z.mul_1_l in S.
  replace (100 * n * UNIT) with ((n * UNIT) * 100) by lia.
  rewrite S, E.
  destruct (Z.leb_spec HUGE (n * UNIT)); [lia|].
  destruct (Z.leb_spec (n * UNIT) (- HUGE)); [lia|reflexivity].
Qed.

Lemma clamp_FZ (n : Z) :
  py_max (FZ 0) (py_min (FZ 100) (FZ n)) = FZ (clamp_int n).
Proof.
  pose proof UNIT_pos as PU. unfold py_max, py_min, FZ, clamp_int. cbn [flt].
  destruct (Z.ltb_spec (n * UNIT) (100 * UNIT)); cbn [flt].
  - destruct (Z.ltb_spec (0 * UNIT) (n * UNIT)).
    + f_equal. f_equal. nia.
    + f_equal. f_equal. nia.
  - destruct (Z.ltb_spec (0 * UNIT) (100 * UNIT)); [|lia].
    f_equal. f_equal. nia.
Qed.

(** X5: a reply that is JSON but not an object (a list, a number, a string,
    true, false or null) has no [get]; the AttributeError is caught and the
    neutral result returned. *)
Theorem openai_score_cv_non_object
        (py : PyRuntime) (cfg : Config)
        (qualities_text cv_text candidate_name : pystr)
        (w : World) (raw : pystr) (mode : bool) (v : json) :
  client cfg = true ->
  model_replied cfg w SYSTEM_PROMPT
                (user_prompt qualities_text candidate_name cv_text) raw mode ->
  coerce_json_from_model py raw = Ok v ->
  (forall d, v <> JObject d) ->
  exists w',
    openai_score_cv py cfg qualities_text cv_text candidate_name w
    = (Ok (neutral_result mode), w').
Proof.
  intros Hc Hr Hv Hd.
  apply (openai_score_cv_neutral py cfg _ _ _ w raw mode AttributeError Hc Hr).
  unfold parse_reply. rewrite Hv.
  destruct v; try reflexivity. exfalso. eapply Hd. reflexivity.
Qed.

(** X5, an instance: the reply is a list. *)
Lemma openai_score_cv_non_object_witness :
  exists w',
    openai_score_cv ascii_runtime (demo_config [str "[90]"])
                    (str "- python") (str "cv") (str "a") demo_world
    = (Ok (neutral_result true), w').
Proof.
  apply (openai_score_cv_non_object
           ascii_runtime (demo_config [str "[90]"])
           (str "- python") (str "cv") (str "a") demo_world
           (strip (or_empty (Some (str "[90]")))) true (JArray [JInt 90])).
  - reflexivity.
  - apply (replied_json _ _ _ _ (Some (str "[90]"))). reflexivity.
  - vm_compute. reflexivity.
  - discriminate.
Defined.

(** X6: an object without a "score" key is scored 50.0, the default of
    [get], and keeps its own rationale, stripped (empty when it has none):
    this is not the parse-error result. *)
Theorem openai_score_cv_missing_score
        (py : PyRuntime) (cfg : Config)
        (qualities_text cv_text candidate_name : pystr)
        (w : World) (raw : pystr) (mode : bool) (d : list (pystr * json)) :
  client cfg = true ->
  model_replied cfg w SYSTEM_PROMPT
                (user_prompt qualities_text candidate_name cv_text) raw mode ->
  coerce_json_from_model py raw = Ok (JObject d) ->
  dict_lookup d (str "score") = None ->
  exists w',
    openai_score_cv py cfg qualities_text cv_text candidate_name w
    = (Ok {| sr_score := FZ 50;
             sr_reason := strip (py_str py
                                   (match dict_lookup d (str "reason") with
                                    | Some rv => rv
                                    | None => JString []
                                    end));
             sr_json_mode := mode |}, w').
Proof.
  intros Hc Hr Hv Hs.
  destruct (openai_score_cv_parsed
              py cfg _ _ _ w raw
              (strip (py_str py (match dict_lookup d (str "reason") with
                                 | Some rv => rv
                                 | None => JString []
                                 end)))
              mode (FZ 50) Hc Hr)
    as (r & w' & Er & E).
  - unfold parse_reply. rewrite Hv. unfold data_get. rewrite Hs.
    cbn [py_float]. rewrite float_of_int_exact by (vm_compute; reflexivity).
    destruct (dict_lookup d (str "reason")); reflexivity.
  - destruct neutral_rounds as [R C]. rewrite R in Er. injection Er as <-.
    rewrite C in E. exists w'. exact E.
Qed.

(** X6, an instance. *)
Lemma openai_score_cv_missing_score_witness :
  exists w',
    openai_score_cv ascii_runtime (demo_config [jstr "{'reason': ' solid '}"])
                    (str "- python") (str "cv") (str "a") demo_world
    = (Ok {| sr_score := FZ 50;
             sr_reason :=
               strip (py_str ascii_runtime
                        (match dict_lookup [(str "reason", JString (str " solid "))]
                                           (str "reason") with
                         | Some rv => rv
                         | None => JString []
                         end));
             sr_json_mode := true |}, w').
Proof.
  apply (openai_score_cv_missing_score
           ascii_runtime (demo_config [jstr "{'reason': ' solid '}"])
           (str "- python") (str "cv") (str "a") demo_world
           (strip (or_empty (Some (jstr "{'reason': ' solid '}")))) true
           [(str "reason", JString (str " solid "))]).
  - reflexivity.
  - apply (replied_json _ _ _ _ (Some (jstr "{'reason': ' solid '}"))).
    reflexivity.
  - vm_compute. reflexivity.
  - reflexivity.
Defined.

(** X7: when the "score" of the reply is something [float] refuses (null, a
    list, a dict, a string that is no number, an int beyond the range of a
    float), the exception is caught: the result is the neutral one, and the
    rationale of the reply is dropped for the parse-error text. *)
Theorem openai_score_cv_bad_score
        (py : PyRuntime) (cfg : Config)
        (qualities_text cv_text candidate_name : pystr)
        (w : World) (raw : pystr) (mode : bool) (d : list (pystr * json))
        (sv : json) (e : exn) :
  client cfg = true ->
  model_replied cfg w SYSTEM_PROMPT
                (user_prompt qualities_text candidate_name cv_text) raw mode ->
  coerce_json_from_model py raw = Ok (JObject d) ->
  dict_lookup d (str "score") = Some sv ->
  py_float py sv = Raise e ->
  exists w',
    openai_score_cv py cfg qualities_text cv_text candidate_name w
    = (Ok (neutral_result mode), w').
Proof.
  intros Hc Hr Hv Hs He.
  apply (openai_score_cv_neutral py cfg _ _ _ w raw mode e Hc Hr).
  unfold parse_reply. rewrite Hv. unfold data_get at 1. rewrite Hs, He.
  reflexivity.
Qed.

(** X7, an instance: the score is null and the reply has a rationale. *)
Lemma openai_score_cv_bad_score_witness :
  exists w',
    openai_score_cv ascii_runtime
                    (demo_config [jstr "{'score': null, 'reason': 'good'}"])
                    (str "- python") (str "cv") (str "a") demo_world
    = (Ok (neutral_result true), w').
Proof.
  apply (openai_score_cv_bad_score
           ascii_runtime (demo_config [jstr "{'score': null, 'reason': 'good'}"])
           (str "- python") (str "cv") (str "a") demo_world
           (strip (or_empty (Some (jstr "{'score': null, 'reason': 'good'}"))))
           true
           [(str "score", JNull); (str "reason", JString (str "good"))]
           JNull TypeError).
  - reflexivity.
  - apply (replied_json _ _ _ _
             (Some (jstr "{'score': null, 'reason': 'good'}"))).
    reflexivity.
  - vm_compute. reflexivity.
  - reflexivity.
  - reflexivity.
Defined.

(** X8: an integer score below 2^53 in magnitude is returned exactly when
    it lies in [0, 100], as 100.0 when it is larger and as 0.0 when it is
    negative. *)
Theorem openai_score_cv_int_score
        (py : PyRuntime) (cfg : Config)
        (qualities_text cv_text candidate_name : pystr)
        (w : World) (raw : pystr) (mode : bool) (d : list (pystr * json))
        (n : Z) :
  client cfg = true ->
  model_replied cfg w SYSTEM_PROMPT
                (user_prompt qualities_text candidate_name cv_text) raw mode ->
  coerce_json_from_model py raw = Ok (JObject d) ->
  dict_lookup d (str "score") = Some (JInt n) ->
  Z.abs n < 2 ^ 53 ->
  exists res w',
    openai_score_cv py cfg qualities_text cv_text candidate_name w = (Ok res, w')
    /\ sr_score res = FZ (clamp_int n).
Proof.
  intros Hc Hr Hv Hs Hn.
  destruct (openai_score_cv_parsed
              py cfg _ _ _ w raw
              (strip (py_str py (match dict_lookup d (str "reason") with
                                 | Some rv => rv
                                 | None => JString []
                                 end)))
              mode (FZ n) Hc Hr)
    as (r & w' & Er & E).
  - unfold parse_reply. rewrite Hv. unfold data_get. rewrite Hs.
    cbn [py_float]. rewrite float_of_int_exact by exact Hn.
    destruct (dict_lookup d (str "reason")); reflexivity.
  - rewrite py_round2_exact in Er by exact Hn. injection Er as <-.
    rewrite clamp_FZ in E. eexists. exists w'. split; [exact E|reflexivity].
Qed.

(** X8, an instance: a score of 250 comes back as 100.0. *)
Lemma openai_score_cv_int_score_witness :
  exists res w',
    openai_score_cv ascii_runtime (demo_config [jstr "{'score': 250}"])
                    (str "- python") (str "cv") (str "a") demo_world
    = (Ok res, w')
    /\ sr_score res = FZ (clamp_int 250).
Proof.
  apply (openai_score_cv_int_score
           ascii_runtime (demo_config [jstr "{'score': 250}"])
           (str "- python") (str "cv") (str "a") demo_world
           (strip (or_empty (Some (jstr "{'score': 250}")))) true
           [(str "score", JInt 250)] 250).
  - reflexivity.
  - apply (replied_json _ _ _ _ (Some (jstr "{'score': 250}"))). reflexivity.
  - vm_compute. reflexivity.
  - reflexivity.
  - reflexivity.
Defined.

(* ================================================================== *)
(** * Further properties: text extraction, names and identifiers *)
(* ================================================================== *)

Lemma trimmed_nil : trimmed [].
Proof. split; reflexivity. Qed.

(** X9: the extracted text never starts or ends with whitespace, whichever
    library produced it; it is empty when both fail. *)
Theorem extract_pdf_text_trimmed (cfg : Config) (content : list Z) :
  trimmed (extract_pdf_text cfg content)
  /\ strip (extract_pdf_text cfg content) = extract_pdf_text cfg content.
Proof.
  assert (T : trimmed (extract_pdf_text cfg content)).
  { unfold extract_pdf_text.
    set (text := match pdf_pages cfg content with
                 | Ok pages => strip _
                 | Raise _ => []
                 end).
    assert (Ht : trimmed text).
    { subst text. destruct (pdf_pages cfg content);
        [apply strip_trimmed|apply trimmed_nil]. }
    clearbody text. destruct text as [|c t]; [|exact Ht].
    destruct (pdfminer_extract_text cfg) as [extract|]; [|exact Ht].
    destruct (extract content); [apply strip_trimmed|exact Ht]. }
  split; [exact T|apply trimmed_strip, T].
Qed.

(** X10: when the page-by-page extraction yields text, that text is the
    result whether pdfminer is installed or not and whatever it would
    return; pdfminer decides the result only when the first extraction
    yields nothing. *)
Theorem extract_pdf_text_primary_first
        (cfg : Config)
        (miner : option (list Z -> result (option pystr)))
        (content : list Z) :
  extract_pdf_text (with_pdfminer cfg None) content <> [] ->
  extract_pdf_text (with_pdfminer cfg miner) content
  = extract_pdf_text (with_pdfminer cfg None) content.
Proof.
  unfold extract_pdf_text, with_pdfminer.
  cbn [pdf_pages pdfminer_extract_text].
  set (text := match pdf_pages cfg content with
               | Ok pages => strip _
               | Raise _ => []
               end).
  clearbody text. destruct text as [|c t]; [congruence|].
  destruct miner; reflexivity.
Qed.

(** X10, an instance: one page of text, and a pdfminer that would raise. *)
Lemma extract_pdf_text_primary_first_witness :
  extract_pdf_text
    (with_pdfminer mock_config (Some (fun _ => Raise ValueError))) (str " cv ")
  = extract_pdf_text (with_pdfminer mock_config None) (str " cv ").
Proof.
  apply (extract_pdf_text_primary_first
           mock_config (Some (fun _ => Raise ValueError)) (str " cv ")).
  vm_compute. discriminate.
Defined.

Lemma basename_after_slash (d rest : pystr) :
  ~ In 47 rest -> basename (d ++ 47 :: rest) = rest.
Proof.
  intros H. unfold basename. rewrite rfind_app_last by exact H.
  pose proof (len_nonneg d).
  rewrite slice_from.
  - replace (Z.to_nat (len d + 1)) with (List.length d + 1)%nat
      by (unfold len; lia).
    rewrite skipn_app. rewrite skipn_all2 by lia.
    replace (List.length d + 1 - List.length d)%nat with 1%nat by lia.
    reflexivity.
  - rewrite len_app. unfold len. cbn [List.length]. lia.
Qed.

Lemma basename_no_slash (rest : pystr) : ~ In 47 rest -> basename rest = rest.
Proof.
  intros H. unfold basename. rewrite rfind_absent by exact H.
  pose proof (len_nonneg rest). rewrite slice_from by lia. reflexivity.
Qed.

Lemma slice_firstn_app (a b : pystr) :
  slice (a ++ b) None (Some (len a)) = a
  /\ slice (a ++ b) (Some 0) (Some (len a)) = a.
Proof.
  pose proof (slice_middle [] a b) as M. simpl app in M.
  change (len []) with 0 in M. rewrite Z.add_0_l in M. split; [|exact M].
  pose proof (len_nonneg a). pose proof (len_nonneg b).
  rewrite slice_prefix by (rewrite len_app; lia).
  replace (Z.to_nat (len a)) with (List.length a) by (unfold len; lia).
  rewrite firstn_app, Nat.sub_diag, firstn_all. simpl. apply app_nil_r.
Qed.

(** The root of [stem.ext] inside one path component. *)
Lemma splitext_root_stem (stem ext : pystr) :
  ~ In 47 stem -> ~ In 47 ext -> ~ In 46 ext ->
  splitext_root (stem ++ 46 :: ext)
  = if forallb (Z.eqb 46) stem then stem ++ 46 :: ext else stem.
Proof.
  intros H1 H2 H3. unfold splitext_root.
  assert (Hs : ~ In 47 (stem ++ 46 :: ext)).
  { intros H. apply in_app_or in H as [H|[H|H]]; [auto|discriminate|auto]. }
  rewrite (rfind_absent _ 47 Hs). rewrite rfind_app_last by exact H3.
  pose proof (len_nonneg stem).
  destruct (Z.ltb_spec (-1) (len stem)); [|lia].
  change (-1 + 1) with 0.
  destruct (slice_firstn_app stem (46 :: ext)) as [S1 S2].
  rewrite S1, S2. destruct (forallb (Z.eqb 46) stem); reflexivity.
Qed.

(** X11: for a file [stem.ext], alone or behind any directory prefix ending
    in a slash, the candidate name is [stem]: directory and extension are
    dropped ([stem] and [ext] hold no slash, [ext] no dot, and [stem] is not
    made of dots only). *)
Theorem candidate_name_of_stem (d stem ext : pystr) (bytes : list Z) :
  d = [] \/ (exists d', d = d' ++ [47]) ->
  ~ In 47 stem -> ~ In 47 ext -> ~ In 46 ext ->
  forallb (Z.eqb 46) stem = false ->
  candidate_name_of {| filename := d ++ stem ++ 46 :: ext; content := bytes |}
  = stem.
Proof.
  intros Hd H1 H2 H3 H4. unfold candidate_name_of. cbn [filename].
  assert (Hs : ~ In 47 (stem ++ 46 :: ext)).
  { intros H. apply in_app_or in H as [H|[H|H]]; [auto|discriminate|auto]. }
  assert (B : basename (d ++ stem ++ 46 :: ext) = stem ++ 46 :: ext).
  { destruct Hd as [->|(d' & ->)].
    - apply basename_no_slash, Hs.
    - rewrite <- app_assoc. apply basename_after_slash, Hs. }
  rewrite B, splitext_root_stem by assumption. now rewrite H4.
Qed.

(** X11, an instance. *)
Lemma candidate_name_of_stem_witness :
  candidate_name_of
    {| filename := str "uploads/" ++ str "Jane Doe" ++ 46 :: str "PDF";
       content := [] |}
  = str "Jane Doe".
Proof.
  apply (candidate_name_of_stem (str "uploads/") (str "Jane Doe") (str "PDF") []).
  - right. exists (str "uploads"). reflexivity.
  - vm_compute. intuition lia.
  - vm_compute. intuition lia.
  - vm_compute. intuition lia.
  - reflexivity.
Defined.

(** X12: a file whose base name is only dots before the extension, such as
    ".pdf", keeps the extension in its candidate name: [splitext] does not
    split after leading dots. *)
Theorem candidate_name_of_dotfile (d dots ext : pystr) (bytes : list Z) :
  d = [] \/ (exists d', d = d' ++ [47]) ->
  forallb (Z.eqb 46) dots = true ->
  ~ In 47 ext -> ~ In 46 ext ->
  candidate_name_of {| filename := d ++ dots ++ 46 :: ext; content := bytes |}
  = dots ++ 46 :: ext.
Proof.
  intros Hd H1 H2 H3. unfold candidate_name_of. cbn [filename].
  assert (Hn : ~ In 47 dots).
  { intros H. rewrite forallb_forall in H1. specialize (H1 _ H). discriminate. }
  assert (Hs : ~ In 47 (dots ++ 46 :: ext)).
  { intros H. apply in_app_or in H as [H|[H|H]]; [auto|discriminate|auto]. }
  assert (B : basename (d ++ dots ++ 46 :: ext) = dots ++ 46 :: ext).
  { destruct Hd as [->|(d' & ->)].
    - apply basename_no_slash, Hs.
    - rewrite <- app_assoc. apply basename_after_slash, Hs. }
  rewrite B, splitext_root_stem by assumption. now rewrite H1.
Qed.

(** X12, an instance: the upload named ".pdf". *)
Lemma candidate_name_of_dotfile_witness :
  candidate_name_of {| filename := [] ++ [] ++ 46 :: str "pdf"; content := [] |}
  = [] ++ 46 :: str "pdf".
Proof.
  apply (candidate_name_of_dotfile [] [] (str "pdf") []).
  - now left.
  - reflexivity.
  - vm_compute. intuition lia.
  - vm_compute. intuition lia.
Defined.

Lemma be_bytes_bytes (k : nat) (n : Z) :
  List.length (SHA1.be_bytes k n) = k
  /\ Forall (fun b => 0 <= b < 256) (SHA1.be_bytes k n).
Proof.
  induction k as [|k [IH1 IH2]]; simpl; [split; [reflexivity|constructor]|].
  split; [now rewrite IH1|]. constructor; [|exact IH2].
  apply Z.mod_pos_bound. lia.
Qed.

Lemma hex_digit_hex (d : Z) :
  0 <= d < 16 -> is_hex_digit (SHA1.hex_digit d) = true.
Proof.
  intros H. unfold SHA1.hex_digit, is_hex_digit.
  destruct (Z.ltb_spec d 10).
  - replace ((48 <=? 48 + d) && (48 + d <=? 57)) with true; [reflexivity|].
    symmetry. apply andb_true_intro. split; apply Z.leb_le; lia.
  - replace ((97 <=? 87 + d) && (87 + d <=? 102)) with true;
      [apply orb_true_r|].
    symmetry. apply andb_true_intro. split; apply Z.leb_le; lia.
Qed.

Lemma hex_of_bytes (l : list Z) :
  Forall (fun b => 0 <= b < 256) l ->
  List.length
    (flat_map (fun b => [SHA1.hex_digit (b / 16); SHA1.hex_digit (b mod 16)]) l)
  = (2 * List.length l)%nat
  /\ forallb is_hex_digit
       (flat_map (fun b => [SHA1.hex_digit (b / 16); SHA1.hex_digit (b mod 16)]) l)
     = true.
Proof.
  induction 1 as [|b l Hb Hl [IH1 IH2]]; [split; reflexivity|].
  cbn [flat_map app List.length forallb]. rewrite IH1, IH2. split; [lia|].
  rewrite !hex_digit_hex; [reflexivity| |].
  - apply Z.mod_pos_bound. lia.
  - split; [apply Z.div_pos; lia|apply Z.div_lt_upper_bound; lia].
Qed.

(** [hexdigest] is 40 lowercase hexadecimal digits. *)
Lemma hexdigest_hex (msg : list Z) :
  List.length (SHA1.hexdigest msg) = 40%nat
  /\ forallb is_hex_digit (SHA1.hexdigest msg) = true.
Proof.
  unfold SHA1.hexdigest.
  assert (H : List.length (SHA1.digest msg) = 20%nat
              /\ Forall (fun b => 0 <= b < 256) (SHA1.digest msg)).
  { unfold SHA1.digest.
    destruct (SHA1.blocks _ _ _) as [[[[h0 h1] h2] h3] h4].
    split.
    - rewrite !length_app.
      rewrite !(proj1 (be_bytes_bytes 4 _)). reflexivity.
    - repeat (apply Forall_app; split); apply be_bytes_bytes. }
  destruct H as [H1 H2]. destruct (hex_of_bytes _ H2) as [L F].
  rewrite L, H1. auto.
Qed.

Lemma digits_fuel_digits (fuel : nat) :
  forall (n : Z) (acc : pystr),
    Forall (fun c => 48 <= c <= 57) acc ->
    Forall (fun c => 48 <= c <= 57) (digits_fuel fuel n acc).
Proof.
  induction fuel as [|fuel IH]; intros n acc H; simpl; [exact H|].
  assert (H' : Forall (fun c => 48 <= c <= 57) (48 + n mod 10 :: acc)).
  { constructor; [|exact H].
    pose proof (Z.mod_pos_bound n 10 ltac:(lia)). lia. }
  destruct (n <? 10); [exact H'|apply IH, H'].
Qed.

Lemma forallb_app_true {A : Type} (p : A -> bool) (a b : list A) :
  forallb p a = true -> forallb p b = true -> forallb p (a ++ b) = true.
Proof. intros Ha Hb. rewrite forallb_app, Ha, Hb. reflexivity. Qed.

Lemma encode_surrogate (s : pystr) :
  no_surrogate s = false -> encode s = Raise UnicodeEncodeError.
Proof.
  unfold no_surrogate. induction s as [|c s IH]; simpl; [discriminate|].
  destruct (is_surrogate c); [reflexivity|]. simpl.
  intros H. now rewrite (IH H).
Qed.

(** The text hashed for an identifier encodes exactly when the name does. *)
Lemma id_text_no_surrogate (name text : pystr) :
  no_surrogate (name ++ str ":" ++ str_of_int (len text)) = no_surrogate name.
Proof.
  unfold no_surrogate. rewrite forallb_app.
  replace (forallb _ (str ":" ++ str_of_int (len text))) with true;
    [apply andb_true_r|].
  symmetry. apply forallb_forall. intros c Hc.
  assert (D : Forall (fun c => 48 <= c <= 57) (str_of_int (len text))).
  { unfold str_of_int. pose proof (len_nonneg text).
    destruct (Z.ltb_spec (len text) 0); [lia|].
    apply digits_fuel_digits. constructor. }
  rewrite Forall_forall in D.
  assert (R : c < 55296).
  { destruct Hc as [<-|Hc]; [vm_compute; reflexivity|].
    specialize (D _ Hc). lia. }
  unfold is_surrogate. destruct (Z.leb_spec 55296 c); [lia|reflexivity].
Qed.

(** X13: a candidate identifier is always ten lowercase hexadecimal digits;
    the only failure is a candidate name with a lone surrogate, which cannot
    be encoded. *)
Theorem candidate_id_shape (name text : pystr) :
  match candidate_id name text with
  | Ok i =>
      no_surrogate name = true /\ len i = 10
      /\ forallb is_hex_digit i = true
  | Raise e => no_surrogate name = false /\ e = UnicodeEncodeError
  end.
Proof.
  unfold candidate_id.
  pose proof (id_text_no_surrogate name text) as N.
  destruct (no_surrogate name) eqn:Hn.
  - destruct (encode_no_surrogate _ N) as (bs & ->).
    destruct (hexdigest_hex bs) as [L F].
    rewrite slice_prefix by (unfold len; rewrite L; lia).
    change (Z.to_nat 10) with 10%nat.
    split; [reflexivity|]. split.
    + unfold len. rewrite length_firstn, L. reflexivity.
    + rewrite <- (firstn_skipn 10 (SHA1.hexdigest bs)), forallb_app in F.
      apply andb_prop in F. tauto.
  - rewrite (encode_surrogate _ N). auto.
Qed.

(* ================================================================== *)
(** * Further properties: the handler *)
(* ================================================================== *)

Lemma encode_ok_no_surrogate (s : pystr) (bs : list Z) :
  encode s = Ok bs -> no_surrogate s = true.
Proof.
  destruct (no_surrogate s) eqn:E; [reflexivity|].
  rewrite (encode_surrogate _ E). discriminate.
Qed.

(** Whenever the mock scorer returns, its score is a two-decimal float in
    [10, 100] and no request has been sent. *)
Lemma mock_score_candidate_ok_range (name qualities : pystr) (w w' : World)
      (x : pyfloat) :
  mock_score_candidate name qualities w = (Ok x, w') ->
  in_range 10 100 x /\ two_decimals x.
Proof.
  intros E.
  assert (H : no_surrogate (name ++ str ":" ++ qualities) = true).
  { unfold mock_score_candidate, bind, lift in E.
    destruct (encode (name ++ str ":" ++ qualities)) as [bs|] eqn:Eb;
      [|discriminate].
    eapply encode_ok_no_surrogate, Eb. }
  destruct (mock_score_candidate_value name qualities w H)
    as (r & k & w1 & E1 & Ek & Hr & _).
  rewrite E1 in E. injection E as <- <-.
  split; [|exists k; exact Ek].
  unfold in_range, FZ. cbn [fle]. split; apply Z.leb_le; lia.
Qed.

Lemma mock_score_candidate_requests (name qualities : pystr) (w : World) :
  requests (snd (mock_score_candidate name qualities w)) = requests w.
Proof.
  unfold mock_score_candidate, bind, lift, random_seed, random_uniform.
  destruct (encode (name ++ str ":" ++ qualities)); [|reflexivity].
  cbn [rng requests scorer_log].
  destruct (MT19937.uniform 10 100 _) as [x s1].
  destruct (py_round2 x); reflexivity.
Qed.

Section BatchFacts.

Variable py : PyRuntime.
Variable cfg : Config.
Variable qualities_text : pystr.

(** What a call of [openai_score_cv] does to the world, however it ends. *)
Lemma openai_score_cv_world (cv_text candidate_name : pystr) (w : World) :
  rng (snd (openai_score_cv py cfg qualities_text cv_text candidate_name w))
  = rng w
  /\ (requests w
      <= requests
           (snd (openai_score_cv py cfg qualities_text cv_text candidate_name w))
      <= requests w + 2)%nat.
Proof.
  destruct (openai_score_cv_cases cfg qualities_text cv_text candidate_name w)
    as [Hc|[[Hc (raw & mode & Hr)]|[Hc (e' & He)]]].
  - rewrite openai_score_cv_no_client by exact Hc. cbn [snd].
    split; [reflexivity|lia].
  - destruct (openai_score_cv_replied_world py cfg _ _ _ w raw mode Hc Hr)
      as (R & _ & Q).
    rewrite R, Q. split; [reflexivity|destruct mode; lia].
  - destruct (openai_score_cv_service_error py cfg _ _ _ w e' Hc He)
      as (_ & R & _ & Q).
    split; [exact R|lia].
Qed.

Lemma openai_score_cv_ok_two_decimals
      (cv_text candidate_name : pystr) (w w' : World) (res : ScoreResult) :
  openai_score_cv py cfg qualities_text cv_text candidate_name w = (Ok res, w') ->
  two_decimals (sr_score res).
Proof.
  intros H.
  destruct (openai_score_cv_cases cfg qualities_text cv_text candidate_name w)
    as [Hc|[[Hc (raw & mode & Hr)]|[Hc (e' & He)]]].
  - rewrite openai_score_cv_no_client in H by exact Hc. discriminate.
  - destruct (openai_score_cv_replied py cfg _ _ _ w raw mode Hc Hr)
      as (r & w1 & Er & E & _).
    rewrite E in H. injection H as <- _. cbn [sr_score].
    destruct (clamp_range r) as [R [C|[C|C]]].
    + rewrite C in *. eapply py_round2_two_decimals; eassumption.
    + rewrite C. apply two_decimals_bounds.
    + rewrite C. apply two_decimals_bounds.
  - destruct (openai_score_cv_service_error py cfg _ _ _ w e' Hc He) as [E _].
    rewrite H in E. discriminate.
Qed.

(** The score of one candidate, from either scorer. *)
Lemma score_step_score (name text : pystr) (w w' : World) (x : pyfloat) :
  score_step py cfg qualities_text name text w = (Ok x, w') ->
  in_range 0 100 x /\ two_decimals x
  /\ (USE_OPENAI cfg = false -> in_range 10 100 x).
Proof.
  intros H. split; [eapply score_step_ok, H|]. revert H.
  unfold score_step. destruct (USE_OPENAI cfg).
  - unfold bind at 1. unfold log_call at 1. unfold bind, ret.
    match goal with
    | |- context [openai_score_cv ?a ?b ?c ?d ?e ?w1] =>
        destruct (openai_score_cv a b c d e w1) as [[res|ex] w2] eqn:E
    end; [|discriminate].
    intros H. injection H as <- _.
    split; [eapply openai_score_cv_ok_two_decimals, E|discriminate].
  - unfold bind at 1. unfold log_call at 1. intros H.
    apply mock_score_candidate_ok_range in H. tauto.
Qed.

(** What the scoring of one candidate does to the world, however it ends. *)
Lemma score_step_world (name text : pystr) (w : World) :
  (USE_OPENAI cfg = true ->
   rng (snd (score_step py cfg qualities_text name text w)) = rng w
   /\ (requests w
       <= requests (snd (score_step py cfg qualities_text name text w))
       <= requests w + 2)%nat)
  /\ (USE_OPENAI cfg = false ->
      requests (snd (score_step py cfg qualities_text name text w))
      = requests w).
Proof.
  unfold score_step. destruct (USE_OPENAI cfg); (split; [|discriminate])
                     || (split; [discriminate|]); intros _.
  - match goal with
    | |- context [snd ?t] => remember t as r eqn:Er
    end.
    unfold bind at 1 in Er. unfold log_call at 1 in Er. unfold bind, ret in Er.
    match type of Er with
    | context [openai_score_cv ?a ?b ?c ?d ?e ?w1] =>
        pose proof (openai_score_cv_world d e w1) as L;
        destruct (openai_score_cv a b c d e w1) as [[res|ex] w2]
    end; subst r; cbn [snd rng requests] in *; exact L.
  - unfold bind at 1. unfold log_call at 1.
    match goal with
    | |- context [mock_score_candidate ?a ?b ?w1] =>
        rewrite (mock_score_candidate_requests a b w1)
    end. reflexivity.
Qed.

(** A loop that completes has appended one record per file, in upload
    order, and called the scorer once per file. *)
Lemma screen_loop_records (files : list UploadFile) :
  forall (acc rs : list CandidateRecord) (w w' : World),
    screen_loop py cfg qualities_text files acc w = (Ok rs, w') ->
    exists recs,
      rs = acc ++ recs
      /\ map name recs = map candidate_name_of files
      /\ map (fun r => Ok (id r)) recs = map (file_id cfg) files
      /\ Forall (fun r => url r = None) recs
      /\ Forall (fun r => in_range 0 100 (score r) /\ two_decimals (score r)
                          /\ (USE_OPENAI cfg = false ->
                              in_range 10 100 (score r))) recs
      /\ forallb (is_pdf_name py) files = true
      /\ scorer_log w'
         = scorer_log w ++ map (scorer_call_of cfg qualities_text) files.
Proof.
  induction files as [|f files IH]; intros acc rs w w'.
  - intros H. injection H as <- <-. exists [].
    rewrite !app_nil_r. repeat split; constructor.
  - rewrite screen_loop_cons. destruct (is_pdf_name py f) eqn:Hp; [|discriminate].
    pose proof (score_step_log py cfg qualities_text f w) as L.
    destruct (score_step py cfg qualities_text _ _ w) as [[x|e] w1] eqn:Es;
      [|discriminate].
    cbn [snd] in L.
    destruct (file_id cfg f) as [i|e] eqn:Ei; [|discriminate].
    intros H.
    destruct (IH _ _ _ _ H) as (recs & E & Hn & Hi & Hu & Hs & Hf & Hl).
    exists ({| id := i; name := candidate_name_of f; score := x; url := None |}
              :: recs).
    split; [rewrite E, <- app_assoc; reflexivity|].
    cbn [map forallb name id]. rewrite Hn, Hi, Ei, Hp, Hf.
    repeat split.
    + constructor; [reflexivity|exact Hu].
    + constructor; [|exact Hs]. cbn [score]. eapply score_step_score, Es.
    + rewrite Hl, L, <- app_assoc. reflexivity.
Qed.

(** What the loop does to the world, however it ends. *)
Lemma screen_loop_world (files : list UploadFile) :
  forall (acc : list CandidateRecord) (w : World),
    (USE_OPENAI cfg = true ->
     rng (snd (screen_loop py cfg qualities_text files acc w)) = rng w
     /\ (requests w
         <= requests (snd (screen_loop py cfg qualities_text files acc w))
         <= requests w + 2 * List.length files)%nat)
    /\ (USE_OPENAI cfg = false ->
        requests (snd (screen_loop py cfg qualities_text files acc w))
        = requests w).
Proof.
  induction files as [|f files IH]; intros acc w.
  - cbn [screen_loop ret snd List.length]. split; intros _; [split|]; lia || reflexivity.
  - rewrite screen_loop_cons. destruct (is_pdf_name py f).
    + pose proof (score_step_world (candidate_name_of f)
                    (extract_pdf_text cfg (content f)) w) as [S1 S2].
      destruct (score_step py cfg qualities_text _ _ w) as [[x|e] w1];
        cbn [snd] in *.
      * destruct (file_id cfg f) as [i|e].
        -- destruct (IH (acc ++ [{| id := i; name := candidate_name_of f;
                                    score := x; url := None |}]) w1)
             as [I1 I2].
           split; intros U.
           ++ destruct (S1 U) as [R Q]. destruct (I1 U) as [R' Q'].
              rewrite R', R. cbn [List.length]. split; [reflexivity|lia].
           ++ rewrite (I2 U). apply S2, U.
        -- cbn [snd]. split; intros U.
           ++ destruct (S1 U) as [R Q]. cbn [List.length].
              split; [exact R|lia].
           ++ apply S2, U.
      * split; intros U.
        -- destruct (S1 U) as [R Q]. cbn [List.length]. split; [exact R|lia].
        -- apply S2, U.
    + cbn [snd List.length]. split; intros _; [split|]; lia || reflexivity.
Qed.

(** A completed request went through the loop and the sort. *)
Lemma screen_candidates_ok_inv (files : list UploadFile) (qualities : pystr)
      (w w' : World) (rs : list CandidateRecord) :
  screen_candidates py cfg files qualities w = (Ok rs, w') ->
  files <> [] /\ strip qualities <> []
  /\ exists recs,
      screen_loop py cfg (normalize_qualities qualities) files [] w
      = (Ok recs, w')
      /\ rs = sort_by_score_desc recs.
Proof.
  unfold screen_candidates. destruct files as [|f files]; [discriminate|].
  destruct (strip qualities) as [|c s]; [discriminate|].
  unfold bind, ret.
  destruct (screen_loop py cfg (normalize_qualities qualities) (f :: files) [] w)
    as [[recs|e] w1]; [|discriminate].
  intros H. injection H as <- <-.
  split; [discriminate|]. split; [discriminate|]. exists recs. auto.
Qed.

End BatchFacts.

Lemma fst_snd_run {A : Type} (p : result A * World) (a : A) :
  fst p = Ok a -> p = (Ok a, snd p).
Proof. destruct p as [r w]. cbn [fst snd]. now intros ->. Qed.

(** X14: a batch that completes returns exactly one record per uploaded
    file, each with the file's candidate name and no URL, every file name
    ended in ".pdf", and the scorer was called exactly once per file, in
    upload order, with the bulleted qualities. *)
Theorem screen_candidates_complete
        (py : PyRuntime) (cfg : Config) (files : list UploadFile)
        (qualities : pystr) (w : World) (rs : list CandidateRecord) :
  fst (screen_candidates py cfg files qualities w) = Ok rs ->
  List.length rs = List.length files
  /\ Permutation (map name rs) (map candidate_name_of files)
  /\ Forall (fun r => url r = None) rs
  /\ forallb (is_pdf_name py) files = true
  /\ scorer_log (snd (screen_candidates py cfg files qualities w))
     = scorer_log w
         ++ map (scorer_call_of cfg (normalize_qualities qualities)) files.
Proof.
  intros H. apply fst_snd_run in H.
  destruct (screen_candidates_ok_inv py cfg _ _ _ _ _ H)
    as (_ & _ & recs & L & ->).
  destruct (screen_loop_records py cfg _ _ _ _ _ _ L)
    as (recs' & E & Hn & _ & Hu & _ & Hf & Hl).
  cbn [app] in E. subst recs'.
  pose proof (sort_by_score_desc_perm recs) as P.
  split; [|split; [|split; [|split]]].
  - rewrite (Permutation_length P), <- (length_map name), Hn. apply length_map.
  - rewrite <- Hn. apply Permutation_map, P.
  - eapply Permutation_Forall; [symmetry; exact P|exact Hu].
  - exact Hf.
  - exact Hl.
Qed.

(** X14, an instance: the two-candidate batch. *)
Lemma screen_candidates_complete_witness :
  List.length
    [{| id := str "b0dd7c706f"; name := str "high"; score := FZ 90;
        url := None |};
     {| id := str "965d200912"; name := str "low"; score := FZ 40;
        url := None |}]
  = List.length [upload "low.pdf" "cv one"; upload "high.pdf" "cv two!"]
  /\ Permutation
       (map name
            [{| id := str "b0dd7c706f"; name := str "high"; score := FZ 90;
                url := None |};
             {| id := str "965d200912"; name := str "low"; score := FZ 40;
                url := None |}])
       (map candidate_name_of
            [upload "low.pdf" "cv one"; upload "high.pdf" "cv two!"])
  /\ Forall (fun r => url r = None)
       [{| id := str "b0dd7c706f"; name := str "high"; score := FZ 90;
           url := None |};
        {| id := str "965d200912"; name := str "low"; score := FZ 40;
           url := None |}]
  /\ forallb (is_pdf_name ascii_runtime)
       [upload "low.pdf" "cv one"; upload "high.pdf" "cv two!"] = true
  /\ scorer_log
       (snd (screen_candidates ascii_runtime (demo_config [REPLY_40; REPLY_90])
               [upload "low.pdf" "cv one"; upload "high.pdf" "cv two!"]
               (str "python") demo_world))
     = scorer_log demo_world
         ++ map (scorer_call_of (demo_config [REPLY_40; REPLY_90])
                                (normalize_qualities (str "python")))
                [upload "low.pdf" "cv one"; upload "high.pdf" "cv two!"].
Proof.
  apply (screen_candidates_complete
           ascii_runtime (demo_config [REPLY_40; REPLY_90])
           [upload "low.pdf" "cv one"; upload "high.pdf" "cv two!"]
           (str "python") demo_world).
  vm_compute. reflexivity.
Defined.

(** X15: every score in the response of a completed batch lies in
    [0, 100] and is a float rounded to two decimals, whichever scorer ran;
    with the mock scorer it is at least 10. *)
Theorem screen_candidates_scores
        (py : PyRuntime) (cfg : Config) (files : list UploadFile)
        (qualities : pystr) (w : World) (rs : list CandidateRecord) :
  fst (screen_candidates py cfg files qualities w) = Ok rs ->
  Forall (fun r => in_range 0 100 (score r) /\ two_decimals (score r)
                   /\ (USE_OPENAI cfg = false -> in_range 10 100 (score r)))
         rs.
Proof.
  intros H. apply fst_snd_run in H.
  destruct (screen_candidates_ok_inv py cfg _ _ _ _ _ H)
    as (_ & _ & recs & L & ->).
  destruct (screen_loop_records py cfg _ _ _ _ _ _ L)
    as (recs' & E & _ & _ & _ & Hs & _).
  cbn [app] in E. subst recs'.
  eapply Permutation_Forall; [symmetry; apply sort_by_score_desc_perm|exact Hs].
Qed.

(** X15, an instance: the two-candidate batch. *)
Lemma screen_candidates_scores_witness :
  Forall (fun r => in_range 0 100 (score r) /\ two_decimals (score r)
                   /\ (USE_OPENAI (demo_config [REPLY_40; REPLY_90]) = false ->
                       in_range 10 100 (score r)))
         [{| id := str "b0dd7c706f"; name := str "high"; score := FZ 90;
             url := None |};
          {| id := str "965d200912"; name := str "low"; score := FZ 40;
             url := None |}].
Proof.
  apply (screen_candidates_scores
           ascii_runtime (demo_config [REPLY_40; REPLY_90])
           [upload "low.pdf" "cv one"; upload "high.pdf" "cv two!"]
           (str "python") demo_world).
  vm_compute. reflexivity.
Defined.

Lemma float_eqb_eq (x y : pyfloat) : float_eqb x y = true -> x = y.
Proof.
  destruct x, y; simpl; try discriminate; try reflexivity.
  intros H. apply Z.eqb_eq in H. now subst.
Qed.

Lemma flt_irrefl (x : pyfloat) : flt x x = false.
Proof. destruct x; simpl; try reflexivity. apply Z.ltb_irrefl. Qed.

(** Inserting a record moves it past records of other scores only. *)
Lemma insert_desc_filter (s : pyfloat) (r : CandidateRecord)
      (l : list CandidateRecord) :
  filter (fun x => float_eqb (score x) s) (insert_desc r l)
  = filter (fun x => float_eqb (score x) s) (r :: l).
Proof.
  induction l as [|x l IH]; [reflexivity|].
  cbn [insert_desc]. destruct (flt (score r) (score x)) eqn:E; [|reflexivity].
  cbn [filter]. rewrite IH. cbn [filter].
  destruct (float_eqb (score r) s) eqn:Er; [|reflexivity].
  destruct (float_eqb (score x) s) eqn:Ex; [|reflexivity].
  exfalso. apply float_eqb_eq in Er, Ex. rewrite Er, Ex, flt_irrefl in E.
  discriminate.
Qed.

Lemma sort_by_score_desc_stable (s : pyfloat) (l : list CandidateRecord) :
  filter (fun x => float_eqb (score x) s) (sort_by_score_desc l)
  = filter (fun x => float_eqb (score x) s) l.
Proof.
  induction l as [|x l IH]; [reflexivity|].
  change (sort_by_score_desc (x :: l))
    with (insert_desc x (sort_by_score_desc l)).
  rewrite insert_desc_filter. cbn [filter]. now rewrite IH.
Qed.

(** X16: the sort is stable: in the response of a completed batch,
    candidates with the same score keep their upload order.  The records in
    upload order are [recs]; those of any one score form the same list in
    the response as in [recs]. *)
Theorem screen_candidates_ties_in_upload_order
        (py : PyRuntime) (cfg : Config) (files : list UploadFile)
        (qualities : pystr) (w : World) (rs : list CandidateRecord) :
  fst (screen_candidates py cfg files qualities w) = Ok rs ->
  exists recs,
    map name recs = map candidate_name_of files
    /\ map (fun r => Ok (id r)) recs = map (file_id cfg) files
    /\ Permutation rs recs
    /\ forall s,
        filter (fun r => float_eqb (score r) s) rs
        = filter (fun r => float_eqb (score r) s) recs.
Proof.
  intros H. apply fst_snd_run in H.
  destruct (screen_candidates_ok_inv py cfg _ _ _ _ _ H)
    as (_ & _ & recs & L & ->).
  destruct (screen_loop_records py cfg _ _ _ _ _ _ L)
    as (recs' & E & Hn & Hi & _).
  cbn [app] in E. subst recs'. exists recs.
  split; [exact Hn|]. split; [exact Hi|].
  split; [apply sort_by_score_desc_perm|].
  intros s. apply sort_by_score_desc_stable.
Qed.

(** X16, an instance: two candidates both scored 40 stay in upload order,
    "b" before "a". *)
Lemma screen_candidates_ties_in_upload_order_witness :
  exists recs,
    map name recs
    = map candidate_name_of [upload "b.pdf" "cv one"; upload "a.pdf" "cv two!"]
    /\ map (fun r => Ok (id r)) recs
       = map (file_id (demo_config [REPLY_40; REPLY_40]))
             [upload "b.pdf" "cv one"; upload "a.pdf" "cv two!"]
    /\ Permutation
         [{| id := str "9e1c497b4e"; name := str "b"; score := FZ 40;
             url := None |};
          {| id := str "74ee41b7c1"; name := str "a"; score := FZ 40;
             url := None |}] recs
    /\ forall s,
        filter (fun r => float_eqb (score r) s)
               [{| id := str "9e1c497b4e"; name := str "b"; score := FZ 40;
                   url := None |};
                {| id := str "74ee41b7c1"; name := str "a"; score := FZ 40;
                   url := None |}]
        = filter (fun r => float_eqb (score r) s) recs.
Proof.
  apply (screen_candidates_ties_in_upload_order
           ascii_runtime (demo_config [REPLY_40; REPLY_40])
           [upload "b.pdf" "cv one"; upload "a.pdf" "cv two!"]
           (str "python") demo_world).
  vm_compute. reflexivity.
Defined.

(** X17: however a request ends, with the model scorer the handler never
    touches the random generator and sends at most two requests per
    uploaded file; with the mock scorer it sends none. *)
Theorem screen_candidates_footprint
        (py : PyRuntime) (cfg : Config) (files : list UploadFile)
        (qualities : pystr) (w : World) :
  let w' := snd (screen_candidates py cfg files qualities w) in
  (USE_OPENAI cfg = true ->
   rng w' = rng w
   /\ (requests w <= requests w' <= requests w + 2 * List.length files)%nat)
  /\ (USE_OPENAI cfg = false -> requests w' = requests w).
Proof.
  cbv zeta.
  assert (T : snd (screen_candidates py cfg files qualities w) = w
              \/ snd (screen_candidates py cfg files qualities w)
                 = snd (screen_loop py cfg (normalize_qualities qualities)
                                    files [] w)).
  { unfold screen_candidates. destruct files as [|f files]; [now left|].
    destruct (strip qualities); [now left|]. right.
    unfold bind, ret.
    destruct (screen_loop py cfg (normalize_qualities qualities) (f :: files) [] w)
      as [[recs|e] w1]; reflexivity. }
  destruct T as [->| ->].
  - split; intros _; [split|]; lia || reflexivity.
  - apply screen_loop_world.
Qed.

(* ================================================================== *)
(** * Further properties: the qualities *)
(* ================================================================== *)

(** One step of [splitlines]: a carriage return followed by a line feed is
    one line break. *)
Lemma splitlines_from_cons (c : Z) (rest cur : pystr) :
  splitlines_from (c :: rest) cur
  = if (c =? 13) && startswith rest [10]
    then rev cur :: splitlines_from (skipn 1 rest) []
    else if is_linebreak c then rev cur :: splitlines_from rest []
         else splitlines_from rest (c :: cur).
Proof.
  destruct (Z.eqb_spec c 13) as [->|N].
  - destruct rest as [|d rest]; [reflexivity|].
    cbn [andb startswith skipn].
    replace (startswith rest []) with true by (destruct rest; reflexivity).
    rewrite andb_true_r, Z.eqb_sym.
    destruct (Z.eqb_spec d 10) as [->|N]; [reflexivity|].
    destruct d as [|p|p]; try reflexivity.
    do 4 (destruct p as [p|p|]; try reflexivity). contradiction.
  - cbn [andb].
    destruct c as [|p|p]; try reflexivity.
    do 4 (destruct p as [p|p|]; try reflexivity). contradiction.
Qed.

Lemma is_linebreak_space (c : Z) : is_linebreak c = true -> is_space c = true.
Proof.
  unfold is_linebreak, is_space. intros H.
  repeat match type of H with
         | (_ || _) = true => apply orb_prop in H as [H|H]
         | (_ && _) = true => apply andb_prop in H as [? ?]
         end;
    repeat match goal with
           | H : (_ <=? _) = true |- _ => apply Z.leb_le in H
           | H : (_ =? _) = true |- _ => apply Z.eqb_eq in H
           end;
    repeat match goal with
           | |- (_ || _) = true => apply orb_true_iff
           | |- _ \/ _ =>
               first [left; apply andb_true_intro; split; apply Z.leb_le; lia
                     |left; apply Z.eqb_eq; lia
                     |right; apply andb_true_intro; split; apply Z.leb_le; lia
                     |right; apply Z.eqb_eq; lia
                     |left]
           end.
Qed.

Lemma startswith_lf (s : pystr) :
  startswith s [10] = true -> exists t, s = 10 :: t.
Proof.
  destruct s as [|d t]; [discriminate|]. cbn [startswith].
  intros H. apply andb_prop in H as [H _]. apply Z.eqb_eq in H. subst d.
  now exists t.
Qed.

(** Every character of a line comes from the text, and none is a line
    break. *)
Lemma splitlines_from_incl (n : nat) :
  forall (s cur : pystr), (List.length s <= n)%nat ->
    forall (l : pystr) (c : Z),
      In l (splitlines_from s cur) -> In c l ->
      (In c s /\ is_linebreak c = false) \/ In c cur.
Proof.
  induction n as [|n IH]; intros s cur Hn l c Hl Hc.
  - destruct s; [|simpl in Hn; lia]. simpl in Hl.
    destruct cur as [|x cur]; [contradiction|].
    destruct Hl as [<-|[]]. right. now apply in_rev.
  - destruct s as [|x rest].
    + simpl in Hl. destruct cur as [|y cur]; [contradiction|].
      destruct Hl as [<-|[]]. right. now apply in_rev.
    + rewrite splitlines_from_cons in Hl. cbn [List.length] in Hn.
      destruct ((x =? 13) && startswith rest [10]) eqn:E1.
      * apply andb_prop in E1 as [_ E1].
        destruct (startswith_lf _ E1) as (t & ->). cbn [skipn] in Hl.
        destruct Hl as [<-|Hl]; [right; now apply in_rev|].
        destruct (IH t [] ltac:(cbn [List.length] in Hn; lia) l c Hl Hc)
          as [[H1 H2]|[]].
        left. split; [right; right; exact H1|exact H2].
      * destruct (is_linebreak x) eqn:E2.
        -- destruct Hl as [<-|Hl]; [right; now apply in_rev|].
           destruct (IH rest [] ltac:(lia) l c Hl Hc) as [[H1 H2]|[]].
           left. split; [right; exact H1|exact H2].
        -- destruct (IH rest (x :: cur) ltac:(lia) l c Hl Hc)
             as [[H1 H2]|[<-|H]].
           ++ left. split; [right; exact H1|exact H2].
           ++ left. split; [now left|exact E2].
           ++ now right.
Qed.

(** Every character of the text that is not a line break is in a line. *)
Lemma splitlines_from_cover (n : nat) :
  forall (s cur : pystr), (List.length s <= n)%nat ->
    forall (c : Z), is_linebreak c = false -> In c s \/ In c cur ->
      exists l, In l (splitlines_from s cur) /\ In c l.
Proof.
  assert (B : forall (cur : pystr) (c : Z), In c cur ->
                exists l, In l (splitlines_from [] cur) /\ In c l).
  { intros cur c H. exists (rev cur). split; [|now apply in_rev in H].
    destruct cur; [contradiction|]. now left. }
  induction n as [|n IH]; intros s cur Hn c Hc H.
  - destruct s; [|simpl in Hn; lia].
    destruct H as [[]|H]. now apply B.
  - destruct s as [|x rest]; [destruct H as [[]|H]; now apply B|].
    rewrite splitlines_from_cons. cbn [List.length] in Hn.
    destruct ((x =? 13) && startswith rest [10]) eqn:E1.
    + apply andb_prop in E1 as [E0 E1]. apply Z.eqb_eq in E0. subst x.
      destruct (startswith_lf _ E1) as (t & ->). cbn [skipn].
      destruct H as [[<-|[<-|H]]|H]; try discriminate.
      * destruct (IH t [] ltac:(cbn [List.length] in Hn; lia) c Hc (or_introl H))
          as (l & Hl & Hcl).
        exists l. split; [now right|exact Hcl].
      * exists (rev cur). split; [now left|now apply in_rev in H].
    + destruct (is_linebreak x) eqn:E2.
      * destruct H as [[<-|H]|H]; [congruence| |].
        -- destruct (IH rest [] ltac:(lia) c Hc (or_introl H))
             as (l & Hl & Hcl).
           exists l. split; [now right|exact Hcl].
        -- exists (rev cur). split; [now left|now apply in_rev in H].
      * apply (IH rest (x :: cur) ltac:(lia) c Hc).
        destruct H as [[<-|H]|H]; [right; now left|now left|right; now right].
Qed.

Lemma strip_incl (s : pystr) (c : Z) : In c (strip s) -> In c s.
Proof.
  unfold strip, rstrip, lstrip. intros H. apply in_rev in H.
  apply drop_while_incl in H. apply in_rev in H.
  eapply drop_while_incl, H.
Qed.

Lemma join_incl (sep : pystr) (parts : list pystr) (c : Z) :
  In c (join sep parts) -> In c sep \/ exists p, In p parts /\ In c p.
Proof.
  induction parts as [|p parts IH]; [contradiction|].
  destruct parts as [|q parts].
  - intros H. right. exists p. split; [now left|exact H].
  - change (join sep (p :: q :: parts)) with (p ++ sep ++ join sep (q :: parts)).
    intros H. apply in_app_or in H as [H|H].
    + right. exists p. split; [now left|exact H].
    + apply in_app_or in H as [H|H]; [now left|].
      destruct (IH H) as [H'|(p' & Hp & Hc)]; [now left|].
      right. exists p'. split; [now right|exact Hc].
Qed.

(** The stripped non-blank lines of the qualities. *)
Lemma qualities_lines (qualities : pystr) :
  Forall (fun q => q <> [] /\ trimmed q
                   /\ forall c, In c q -> In c qualities /\ is_linebreak c = false)
         (map strip
              (filter (fun q => match strip q with [] => false | _ => true end)
                      (splitlines qualities))).
Proof.
  apply Forall_forall. intros q Hq. apply in_map_iff in Hq as (l & <- & Hl).
  apply filter_In in Hl as [Hl Hs].
  split; [|split].
  - destruct (strip l); [discriminate|discriminate].
  - apply strip_trimmed.
  - intros c Hc. apply strip_incl in Hc.
    destruct (splitlines_from_incl _ qualities [] (le_n _) l c Hl Hc)
      as [H|[]]. exact H.
Qed.

(** Qualities that are not blank have a non-blank line. *)
Lemma qualities_lines_nonempty (qualities : pystr) :
  strip qualities <> [] ->
  map strip
      (filter (fun q => match strip q with [] => false | _ => true end)
              (splitlines qualities)) <> [].
Proof.
  intros H.
  assert (E : exists c, In c qualities /\ is_space c = false).
  { destruct (forallb is_space qualities) eqn:F.
    - exfalso. apply H, strip_all_space, F.
    - clear H. induction qualities as [|x s IH]; [discriminate|].
      simpl in F. destruct (is_space x) eqn:Ex.
      + destruct (IH F) as (c & Hc & Hs). exists c. split; [now right|exact Hs].
      + exists x. split; [now left|exact Ex]. }
  destruct E as (c & Hc & Hs).
  assert (Hb : is_linebreak c = false).
  { destruct (is_linebreak c) eqn:B; [|reflexivity].
    apply is_linebreak_space in B. congruence. }
  destruct (splitlines_from_cover _ qualities [] (le_n _) c Hb (or_introl Hc))
    as (l & Hl & Hcl).
  assert (Hn : strip l <> []).
  { intros N. apply strip_nil_all_space in N. rewrite forallb_forall in N.
    specialize (N _ Hcl). congruence. }
  assert (I : In (strip l)
                 (map strip
                      (filter (fun q => match strip q with
                                        | [] => false
                                        | _ => true
                                        end) (splitlines qualities)))).
  { apply in_map. apply filter_In. split; [exact Hl|].
    destruct (strip l); [congruence|reflexivity]. }
  intros N. rewrite N in I. contradiction.
Qed.

(** X18: for qualities that pass the validation, the text handed to the
    scorers is always a bulleted list: one line "- q" per non-blank line of
    the input, each [q] stripped, not empty and free of line breaks.  The
    branch that passes the stripped input on unchanged is never taken. *)
Theorem normalize_qualities_bullets (qualities : pystr) :
  strip qualities <> [] ->
  exists q qs,
    normalize_qualities qualities
    = join [NL] (map (fun q => str "- " ++ q) (q :: qs))
    /\ Forall (fun q => q <> [] /\ trimmed q
                        /\ forall c, In c q ->
                                     In c qualities /\ is_linebreak c = false)
              (q :: qs).
Proof.
  intros H. pose proof (qualities_lines qualities) as F.
  pose proof (qualities_lines_nonempty qualities H) as N.
  unfold normalize_qualities.
  destruct (map strip _) as [|q qs]; [congruence|].
  exists q, qs. split; [reflexivity|exact F].
Qed.

(** X18, an instance: two qualities with blank lines and padding. *)
Lemma normalize_qualities_bullets_witness :
  exists q qs,
    normalize_qualities (str "  python " ++ [13; 10; 10] ++ str " sql")
    = join [NL] (map (fun q => str "- " ++ q) (q :: qs))
    /\ Forall (fun q => q <> [] /\ trimmed q
                        /\ forall c, In c q ->
                             In c (str "  python " ++ [13; 10; 10] ++ str " sql")
                             /\ is_linebreak c = false)
              (q :: qs).
Proof.
  apply (normalize_qualities_bullets
           (str "  python " ++ [13; 10; 10] ++ str " sql")).
  vm_compute. discriminate.
Defined.

(* ================================================================== *)
(** * Further properties: requests that complete, requests that fail *)
(* ================================================================== *)

Lemma no_surrogate_of (s : pystr) :
  (forall c, In c s -> is_surrogate c = false) -> no_surrogate s = true.
Proof.
  intros H. apply forallb_forall. intros c Hc. now rewrite (H c Hc).
Qed.

Lemma no_surrogate_In (s : pystr) (c : Z) :
  no_surrogate s = true -> In c s -> is_surrogate c = false.
Proof.
  unfold no_surrogate. rewrite forallb_forall. intros H Hc.
  specialize (H c Hc). now destruct (is_surrogate c).
Qed.

Lemma slice_incl (s : pystr) (a b : option Z) (c : Z) :
  In c (slice s a b) -> In c s.
Proof.
  unfold slice. intros H.
  match type of H with
  | In c (firstn ?n (skipn ?m s)) =>
      rewrite <- (firstn_skipn m s); apply in_or_app; right;
      rewrite <- (firstn_skipn n (skipn m s)); apply in_or_app; now left
  end.
Qed.

Lemma candidate_name_of_incl (f : UploadFile) (c : Z) :
  In c (candidate_name_of f) -> In c (filename f).
Proof.
  unfold candidate_name_of, splitext_root, basename. intros H.
  match type of H with
  | In c (if ?b then _ else _) => destruct b
  end.
  - apply slice_incl in H. eapply slice_incl, H.
  - eapply slice_incl, H.
Qed.

Lemma candidate_name_of_no_surrogate (f : UploadFile) :
  no_surrogate (filename f) = true -> no_surrogate (candidate_name_of f) = true.
Proof.
  intros H. apply no_surrogate_of. intros c Hc.
  eapply no_surrogate_In; [exact H|]. apply candidate_name_of_incl, Hc.
Qed.

Lemma normalize_qualities_no_surrogate (qualities : pystr) :
  no_surrogate qualities = true ->
  no_surrogate (normalize_qualities qualities) = true.
Proof.
  intros H. apply no_surrogate_of. intros c Hc.
  pose proof (qualities_lines qualities) as F. unfold normalize_qualities in Hc.
  destruct (map strip _) as [|q qs].
  - eapply no_surrogate_In; [exact H|]. eapply strip_incl, Hc.
  - apply join_incl in Hc as [[<-|[]]|(p & Hp & Hc)]; [reflexivity|].
    apply in_map_iff in Hp as (q0 & <- & Hq).
    apply in_app_or in Hc as [[<-|[<-|[]]]|Hc]; try reflexivity.
    rewrite Forall_forall in F. destruct (F q0 Hq) as (_ & _ & I).
    eapply no_surrogate_In; [exact H|]. apply I, Hc.
Qed.

Lemma file_id_ok (cfg : Config) (f : UploadFile) :
  no_surrogate (filename f) = true -> exists i, file_id cfg f = Ok i.
Proof.
  intros H. apply candidate_name_of_no_surrogate in H.
  unfold file_id, candidate_id.
  rewrite <- (id_text_no_surrogate _ (extract_pdf_text cfg (content f))) in H.
  destruct (encode_no_surrogate _ H) as (bs & ->). eexists. reflexivity.
Qed.

Section CompletionFacts.

Variable py : PyRuntime.
Variable cfg : Config.
Variable qualities_text : pystr.

(** With the mock scorer the loop completes on every batch of PDFs whose
    names can be encoded. *)
Lemma screen_loop_mock_total (files : list UploadFile) :
  USE_OPENAI cfg = false ->
  no_surrogate qualities_text = true ->
  forallb (is_pdf_name py) files = true ->
  forallb (fun f => no_surrogate (filename f)) files = true ->
  forall (acc : list CandidateRecord) (w : World),
  exists rs w', screen_loop py cfg qualities_text files acc w = (Ok rs, w').
Proof.
  intros U Hq. induction files as [|f files IH]; intros Hp Hn acc w.
  - eexists. eexists. reflexivity.
  - cbn [forallb] in Hp, Hn.
    apply andb_prop in Hp as [Hp Hp']. apply andb_prop in Hn as [Hn Hn'].
    rewrite screen_loop_cons, Hp.
    assert (S : exists x w1,
               score_step py cfg qualities_text (candidate_name_of f)
                          (extract_pdf_text cfg (content f)) w = (Ok x, w1)).
    { unfold score_step. rewrite U. unfold bind at 1. unfold log_call at 1.
      match goal with
      | |- context [mock_score_candidate ?a ?b ?w1] =>
          destruct (mock_score_candidate_value a b w1)
            as (r & k & w2 & E & _)
      end.
      - apply forallb_app_true;
          [apply candidate_name_of_no_surrogate, Hn|].
        apply forallb_app_true; [reflexivity|exact Hq].
      - rewrite E. eexists. eexists. reflexivity. }
    destruct S as (x & w1 & ->).
    destruct (file_id_ok cfg f Hn) as (i & ->).
    apply IH; assumption.
Qed.

(** With a model service that answers every structured-output request, the
    loop completes with one request per file. *)
Lemma screen_loop_model_total (files : list UploadFile) :
  USE_OPENAI cfg = true ->
  client cfg = true ->
  (forall n user, exists c, chat_create cfg n true SYSTEM_PROMPT user = Ok c) ->
  forallb (is_pdf_name py) files = true ->
  forallb (fun f => no_surrogate (filename f)) files = true ->
  forall (acc : list CandidateRecord) (w : World),
  exists rs w',
    screen_loop py cfg qualities_text files acc w = (Ok rs, w')
    /\ requests w' = (requests w + List.length files)%nat.
Proof.
  intros U Hc Hs. induction files as [|f files IH]; intros Hp Hn acc w.
  - exists acc, w. split; [reflexivity|cbn [List.length]; lia].
  - cbn [forallb] in Hp, Hn.
    apply andb_prop in Hp as [Hp Hp']. apply andb_prop in Hn as [Hn Hn'].
    rewrite screen_loop_cons, Hp.
    assert (S : exists x w1,
               score_step py cfg qualities_text (candidate_name_of f)
                          (extract_pdf_text cfg (content f)) w = (Ok x, w1)
               /\ requests w1 = S (requests w)).
    { unfold score_step. rewrite U. unfold bind at 1. unfold log_call at 1.
      unfold bind, ret.
      match goal with
      | |- context [openai_score_cv ?a ?b ?c ?d ?e ?w1] =>
          destruct (Hs (requests w1) (user_prompt c e d)) as (reply & Er);
          pose proof (replied_json b w1 SYSTEM_PROMPT (user_prompt c e d)
                                   reply Er) as R;
          destruct (openai_score_cv_replied a b c d e w1 _ _ Hc R)
            as (r & w2 & _ & E & _);
          pose proof (openai_score_cv_replied_world a b c d e w1 _ _ Hc R)
            as (_ & _ & Q);
          rewrite E in Q |- *
      end.
      cbn [snd requests] in Q. eexists. eexists.
      split; [reflexivity|]. rewrite Q. lia. }
    destruct S as (x & w1 & -> & Q).
    destruct (file_id_ok cfg f Hn) as (i & ->).
    destruct (IH Hp' Hn'
                 (acc ++ [{| id := i; name := candidate_name_of f;
                             score := x; url := None |}]) w1)
      as (rs & w' & E & Q').
    exists rs, w'. split; [exact E|]. rewrite Q', Q. cbn [List.length]. lia.
Qed.

End CompletionFacts.

(** X19: with the mock scorer, every request that passes the validation
    (some file, every name ending in ".pdf", qualities not blank) completes,
    whatever the files hold: unreadable PDFs give empty text, not an error.
    The names and the qualities must be free of lone surrogates. *)
Theorem screen_candidates_mock_completes
        (py : PyRuntime) (cfg : Config) (files : list UploadFile)
        (qualities : pystr) (w : World) :
  USE_OPENAI cfg = false ->
  files <> [] -> strip qualities <> [] ->
  forallb (is_pdf_name py) files = true ->
  forallb (fun f => no_surrogate (filename f)) files = true ->
  no_surrogate qualities = true ->
  exists rs w', screen_candidates py cfg files qualities w = (Ok rs, w').
Proof.
  intros U Hf Hq Hp Hn Hs.
  destruct (screen_loop_mock_total py cfg (normalize_qualities qualities) files
              U (normalize_qualities_no_surrogate _ Hs) Hp Hn [] w)
    as (rs & w' & E).
  unfold screen_candidates. destruct files as [|f files]; [congruence|].
  destruct (strip qualities); [congruence|].
  unfold bind, ret. rewrite E. eexists. eexists. reflexivity.
Qed.

(** X19, an instance: a file whose pages cannot be read. *)
Lemma screen_candidates_mock_completes_witness :
  exists rs w',
    screen_candidates ascii_runtime
      {| USE_OPENAI := false; OPENAI_API_KEY := None;
         chat_create := fun _ _ _ _ => Raise (ServiceError []);
         pdf_pages := fun _ => Raise ValueError;
         pdfminer_extract_text := None |}
      [upload "broken.PDF" "not a pdf"] (str "python") demo_world
    = (Ok rs, w').
Proof.
  apply (screen_candidates_mock_completes
           ascii_runtime
           {| USE_OPENAI := false; OPENAI_API_KEY := None;
              chat_create := fun _ _ _ _ => Raise (ServiceError []);
              pdf_pages := fun _ => Raise ValueError;
              pdfminer_extract_text := None |}
           [upload "broken.PDF" "not a pdf"] (str "python") demo_world).
  - reflexivity.
  - discriminate.
  - vm_compute. discriminate.
  - vm_compute. reflexivity.
  - vm_compute. reflexivity.
  - vm_compute. reflexivity.
Defined.

(** X20: with a client and a model service that answers every
    structured-output request, every request that passes the validation
    completes, whatever the service replies, and costs exactly one request
    per uploaded file. *)
Theorem screen_candidates_model_completes
        (py : PyRuntime) (cfg : Config) (files : list UploadFile)
        (qualities : pystr) (w : World) :
  USE_OPENAI cfg = true -> client cfg = true ->
  (forall n user, exists c, chat_create cfg n true SYSTEM_PROMPT user = Ok c) ->
  files <> [] -> strip qualities <> [] ->
  forallb (is_pdf_name py) files = true ->
  forallb (fun f => no_surrogate (filename f)) files = true ->
  exists rs w',
    screen_candidates py cfg files qualities w = (Ok rs, w')
    /\ requests w' = (requests w + List.length files)%nat.
Proof.
  intros U Hc Hs Hf Hq Hp Hn.
  destruct (screen_loop_model_total py cfg (normalize_qualities qualities) files
              U Hc Hs Hp Hn [] w)
    as (rs & w' & E & Q).
  unfold screen_candidates. destruct files as [|f files]; [congruence|].
  destruct (strip qualities); [congruence|].
  unfold bind, ret. rewrite E. eexists. eexists. split; [reflexivity|exact Q].
Qed.

(** X20, an instance: a service whose replies are not JSON. *)
Lemma screen_candidates_model_completes_witness :
  exists rs w',
    screen_candidates ascii_runtime (demo_config [])
      [upload "a.pdf" "cv"; upload "b.pdf" "cv"] (str "python") demo_world
    = (Ok rs, w')
    /\ requests w'
       = (requests demo_world
          + List.length [upload "a.pdf" "cv"; upload "b.pdf" "cv"])%nat.
Proof.
  apply (screen_candidates_model_completes
           ascii_runtime (demo_config [])
           [upload "a.pdf" "cv"; upload "b.pdf" "cv"] (str "python") demo_world).
  - reflexivity.
  - reflexivity.
  - intros n user. eexists. reflexivity.
  - discriminate.
  - vm_compute. discriminate.
  - vm_compute. reflexivity.
  - vm_compute. reflexivity.
Defined.

(** X21: with the model scorer switched on and no API key in the
    environment, every request that reaches the first file fails with
    status 500 "OpenAI client not initialized.": no request is sent and no
    file after the first is looked at. *)
Theorem screen_candidates_no_client
        (py : PyRuntime) (cfg : Config) (f : UploadFile)
        (rest : list UploadFile) (qualities : pystr) (w : World) :
  USE_OPENAI cfg = true -> client cfg = false ->
  strip qualities <> [] -> is_pdf_name py f = true ->
  screen_candidates py cfg (f :: rest) qualities w
  = (Raise (HTTPException 500 (str "OpenAI client not initialized.")),
     {| rng := rng w; requests := requests w;
        scorer_log :=
          scorer_log w
            ++ [scorer_call_of cfg (normalize_qualities qualities) f] |}).
Proof.
  intros U Hc Hq Hp. unfold screen_candidates.
  destruct (strip qualities); [congruence|].
  unfold bind at 1. rewrite screen_loop_cons, Hp.
  unfold score_step, scorer_call_of. rewrite U.
  unfold bind at 1. unfold log_call at 1. unfold bind at 1.
  rewrite openai_score_cv_no_client by exact Hc. reflexivity.
Qed.

(** X21, an instance: the model scorer without a key. *)
Lemma screen_candidates_no_client_witness :
  screen_candidates ascii_runtime
    {| USE_OPENAI := true; OPENAI_API_KEY := None;
       chat_create := fun _ _ _ _ => Ok None;
       pdf_pages := fun bs => Ok [Ok (Some bs)];
       pdfminer_extract_text := None |}
    (upload "a.pdf" "cv" :: [upload "notes.txt" "x"]) (str "python") demo_world
  = (Raise (HTTPException 500 (str "OpenAI client not initialized.")),
     {| rng := rng demo_world; requests := requests demo_world;
        scorer_log :=
          scorer_log demo_world
            ++ [scorer_call_of
                  {| USE_OPENAI := true; OPENAI_API_KEY := None;
                     chat_create := fun _ _ _ _ => Ok None;
                     pdf_pages := fun bs => Ok [Ok (Some bs)];
                     pdfminer_extract_text := None |}
                  (normalize_qualities (str "python")) (upload "a.pdf" "cv")] |}).
Proof.
  apply (screen_candidates_no_client
           ascii_runtime
           {| USE_OPENAI := true; OPENAI_API_KEY := None;
              chat_create := fun _ _ _ _ => Ok None;
              pdf_pages := fun bs => Ok [Ok (Some bs)];
              pdfminer_extract_text := None |}
           (upload "a.pdf" "cv") [upload "notes.txt" "x"] (str "python")
           demo_world).
  - reflexivity.
  - reflexivity.
  - vm_compute. discriminate.
  - vm_compute. reflexivity.
Defined.

(** X22: a request without files, or whose qualities are only whitespace,
    is refused with status 400 before anything else happens: no file name
    is checked, no text extracted, no scorer called.  The check of the
    files comes first. *)
Theorem screen_candidates_validation
        (py : PyRuntime) (cfg : Config) (files : list UploadFile)
        (qualities : pystr) (w : World) :
  files = [] \/ forallb is_space qualities = true ->
  screen_candidates py cfg files qualities w
  = (Raise (HTTPException 400
              (match files with
               | [] => str "No files uploaded."
               | _ => str "Qualities are required."
               end)), w).
Proof.
  intros H. unfold screen_candidates. destruct files as [|f files].
  - reflexivity.
  - destruct H as [H|H]; [discriminate|].
    rewrite (strip_all_space _ H). reflexivity.
Qed.

(** X22, an instance: blank qualities, sent with a file that is no PDF. *)
Lemma screen_candidates_validation_witness :
  screen_candidates ascii_runtime mock_config [upload "notes.txt" "x"]
                    (str "  " ++ [NL]) demo_world
  = (Raise (HTTPException 400
              (match [upload "notes.txt" "x"] with
               | [] => str "No files uploaded."
               | _ => str "Qualities are required."
               end)), demo_world).
Proof.
  apply (screen_candidates_validation
           ascii_runtime mock_config [upload "notes.txt" "x"]
           (str "  " ++ [NL]) demo_world).
  right. reflexivity.
Defined.

(* ================================================================== *)
(** * Further properties: what the reply parser can return *)
(* ================================================================== *)

Lemma first_split (c : Z) (s : pystr) :
  In c s -> exists a b, s = a ++ c :: b /\ ~ In c a.
Proof.
  induction s as [|x s IH]; [contradiction|].
  destruct (Z.eq_dec x c) as [->|N].
  - intros _. exists [], s. auto.
  - intros [E|H]; [contradiction|].
    destruct (IH H) as (a & b & -> & Ha). exists (x :: a), b.
    split; [reflexivity|]. intros [E|E]; [contradiction|auto].
Qed.

Lemma last_split (c : Z) (s : pystr) :
  In c s -> exists a b, s = a ++ c :: b /\ ~ In c b.
Proof.
  induction s as [|x s IH]; [contradiction|].
  destruct (in_dec Z.eq_dec c s) as [H|H].
  - intros _. destruct (IH H) as (a & b & -> & Hb). exists (x :: a), b. auto.
  - intros [->|E]; [|contradiction]. exists [], s. auto.
Qed.

(** Text with an opening brace somewhere before a closing brace is framed
    by its first opening and its last closing brace. *)
Lemma framed_exists (l r : Z) (pre mid post : pystr) :
  exists body, framed l r body (pre ++ l :: mid ++ r :: post).
Proof.
  destruct (first_split l (pre ++ [l])) as (a & a2 & Ea & Ha);
    [apply in_or_app; right; now left|].
  destruct (last_split r (r :: post)) as (m2 & b & Eb & Hb); [now left|].
  exists (a2 ++ mid ++ m2), a, b. split; [|auto].
  change (pre ++ l :: mid ++ r :: post)
    with (pre ++ [l] ++ mid ++ r :: post).
  rewrite app_assoc, Ea, Eb, <- !app_assoc. reflexivity.
Qed.

(** A JSON text that starts with a brace decodes to an object, if at all. *)
Lemma json_loads_brace (t : pystr) (v : json) :
  json_loads (LBRACE :: t) = Ok v -> exists d, v = JObject d.
Proof.
  unfold json_loads.
  change (Json.skip_ws (LBRACE :: t)) with (LBRACE :: t).
  destruct (Json.scan_once _ (LBRACE :: t)) as [[v' rest]|] eqn:E;
    [|discriminate].
  destruct (Json.skip_ws rest); [|discriminate].
  intros H. injection H as <-. revert E.
  destruct (2 * List.length (LBRACE :: t) + 2)%nat as [|f]; [discriminate|].
  cbn [Json.scan_once]. cbv zeta.
  change (startswith (LBRACE :: t) [34]) with false.
  replace (startswith (LBRACE :: t) [123]) with true
    by (cbn [startswith]; destruct t; reflexivity).
  case_parse; intros H; injection H as <- _; eexists; reflexivity.
Qed.

(** X23: when the reply holds an opening brace somewhere before a closing
    brace, [coerce_json_from_model] returns a dict or raises; a list, a
    number, a string, true, false or null can only come from a reply
    without such a pair of braces. *)
Theorem coerce_json_from_model_braces_dict
        (py : PyRuntime) (pre mid post : pystr) (v : json) :
  coerce_json_from_model py (pre ++ LBRACE :: mid ++ RBRACE :: post) = Ok v ->
  exists d, v = JObject d.
Proof.
  destruct (framed_exists LBRACE RBRACE pre mid post)
    as (body & a & b & E & Ha & Hb).
  rewrite E, coerce_framed by assumption. apply json_loads_brace.
Qed.

(** X23, an instance: an object inside a list. *)
Lemma coerce_json_from_model_braces_dict_witness :
  exists d, JObject [(str "score", JInt 80)] = JObject d.
Proof.
  apply (coerce_json_from_model_braces_dict
           ascii_runtime [91] (jstr "'score': 80") [93]).
  vm_compute. reflexivity.
Defined.

(** X24: a successful call of the mock scorer leaves the process-wide
    random generator in a state fixed by the name and the qualities alone:
    the state it had before is lost. *)
Theorem mock_score_candidate_reseeds
        (name qualities : pystr) (w1 w2 : World) :
  no_surrogate (name ++ str ":" ++ qualities) = true ->
  rng (snd (mock_score_candidate name qualities w1))
  = rng (snd (mock_score_candidate name qualities w2)).
Proof.
  intros H. destruct (encode_no_surrogate _ H) as (bs & Eb).
  unfold mock_score_candidate, bind, lift, random_seed, random_uniform.
  rewrite Eb. cbn [rng requests scorer_log].
  destruct (MT19937.uniform 10 100 _) as [x s1].
  destruct (py_round2 x); reflexivity.
Qed.

(** X24, an instance: two different generator states before the call. *)
Lemma mock_score_candidate_reseeds_witness :
  rng (snd (mock_score_candidate (str "a") (str "- python") demo_world))
  = rng (snd (mock_score_candidate (str "a") (str "- python")
                {| rng := MT19937.init_genrand 1; requests := 0;
                   scorer_log := [] |})).
Proof.
  apply (mock_score_candidate_reseeds (str "a") (str "- python")).
  vm_compute. reflexivity.
Defined.
